(** * bcx-js: the websocket multiplexer (socket.ts) and the trading client (bcx.ts)

    A shallow embedding of the two modules of the library and of the part of
    the JavaScript run time they depend on (promises, [await], the event
    emitter of a websocket), followed by the properties of the specification.

    Layout of the development:
    - the enumerations and records of [types.ts];
    - closures of the source, one constructor per function expression;
    - the program state and a state-and-exception monad;
    - promises and websockets;
    - [socket.ts], then [bcx.ts], function by function;
    - the event loop;
    - the properties.

    What is taken from the environment:
    - the websocket is the one of the [ws] package in its version 7, which
      [isomorphic-ws] gives on Node: a function attached with [on] is called
      with the frame text, one attached with [addEventListener] with a
      [MessageEvent], and [removeEventListener] removes both;
    - the server sends well-formed frames, whose [event] is one of the five
      of [ChannelEvent];
    - a write to an open websocket succeeds and its call-back runs at once;
    - a rejected promise nobody handles is lost (no exit of the process), and
      so is an exception that leaves a listener of a websocket;
    - an error event of a websocket tells whether it can be serialised;
    - the callbacks of the caller only observe the frames they are given;
    - one instance of [class Bcx] uses the socket module. *)

From Stdlib Require Import List String Ascii Bool Arith Lia.
Import ListNotations.
Open Scope string_scope.
Open Scope list_scope.
Set Implicit Arguments.

(** String concatenation, the [+] of the source. *)
Infix "+++" := String.append (right associativity, at level 60).

(** ** types.ts *)

Module Channel.
Inductive t :=
| AUTH | BALANCES | HEARTBEAT | MARKET_L2 | MARKET_L3
| PRICES | SYMBOLS | TICKER | TRADES | TRADING.

(** The string value of the enum member. *)
Definition name (c : t) : string :=
  match c with
  | AUTH => "auth" | BALANCES => "balances" | HEARTBEAT => "heartbeat"
  | MARKET_L2 => "l2" | MARKET_L3 => "l3" | PRICES => "prices"
  | SYMBOLS => "symbols" | TICKER => "ticker" | TRADES => "trades"
  | TRADING => "trading"
  end.

Definition eq_dec (a b : t) : {a = b} + {a <> b}.
Proof. decide equality. Defined.

(** [a === b] on members of the enum. *)
Definition eqb (a b : t) : bool := if eq_dec a b then true else false.

Lemma eqb_eq a b : eqb a b = true <-> a = b.
Proof. unfold eqb. destruct (eq_dec a b); split; congruence. Qed.

Lemma eqb_refl a : eqb a a = true.
Proof. apply eqb_eq. reflexivity. Qed.

Lemma eqb_neq a b : eqb a b = false <-> a <> b.
Proof. unfold eqb. destruct (eq_dec a b); split; congruence. Qed.
End Channel.

Module ChannelEvent.
Inductive t := SUBSCRIBED | UNSUBSCRIBED | REJECTED | SNAPSHOT | UPDATED.

Definition eq_dec (a b : t) : {a = b} + {a <> b}.
Proof. decide equality. Defined.

Definition eqb (a b : t) : bool := if eq_dec a b then true else false.

Lemma event_eqb_eq a b : eqb a b = true <-> a = b.
Proof. unfold eqb. destruct (eq_dec a b); split; congruence. Qed.
End ChannelEvent.

Module OrderStatus.
Inductive t := CANCELLED | EXPIRED | OPEN | PARTIAL | PENDING | REJECTED.

Definition eq_dec (a b : t) : {a = b} + {a <> b}.
Proof. decide equality. Defined.

Definition eqb (a b : t) : bool := if eq_dec a b then true else false.

Lemma status_eqb_eq a b : eqb a b = true <-> a = b.
Proof. unfold eqb. destruct (eq_dec a b); split; congruence. Qed.
End OrderStatus.

Module Action.
Inductive t := SUBSCRIBE | UNSUBSCRIBE | NEW_ORDER_SINGLE | CANCEL_ORDER_REQUEST.

(** The string value of the enum member. *)
Definition name (a : t) : string :=
  match a with
  | SUBSCRIBE => "subscribe" | UNSUBSCRIBE => "unsubscribe"
  | NEW_ORDER_SINGLE => "NewOrderSingle" | CANCEL_ORDER_REQUEST => "CancelOrderRequest"
  end.

Definition eq_dec (a b : t) : {a = b} + {a <> b}.
Proof. decide equality. Defined.
End Action.

(** [MarketLevel = 'l2' | 'l3'], cast to a [Channel] by the client. *)
Inductive MarketLevel := l2 | l3.

Definition level_as_Channel (level : MarketLevel) : Channel.t :=
  match level with l2 => Channel.MARKET_L2 | l3 => Channel.MARKET_L3 end.

(** *** Parameter sets and their serialisation

    The parameter objects of the library are flat objects with string values
    ([{}] and [{symbol: s}]); they are kept as the list of their own
    properties in insertion order, the order [JSON.stringify] follows. *)

Definition Params := list (string * string).

Definition dquote : ascii := ascii_of_nat 34.
Definition backslash : ascii := ascii_of_nat 92.

Fixpoint escape (s : string) : string :=
  match s with
  | EmptyString => EmptyString
  | String c r =>
      if Ascii.eqb c dquote || Ascii.eqb c backslash
      then String backslash (String c (escape r))
      else String c (escape r)
  end.

Definition quote (s : string) : string :=
  String dquote (escape s +++ String dquote EmptyString).

Fixpoint members (p : Params) : string :=
  match p with
  | [] => ""
  | [(k, v)] => quote k +++ ":" +++ quote v
  | (k, v) :: r => quote k +++ ":" +++ quote v +++ "," +++ members r
  end.

(** [JSON.stringify(params)] of a parameter object. *)
Definition JSON_stringify (p : Params) : string := "{" +++ members p +++ "}".

(** [JSON.stringify(params)] of an optional argument: [JSON.stringify(undefined)]
    is [undefined], which is a string to no one. *)
Definition JSON_stringify_opt (p : option Params) : option string :=
  option_map JSON_stringify p.

(** [a !== b] between a serialised object and a possibly undefined one. *)
Definition strict_neq (a : string) (b : option string) : bool :=
  match b with
  | Some b => negb (String.eqb a b)
  | None => true
  end.

(** *** Requests

    A request is the object the code builds and hands to [JSON.stringify]
    before the write: a flat object with string values, kept like a parameter
    object as the list of its own properties in insertion order. *)

Definition Request := Params.

(** [o[k]], undefined when [o] has no such property. *)
Definition property (k : string) (o : Params) : option string :=
  option_map snd (find (fun kv => String.eqb (fst kv) k) o).

(** [o[k] = v]: an own property keeps its place and takes the new value, a
    new property comes last. *)
Fixpoint set_property (k v : string) (o : Params) : Params :=
  match o with
  | [] => [(k, v)]
  | (k', v') :: r =>
      if String.eqb k' k then (k', v) :: r else (k', v') :: set_property k v r
  end.

(** [{...o, ...params}]: the properties of [params] are assigned to a copy of
    [o] in their order. *)
Definition spread (o params : Params) : Params :=
  fold_left (fun o kv => set_property (fst kv) (snd kv) o) params o.

(** The object literal [{action: action, channel: channel, ...fields}] of
    [subscribe], [unsubscribe] and the client; written with explicit
    properties after the first two in [authenticate] and [cancelOrder], which
    is the same object.  A property [action] or [channel] of [fields]
    replaces the one written before the spread. *)
Definition mkRequest (action : Action.t) (channel : Channel.t) (fields : Params) : Request :=
  spread [("action", Action.name action); ("channel", Channel.name channel)] fields.

Record OrderCreationRequest := mkOrderCreationRequest {
  req_clOrdID : string;
  req_rest : Params              (* symbol, orderQty, ordType, side, ... *)
}.

(** *** Responses *)

Module Order.
Record t := mk {
  orderID : string;
  clOrdID : string;
  symbol : string;
  ordStatus : OrderStatus.t
}.
End Order.

(** An inbound frame once parsed: [BaseResponse] and the fields of its
    extensions that the library reads.  An absent field is [None]. *)
Module Response.
Record t := mk {
  channel : Channel.t;
  event : ChannelEvent.t;
  text : option string;
  symbol : option string;
  orderID : option string;
  clOrdID : option string;
  ordStatus : option OrderStatus.t;
  orders : option (list Order.t)
}.
End Response.

(** String concatenation with a possibly undefined operand. *)
Definition to_string (s : option string) : string :=
  match s with Some s => s | None => "undefined" end.

(** [x === y] between a string and a possibly undefined property. *)
Definition strict_eq (x : string) (y : option string) : bool :=
  match y with Some y => String.eqb x y | None => false end.

(** *** Errors and promise values *)

Inductive Err :=
| Error (message : string)       (* new Error(message) *)
| TypeError (message : string)   (* raised by the run time *)
| SyntaxError (message : string) (* raised by JSON.parse *)
| Reason (s : string).           (* a bare string used as rejection reason *)

(** [new Error(json.text)]: an undefined message gives the empty message. *)
Definition Error_of (s : option string) : Err :=
  Error (match s with Some s => s | None => "" end).

Inductive Value :=
| undefined
| VSocket (ws : nat)
| VResponse (r : Response.t)
| VOrders (os : list Order.t)
| VOrder (o : Order.t).

(** How a promise was settled; a promise is [None] while it is pending. *)
Inductive Outcome :=
| Fulfilled (v : Value)
| Rejected (e : Err).

Definition Promise := option Outcome.

(** ** Closures

    Every function expression of the source that outlives the call creating
    it is a constructor carrying the variables the function closes over.  A
    captured [resolve]/[reject] pair is the index [p] of its promise.  A new
    promise is allocated for each evaluation of the enclosing code, so two
    closures are the same function object exactly when they are equal here. *)

(** The [listener] argument of [subscribe]: the caller's callback, or one of
    the callbacks [bcx.ts] builds. *)
Inductive ClientListener :=
| callback (id : nat)                            (* a function of the caller *)
| getTicker_cb (symbol : string) (p : nat)
| subscribeTicker_cb (cb : nat) (p : nat)
| getMarket_cb (symbol : string) (level : MarketLevel) (p : nat)
| subscribeMarket_cb (cb : nat) (p : nat)
| getBalances_cb (p : nat)
| subscribeBalances_cb (cb : nat) (p : nat)
| subscribeTrading_cb (cb : ClientListener) (p : nat)
| createOrder_cb (order : OrderCreationRequest) (p : nat)
| getOpenOrders_cb (p : nat)
| cancelOrder_cb (orderID : string) (p : nat)
| cancelAllOrders_cb (orders : nat) (p : nat).   (* [orders]: the captured array *)

(** [interface Listener].  The [socketHandler] member closes over [channel],
    [params] and the [resolve]/[reject] of the promise [subscribe] returns, so
    it is determined by the record; [resolver] is that promise. *)
Module Listener.
Record t := mk {
  channel : Channel.t;
  params : Params;
  clientListener : ClientListener;
  resolver : nat
}.
End Listener.

(** The functions attached to a websocket. *)
Inductive Handler :=
| authHandler (ws : nat) (p : nat)
| socketHandler (l : Listener.t)
| tmpSocketHandler (listener : Listener.t) (p : nat).

(** How a function was attached: [ws.on('message', f)] passes the frame text,
    [ws.addEventListener('message', f)] passes a [MessageEvent] whose [data]
    is the frame text. *)
Inductive Registration :=
| on (f : Handler)
| addEventListener (f : Handler).

Definition registered (r : Registration) : Handler :=
  match r with on f => f | addEventListener f => f end.

(** The rest of an [async] function after an [await] (or the callback of a
    [then]). *)
Inductive Cont :=
| send_1 (request : Request) (authToken : option string) (p : nat)
| send_2 (request : Request) (p : nat)
| subscribe_1 (channel : Channel.t) (listener : option ClientListener)
    (params : Params) (authToken : option string) (p : nat)
| subscribe_2 (channel : Channel.t) (listener : ClientListener)
    (params : Params) (p : nat)
| catch_reject (p : nat)                 (* try { await _ } catch (err) { reject(err) } *)
| then_resolve (p : nat) (v : Value)     (* await _; resolve(v) *)
| then_reject (p : nat) (e : Err)        (* await _; reject(e) *)
| then_resolve_orders (orders : nat) (p : nat)
| unsubcribeTrading_then (p : nat)
| return_undefined (p : nat)             (* await send(_); return Promise.resolve(undefined) *)
| getOrderByClientOrderId_1 (clOrdID : string) (p : nat)
| getOrder_1 (orderID : string) (p : nat)
| cancelOrder_1 (orderID : string) (p : nat)
| cancelAllOrders_1 (p : nat)
| cancelAllOrders_2 (orders : nat) (p : nat)
| cancelAllOrders_3 (orders : nat) (i : nat) (p : nat).

Definition string_pair_dec (a b : string * string) : {a = b} + {a <> b}.
Proof. decide equality; apply string_dec. Defined.

Definition Params_dec (a b : Params) : {a = b} + {a <> b} :=
  list_eq_dec string_pair_dec a b.

Definition OrderCreationRequest_dec (a b : OrderCreationRequest) : {a = b} + {a <> b}.
Proof. decide equality; [apply Params_dec | apply string_dec]. Defined.

Definition ClientListener_dec (a b : ClientListener) : {a = b} + {a <> b}.
Proof.
  decide equality;
    try apply Nat.eq_dec; try apply string_dec;
    try apply OrderCreationRequest_dec; decide equality.
Defined.

Definition Listener_dec (a b : Listener.t) : {a = b} + {a <> b}.
Proof.
  decide equality;
    [apply Nat.eq_dec | apply ClientListener_dec | apply Params_dec | apply Channel.eq_dec].
Defined.

Definition Handler_dec (a b : Handler) : {a = b} + {a <> b}.
Proof. decide equality; try apply Nat.eq_dec; apply Listener_dec. Defined.

Definition same_function (f g : Handler) : bool :=
  if Handler_dec f g then true else false.

(** ** The program state *)

Module WebSocket.
Inductive ReadyState := CONNECTING | OPEN | CLOSED.

(** A websocket object: its state, its 'message' listeners in the order they
    were attached, the frames written to it, and the promise of the
    [getSocket] call that created it ([onopen], [onerror] and [onclose]
    close over its [resolve]/[reject]). *)
Record t := mk {
  readyState : ReadyState;
  message : list Registration;
  sent : list Request;
  opening : nat
}.
End WebSocket.

(** An instance of [class Bcx]. *)
Record Bcx := mkBcx {
  apiSecret : option string;
  isSubscribedTrading : bool
}.

Record State := mkState {
  sockets : list WebSocket.t;          (* every websocket created, by allocation index *)
  _ws : option nat;                    (* socket.ts: let _ws *)
  listeners : list Listener.t;         (* socket.ts: let listeners *)
  isAuthed : bool;                     (* socket.ts: let isAuthed *)
  promises : list Promise;             (* every promise created, by allocation index *)
  reactions : list (nat * Cont);       (* continuations waiting for a pending promise *)
  jobs : list (Cont * Outcome);        (* the microtask queue *)
  arrays : list (list Order.t);        (* the order arrays captured by cancelAllOrders *)
  this : Bcx;                          (* the client instance *)
  calls : list (nat * Response.t);     (* calls made to the caller's callbacks *)
  uncaught : list Err                  (* exceptions that left an event listener *)
}.

Definition set_sockets x st := mkState x (_ws st) (listeners st) (isAuthed st)
  (promises st) (reactions st) (jobs st) (arrays st) (this st) (calls st) (uncaught st).
Definition set__ws x st := mkState (sockets st) x (listeners st) (isAuthed st)
  (promises st) (reactions st) (jobs st) (arrays st) (this st) (calls st) (uncaught st).
Definition set_listeners x st := mkState (sockets st) (_ws st) x (isAuthed st)
  (promises st) (reactions st) (jobs st) (arrays st) (this st) (calls st) (uncaught st).
Definition set_isAuthed x st := mkState (sockets st) (_ws st) (listeners st) x
  (promises st) (reactions st) (jobs st) (arrays st) (this st) (calls st) (uncaught st).
Definition set_promises x st := mkState (sockets st) (_ws st) (listeners st) (isAuthed st)
  x (reactions st) (jobs st) (arrays st) (this st) (calls st) (uncaught st).
Definition set_reactions x st := mkState (sockets st) (_ws st) (listeners st) (isAuthed st)
  (promises st) x (jobs st) (arrays st) (this st) (calls st) (uncaught st).
Definition set_jobs x st := mkState (sockets st) (_ws st) (listeners st) (isAuthed st)
  (promises st) (reactions st) x (arrays st) (this st) (calls st) (uncaught st).
Definition set_arrays x st := mkState (sockets st) (_ws st) (listeners st) (isAuthed st)
  (promises st) (reactions st) (jobs st) x (this st) (calls st) (uncaught st).
Definition set_this x st := mkState (sockets st) (_ws st) (listeners st) (isAuthed st)
  (promises st) (reactions st) (jobs st) (arrays st) x (calls st) (uncaught st).
Definition set_calls x st := mkState (sockets st) (_ws st) (listeners st) (isAuthed st)
  (promises st) (reactions st) (jobs st) (arrays st) (this st) x (uncaught st).
Definition set_uncaught x st := mkState (sockets st) (_ws st) (listeners st) (isAuthed st)
  (promises st) (reactions st) (jobs st) (arrays st) (this st) (calls st) x.

(** The state of a freshly loaded module and of [new Bcx(apiSecret)]. *)
Definition initial (apiSecret : option string) : State :=
  mkState [] None [] false [] [] [] [] (mkBcx apiSecret false) [] [].

(** Replacement of the element at an index; nothing happens out of range. *)
Fixpoint update {A} (n : nat) (x : A) (l : list A) : list A :=
  match l, n with
  | [], _ => []
  | _ :: r, O => x :: r
  | a :: r, S n => a :: update n x r
  end.

(** ** A monad for state and exceptions *)

Inductive Completion (A : Type) :=
| Normal (a : A)
| Throw (e : Err).
Arguments Normal {A} a.
Arguments Throw {A} e.

Definition M (A : Type) := State -> Completion A * State.

Definition ret {A} (a : A) : M A := fun st => (Normal a, st).

Definition bind {A B} (m : M A) (k : A -> M B) : M B :=
  fun st =>
    match m st with
    | (Normal a, st') => k a st'
    | (Throw e, st') => (Throw e, st')
    end.

Definition throw {A} (e : Err) : M A := fun st => (Throw e, st).

(** [try { m } catch (err) { h err }] *)
Definition try_catch {A} (m : M A) (h : Err -> M A) : M A :=
  fun st =>
    match m st with
    | (Normal a, st') => (Normal a, st')
    | (Throw e, st') => h e st'
    end.

Definition get {A} (f : State -> A) : M A := fun st => (Normal (f st), st).
Definition modify (f : State -> State) : M unit := fun st => (Normal tt, f st).

Declare Scope monad_scope.
Delimit Scope monad_scope with monad.
Notation "x <- m ;; k" := (bind m (fun x => k))
  (at level 61, m at next level, right associativity) : monad_scope.
Notation "m ;; k" := (bind m (fun _ => k))
  (at level 61, right associativity) : monad_scope.
Open Scope monad_scope.

Definition when (b : bool) (m : M unit) : M unit := if b then m else ret tt.

(** The state a computation ends in, whatever its completion. *)
Definition exec {A} (m : M A) (st : State) : State := snd (m st).

(** A function whose own promise nobody keeps ([async] callbacks and [async]
    promise executors): an exception ends it and is lost. *)
Definition async {A} (m : M A) : M unit :=
  try_catch (m ;; ret tt) (fun _ => ret tt).

(** ** Promises *)

Definition new_Promise : M nat :=
  fun st => (Normal (List.length (promises st)), set_promises (promises st ++ [None]) st).

(** The state of promise [p]. *)
Definition promise (p : nat) (st : State) : Promise := nth p (promises st) None.

Definition waits_for (p : nat) (r : nat * Cont) : bool := Nat.eqb (fst r) p.

(** [resolve]/[reject] of promise [p]: the first call settles it and queues
    the continuations waiting for it; later calls do nothing. *)
Definition settle (p : nat) (o : Outcome) : M unit :=
  fun st =>
    match nth_error (promises st) p with
    | Some None =>
        (Normal tt,
         set_jobs (jobs st ++ map (fun r => (snd r, o)) (filter (waits_for p) (reactions st)))
           (set_reactions (filter (fun r => negb (waits_for p r)) (reactions st))
              (set_promises (update p (Some o) (promises st)) st)))
    | _ => (Normal tt, st)
    end.

Definition resolve (p : nat) (v : Value) : M unit := settle p (Fulfilled v).
Definition reject (p : nat) (e : Err) : M unit := settle p (Rejected e).

(** [await p] with [k] the rest of the function. *)
Definition await (p : nat) (k : Cont) : M unit :=
  fun st =>
    match promise p st with
    | Some o => (Normal tt, set_jobs (jobs st ++ [(k, o)]) st)
    | None => (Normal tt, set_reactions (reactions st ++ [(p, k)]) st)
    end.

(** ** Websockets (the [ws] package behind [isomorphic-ws]) *)

Definition new_WebSocket (opening : nat) : M nat :=
  fun st =>
    (Normal (List.length (sockets st)),
     set_sockets (sockets st ++ [WebSocket.mk WebSocket.CONNECTING [] [] opening]) st).

Definition socket (ws : nat) (st : State) : option WebSocket.t :=
  nth_error (sockets st) ws.

Definition on_socket (ws : nat) (f : WebSocket.t -> WebSocket.t) : M unit :=
  modify (fun st =>
    match socket ws st with
    | Some s => set_sockets (update ws (f s) (sockets st)) st
    | None => st
    end).

Definition attach (r : Registration) (s : WebSocket.t) : WebSocket.t :=
  WebSocket.mk (WebSocket.readyState s) (WebSocket.message s ++ [r])
    (WebSocket.sent s) (WebSocket.opening s).

(** Both ways of attaching are undone by [removeEventListener], which drops
    every registration of the function. *)
Definition detach (f : Handler) (s : WebSocket.t) : WebSocket.t :=
  WebSocket.mk (WebSocket.readyState s)
    (filter (fun r => negb (same_function (registered r) f)) (WebSocket.message s))
    (WebSocket.sent s) (WebSocket.opening s).

Definition write (request : Request) (s : WebSocket.t) : WebSocket.t :=
  WebSocket.mk (WebSocket.readyState s) (WebSocket.message s)
    (WebSocket.sent s ++ [request]) (WebSocket.opening s).

Definition set_readyState (x : WebSocket.ReadyState) (s : WebSocket.t) : WebSocket.t :=
  WebSocket.mk x (WebSocket.message s) (WebSocket.sent s) (WebSocket.opening s).

(** Evaluation of a member access on [undefined]. *)
Definition defined (ws : option nat) : M nat :=
  match ws with
  | Some w => ret w
  | None => throw (TypeError "Cannot read properties of undefined")
  end.

Definition ws_on (ws : option nat) (f : Handler) : M unit :=
  w <- defined ws ;; on_socket w (attach (on f)).

Definition ws_addEventListener (ws : option nat) (f : Handler) : M unit :=
  w <- defined ws ;; on_socket w (attach (addEventListener f)).

Definition ws_removeEventListener (ws : option nat) (f : Handler) : M unit :=
  w <- defined ws ;; on_socket w (detach f).

(** [ws.send(data, cb)].  A socket that is still connecting throws; an open
    one takes the frame and calls back without error; a closed one calls back
    with an error.  The call-back is run at once. *)
Definition ws_send (ws : option nat) (request : Request) (cb : option Err -> M unit) : M unit :=
  w <- defined ws ;;
  s <- get (socket w) ;;
  match option_map WebSocket.readyState s with
  | Some WebSocket.OPEN => on_socket w (write request) ;; cb None
  | Some WebSocket.CONNECTING =>
      throw (Error "WebSocket is not open: readyState 0 (CONNECTING)")
  | _ => cb (Some (Error "WebSocket is not open: readyState 3 (CLOSED)"))
  end.

(** ** socket.ts *)

Definition flush : M unit :=
  modify (set__ws None) ;;
  modify (set_listeners []) ;;
  modify (set_isAuthed false).

(** The call-back [(err) => { if (err) { return reject(err) } }]. *)
Definition reject_on_error (p : nat) (err : option Err) : M unit :=
  match err with
  | Some e => reject p e
  | None => ret tt
  end.

Definition authenticate (ws : option nat) (authToken : string) : M nat :=
  let req := mkRequest Action.SUBSCRIBE Channel.AUTH [("token", authToken)] in
  p <- new_Promise ;;
  authed <- get isAuthed ;;
  (if authed then resolve p undefined
   else
     try_catch
       (w <- defined ws ;;
        ws_addEventListener ws (authHandler w p) ;;
        global <- get _ws ;;
        ws_send global req (reject_on_error p))
       (reject p)) ;;
  ret p.

Definition getSocket : M nat :=
  p <- new_Promise ;;
  new_WebSocket p ;;
  ret p.

(** [if (authToken)]: a string is truthy unless it is empty. *)
Definition truthy (authToken : option string) : option string :=
  match authToken with
  | Some "" => None
  | other => other
  end.

(** The tail [return new Promise(...)] of [send]. *)
Definition send_write (request : Request) (p : nat) : M unit :=
  try_catch
    (global <- get _ws ;;
     ws_send global request
       (fun err => match err with Some e => reject p e | None => resolve p undefined end))
    (reject p).

(** [send] from [if (authToken)] on. *)
Definition send_authenticate (request : Request) (authToken : option string) (p : nat) : M unit :=
  match truthy authToken with
  | Some token =>
      global <- get _ws ;;
      a <- authenticate global token ;;
      await a (send_2 request p)
  | None => send_write request p
  end.

Definition send (request : Request) (authToken : option string) : M nat :=
  p <- new_Promise ;;
  try_catch
    (global <- get _ws ;;
     match global with
     | None => s <- getSocket ;; await s (send_1 request authToken p)
     | Some _ => send_authenticate request authToken p
     end)
    (reject p) ;;
  ret p.

Definition is_listener (channel : Channel.t) (params : Params) (l : Listener.t) : bool :=
  Channel.eqb (Listener.channel l) channel
  && String.eqb (JSON_stringify (Listener.params l)) (JSON_stringify params).

(** [getListener(channel, params = {})] *)
Definition getListener (channel : Channel.t) (params : option Params) (st : State)
  : option Listener.t :=
  find (is_listener channel (match params with Some p => p | None => [] end)) (listeners st).

(** The predicate of the [filter] in [unsubscribe]. *)
Definition kept (channel : Channel.t) (params : option Params) (l : Listener.t) : bool :=
  negb (Channel.eqb (Listener.channel l) channel)
  && strict_neq (JSON_stringify (Listener.params l)) (JSON_stringify_opt params).

Definition unsubscribe (channel : Channel.t) (params : option Params) : M nat :=
  p <- new_Promise ;;
  try_catch
    (listener <- get (getListener channel params) ;;
     global <- get _ws ;;
     match global, listener with
     | Some _, Some listener =>
         modify (fun st => set_listeners (filter (kept channel params) (listeners st)) st) ;;
         ws_removeEventListener global (socketHandler listener) ;;
         (* return new Promise(...) *)
         global <- get _ws ;;
         ws_addEventListener global (tmpSocketHandler listener p) ;;
         let req := mkRequest Action.UNSUBSCRIBE channel
                      (match params with Some p => p | None => [] end) in
         global <- get _ws ;;
         ws_send global req (reject_on_error p)
     | _, _ =>
         throw (Error ("You are not subscribed to the channel " +++ Channel.name channel))
     end)
    (reject p) ;;
  ret p.

(** The executor of the promise [subscribe] returns. *)
Definition subscribe_register (channel : Channel.t) (listener : ClientListener)
    (params : Params) (p : nat) : M unit :=
  try_catch
    (let handler := Listener.mk channel params listener p in
     modify (fun st => set_listeners (listeners st ++ [handler]) st) ;;
     let req := mkRequest Action.SUBSCRIBE channel params in
     global <- get _ws ;;
     ws_on global (socketHandler handler) ;;
     global <- get _ws ;;
     ws_send global req (reject_on_error p))
    (reject p).

(** [subscribe] from [if (!listener)] on. *)
Definition subscribe_checks (channel : Channel.t) (listener : option ClientListener)
    (params : Params) (authToken : option string) (p : nat) : M unit :=
  match listener with
  | None =>
      reject p (Error "You must pass a valid listener to the subscription event")
  | Some listener =>
      found <- get (getListener channel (Some params)) ;;
      match found with
      | Some _ =>
          reject p (Error ("You already have a listener set for channel "
                           +++ Channel.name channel))
      | None =>
          match truthy authToken with
          | Some token =>
              global <- get _ws ;;
              a <- authenticate global token ;;
              await a (subscribe_2 channel listener params p)
          | None => subscribe_register channel listener params p
          end
      end
  end.

Definition subscribe (channel : Channel.t) (listener : option ClientListener)
    (params : Params) (authToken : option string) : M nat :=
  p <- new_Promise ;;
  try_catch
    (global <- get _ws ;;
     match global with
     | None => s <- getSocket ;; await s (subscribe_1 channel listener params authToken p)
     | Some _ => subscribe_checks channel listener params authToken p
     end)
    (reject p) ;;
  ret p.

(** ** bcx.ts: the callbacks handed to [subscribe] *)

Definition subscribed_to_trading (st : State) : bool := isSubscribedTrading (this st).

Definition set_isSubscribedTrading (b : bool) : M unit :=
  modify (fun st => set_this (mkBcx (apiSecret (this st)) b) st).

Definition set_apiSecret (secret : option string) : M unit :=
  modify (fun st => set_this (mkBcx secret (isSubscribedTrading (this st))) st).

(** The array captured by a [cancelAllOrders] call. *)
Definition array (orders : nat) (st : State) : list Order.t := nth orders (arrays st) [].

Definition new_array (os : list Order.t) : M nat :=
  fun st => (Normal (List.length (arrays st)), set_arrays (arrays st ++ [os]) st).

Definition cancelled (o : Order.t) : Order.t :=
  Order.mk (Order.orderID o) (Order.clOrdID o) (Order.symbol o) OrderStatus.CANCELLED.

(** [orders.find(test).ordStatus = OrderStatus.CANCELLED]: the first order
    passing the test is changed in place; [None] when there is none, where the
    assignment is to a property of [undefined]. *)
Fixpoint cancel_first (test : Order.t -> bool) (os : list Order.t) : option (list Order.t) :=
  match os with
  | [] => None
  | o :: r =>
      if test o then Some (cancelled o :: r)
      else option_map (cons o) (cancel_first test r)
  end.

Definition is_open (o : Order.t) : bool :=
  negb (OrderStatus.eqb (Order.ordStatus o) OrderStatus.CANCELLED).

Definition is_cancelled (s : option OrderStatus.t) : bool :=
  match s with
  | Some s => OrderStatus.eqb s OrderStatus.CANCELLED
  | None => false
  end.

Definition symbol_params (symbol : string) : Params := [("symbol", symbol)].

(** A call of a function of the caller: the model records it. *)
Definition call_callback (id : nat) (res : Response.t) : M unit :=
  modify (fun st => set_calls (calls st ++ [(id, res)]) st).

(** [listener(json)] for each closure of [ClientListener].  All callbacks of
    [bcx.ts] but the one of [getOpenOrders] are [async] functions. *)
Fixpoint call (listener : ClientListener) (res : Response.t) : M unit :=
  match listener with
  | callback id => call_callback id res
  | getTicker_cb symbol p =>
      async
        (if ChannelEvent.eqb (Response.event res) ChannelEvent.SNAPSHOT then
           q <- unsubscribe Channel.TICKER (Some (symbol_params symbol)) ;;
           await q (then_resolve p (VResponse res))
         else ret tt)
  | subscribeTicker_cb cb p =>
      async (call_callback cb res ;; resolve p undefined)
  | getMarket_cb symbol level p =>
      async
        (if ChannelEvent.eqb (Response.event res) ChannelEvent.SNAPSHOT then
           q <- unsubscribe (level_as_Channel level) (Some (symbol_params symbol)) ;;
           await q (then_resolve p (VResponse res))
         else ret tt)
  | subscribeMarket_cb cb p =>
      async (call_callback cb res ;; resolve p undefined)
  | getBalances_cb p =>
      async
        (if ChannelEvent.eqb (Response.event res) ChannelEvent.SNAPSHOT then
           q <- unsubscribe Channel.BALANCES None ;;
           await q (then_resolve p (VResponse res))
         else ret tt)
  | subscribeBalances_cb cb p =>
      async (call_callback cb res ;; resolve p undefined)
  | subscribeTrading_cb cb p =>
      async
        (when (ChannelEvent.eqb (Response.event res) ChannelEvent.SUBSCRIBED)
           (set_isSubscribedTrading true) ;;
         call cb res ;;
         resolve p undefined)
  | createOrder_cb order p =>
      async
        (match Response.event res with
         | ChannelEvent.SUBSCRIBED | ChannelEvent.UNSUBSCRIBED | ChannelEvent.SNAPSHOT =>
             ret tt
         | ChannelEvent.UPDATED =>
             if strict_eq (req_clOrdID order) (Response.clOrdID res) then
               q <- unsubscribe Channel.TRADING None ;;
               await q (then_resolve p (VResponse res))
             else ret tt
         | ChannelEvent.REJECTED =>
             q <- unsubscribe Channel.TRADING None ;;
             await q (then_reject p
                        (Error ("Order " +++ req_clOrdID order +++ " rejected because "
                                +++ to_string (Response.text res))))
         end)
  | getOpenOrders_cb p =>
      match Response.event res with
      | ChannelEvent.SNAPSHOT =>
          resolve p (match Response.orders res with
                     | Some os => VOrders os
                     | None => undefined
                     end)
      | _ => ret tt
      end
  | cancelOrder_cb orderID p =>
      async
        (match Response.event res with
         | ChannelEvent.SUBSCRIBED | ChannelEvent.UNSUBSCRIBED | ChannelEvent.SNAPSHOT =>
             ret tt
         | ChannelEvent.UPDATED =>
             if strict_eq orderID (Response.orderID res)
                && is_cancelled (Response.ordStatus res) then
               q <- unsubscribe Channel.TRADING None ;;
               await q (then_resolve p (VResponse res))
             else ret tt
         | ChannelEvent.REJECTED =>
             q <- unsubscribe Channel.TRADING None ;;
             await q (then_reject p
                        (Error ("Cancelling order " +++ orderID +++ " rejected because "
                                +++ to_string (Response.text res))))
         end)
  | cancelAllOrders_cb orders p =>
      async
        (match Response.event res with
         | ChannelEvent.SUBSCRIBED | ChannelEvent.UNSUBSCRIBED | ChannelEvent.SNAPSHOT =>
             ret tt
         | ChannelEvent.UPDATED =>
             when (is_cancelled (Response.ordStatus res))
               (os <- get (array orders) ;;
                match cancel_first
                        (fun o => strict_eq (Order.orderID o) (Response.orderID res)) os with
                | Some os' =>
                    modify (fun st => set_arrays (update orders os' (arrays st)) st)
                | None => throw (TypeError "Cannot set properties of undefined")
                end) ;;
             os <- get (array orders) ;;
             if Nat.eqb (List.length (filter is_open os)) 0 then
               q <- unsubscribe Channel.TRADING None ;;
               await q (then_resolve_orders orders p)
             else ret tt
         | ChannelEvent.REJECTED =>
             reject p (Error ("Cancelling all orders rejected because "
                              +++ to_string (Response.text res)))
         end)
  end.

(** ** socket.ts: the functions attached to the websocket *)

(** What a 'message' listener is called with. *)
Inductive Data :=
| text (json : Response.t)           (* the frame text; [JSON.parse] of it is [json] *)
| MessageEvent (data : Response.t).  (* an event whose [data] is the frame text *)

(** [JSON.parse(res.data)] *)
Definition JSON_parse_data (res : Data) : M Response.t :=
  match res with
  | MessageEvent json => ret json
  | text _ => throw (SyntaxError "Unexpected token u in JSON at position 0")
  end.

Definition run_authHandler (ws p : nat) (res : Data) : M unit :=
  json <- JSON_parse_data res ;;
  if negb (Channel.eqb (Response.channel json) Channel.AUTH) then ret tt
  else
    match Response.event json with
    | ChannelEvent.SUBSCRIBED =>
        modify (set_isAuthed true) ;;
        ws_removeEventListener (Some ws) (authHandler ws p) ;;
        resolve p undefined
    | ChannelEvent.REJECTED => reject p (Error_of (Response.text json))
    | _ => ret tt
    end.

Definition run_tmpSocketHandler (listener : Listener.t) (p : nat) (data : Data) : M unit :=
  json <- JSON_parse_data data ;;
  match Response.event json with
  | ChannelEvent.UNSUBSCRIBED =>
      global <- get _ws ;;
      ws_removeEventListener global (tmpSocketHandler listener p) ;;
      resolve p undefined
  | ChannelEvent.REJECTED =>
      modify (fun st => set_listeners (listeners st ++ [listener]) st) ;;
      global <- get _ws ;;
      ws_addEventListener global (socketHandler listener) ;;
      global <- get _ws ;;
      ws_removeEventListener global (tmpSocketHandler listener p) ;;
      reject p (Error_of (Response.text json))
  | _ => ret tt
  end.

(** [let json = data.data ? data.data : JSON.parse(data)]: the text is parsed,
    the [data] of an event is taken as it is, a string, which has no
    [channel]. *)
Definition json_of (data : Data) : option Response.t :=
  match data with
  | text json => Some json
  | MessageEvent _ => None
  end.

Definition run_socketHandler (l : Listener.t) (data : Data) : M unit :=
  let channel := Listener.channel l in
  let params := Listener.params l in
  let p := Listener.resolver l in
  match json_of data with
  | Some json =>
      if Channel.eqb (Response.channel json) channel then
        found <- get (getListener channel (Some params)) ;;
        match option_map Listener.clientListener found with
        | None => resolve p undefined
        | Some clientListener =>
            match Response.event json with
            | ChannelEvent.SUBSCRIBED => resolve p undefined
            | ChannelEvent.REJECTED => reject p (Error_of (Response.text json))
            | _ => call clientListener json
            end
        end
      else ret tt
  | None => ret tt
  end.

Definition run (f : Handler) (data : Data) : M unit :=
  match f with
  | authHandler ws p => run_authHandler ws p data
  | socketHandler l => run_socketHandler l data
  | tmpSocketHandler listener p => run_tmpSocketHandler listener p data
  end.

Definition deliver (frame : Response.t) (r : Registration) : M unit :=
  match r with
  | on f => run f (text frame)
  | addEventListener f => run f (MessageEvent frame)
  end.

(** [emit('message', frame)]: the listeners attached when the frame arrives
    are called in order; an exception leaves the loop. *)
Fixpoint emit (frame : Response.t) (rs : list Registration) : M unit :=
  match rs with
  | [] => ret tt
  | r :: rs => deliver frame r ;; emit frame rs
  end.

(** ** bcx.ts: the methods of [class Bcx] *)

Definition secret (st : State) : option string := apiSecret (this st).

Definition enforceAuthToken (method : string) : M unit :=
  s <- get secret ;;
  match truthy s with
  | Some _ => ret tt
  | None =>
      throw (Error (method +++ " requires an api secret to be supplied as an argument during the Bcx class initialisation."))
  end.

Definition getTicker (symbol : string) : M nat :=
  p <- new_Promise ;;
  async
    (q <- subscribe Channel.TICKER (Some (getTicker_cb symbol p)) (symbol_params symbol) None ;;
     await q (catch_reject p)) ;;
  ret p.

Definition subscribeTicker (symbol : string) (cb : nat) : M nat :=
  p <- new_Promise ;;
  async
    (q <- subscribe Channel.TICKER (Some (subscribeTicker_cb cb p)) (symbol_params symbol) None ;;
     await q (catch_reject p)) ;;
  ret p.

Definition unsubscribeTicker (symbol : string) : M nat :=
  unsubscribe Channel.TICKER (Some (symbol_params symbol)).

Definition getMarket (symbol : string) (level : MarketLevel) : M nat :=
  p <- new_Promise ;;
  async
    (q <- subscribe (level_as_Channel level) (Some (getMarket_cb symbol level p))
           (symbol_params symbol) None ;;
     await q (catch_reject p)) ;;
  ret p.

Definition subscribeMarket (symbol : string) (level : MarketLevel) (cb : nat) : M nat :=
  p <- new_Promise ;;
  async
    (q <- subscribe (level_as_Channel level) (Some (subscribeMarket_cb cb p))
           (symbol_params symbol) None ;;
     await q (catch_reject p)) ;;
  ret p.

Definition unsubscribeMarket (symbol : string) (level : MarketLevel) : M nat :=
  unsubscribe (level_as_Channel level) (Some (symbol_params symbol)).

(** An [async] method: what it throws rejects the promise it returns. *)
Definition async_method (body : nat -> M unit) : M nat :=
  p <- new_Promise ;;
  try_catch (body p) (reject p) ;;
  ret p.

Definition getBalances : M nat :=
  async_method (fun p =>
    enforceAuthToken "getBalances()" ;;
    async
      (s <- get secret ;;
       q <- subscribe Channel.BALANCES (Some (getBalances_cb p)) [] s ;;
       await q (catch_reject p))).

Definition subscribeBalances (cb : nat) : M nat :=
  async_method (fun p =>
    enforceAuthToken "subscribeBalances()" ;;
    async
      (s <- get secret ;;
       q <- subscribe Channel.BALANCES (Some (subscribeBalances_cb cb p)) [] s ;;
       await q (catch_reject p))).

(** Not an [async] method: the exception of [enforceAuthToken] reaches the
    caller. *)
Definition unsubscribeBalances : M nat :=
  enforceAuthToken "unsubscribeBalances()" ;;
  unsubscribe Channel.BALANCES None.

Definition subscribeTrading (cb : ClientListener) : M nat :=
  enforceAuthToken "createOrder()" ;;
  p <- new_Promise ;;
  async
    (subscribed <- get subscribed_to_trading ;;
     when subscribed (reject p (Error "You are already subscribed to trading")) ;;
     s <- get secret ;;
     q <- subscribe Channel.TRADING (Some (subscribeTrading_cb cb p)) [] s ;;
     await q (catch_reject p)) ;;
  ret p.

Definition unsubcribeTrading : M nat :=
  enforceAuthToken "unsubcribeTrading()" ;;
  subscribed <- get subscribed_to_trading ;;
  if negb subscribed then
    p <- new_Promise ;;
    reject p (Reason "You not subscribed to trading") ;;
    ret p
  else
    q <- unsubscribe Channel.TRADING None ;;
    p <- new_Promise ;;
    await q (unsubcribeTrading_then p) ;;
    ret p.

Definition new_order_request (order : OrderCreationRequest) : Request :=
  mkRequest Action.NEW_ORDER_SINGLE Channel.TRADING
    (("clOrdID", req_clOrdID order) :: req_rest order).

Definition cancel_order_request (orderID : string) : Request :=
  mkRequest Action.CANCEL_ORDER_REQUEST Channel.TRADING [("orderID", orderID)].

Definition createOrder (order : OrderCreationRequest) : M nat :=
  async_method (fun p =>
    enforceAuthToken "createOrder()" ;;
    subscribed <- get subscribed_to_trading ;;
    if subscribed then
      s <- get secret ;;
      q <- send (new_order_request order) s ;;
      await q (return_undefined p)
    else
      try_catch (subscribeTrading (createOrder_cb order p) ;; ret tt) (reject p)).

Definition already_subscribed_get : string :=
  "You can't fetch open orders if you're subscribed to trading. Either end your subscription and make this call or restart it catching the 'SNAPSHOT' event which includes your open orders".

Definition already_subscribed_cancel : string :=
  "You can't cancel all open orders if you're subscribed to trading. Either end your subscription and make this call again or restart it catching the 'SNAPSHOT' event which includes your open orders, then cancel them individually".

Definition getOpenOrders : M nat :=
  async_method (fun p =>
    enforceAuthToken "getOpenOrders()" ;;
    subscribed <- get subscribed_to_trading ;;
    if subscribed then throw (Error already_subscribed_get)
    else
      async
        (try_catch
           (q <- subscribeTrading (getOpenOrders_cb p) ;;
            await q (catch_reject p))
           (reject p))).

Definition getOrderByClientOrderId (clOrdID : string) : M nat :=
  async_method (fun p =>
    enforceAuthToken "getOrder()" ;;
    q <- getOpenOrders ;;
    await q (getOrderByClientOrderId_1 clOrdID p)).

Definition getOrder (orderID : string) : M nat :=
  async_method (fun p =>
    enforceAuthToken "getOrder()" ;;
    q <- getOpenOrders ;;
    await q (getOrder_1 orderID p)).

Definition cancelOrder (orderID : string) : M nat :=
  async_method (fun p =>
    enforceAuthToken "cancelOrder()" ;;
    subscribed <- get subscribed_to_trading ;;
    if subscribed then
      s <- get secret ;;
      q <- send (cancel_order_request orderID) s ;;
      await q (return_undefined p)
    else
      async
        (try_catch
           (q <- subscribeTrading (cancelOrder_cb orderID p) ;;
            await q (cancelOrder_1 orderID p))
           (reject p))).

Definition cancelAllOrders : M nat :=
  async_method (fun p =>
    enforceAuthToken "cancelAllOrders()" ;;
    subscribed <- get subscribed_to_trading ;;
    if subscribed then throw (Error already_subscribed_cancel)
    else
      async
        (try_catch
           (q <- getOpenOrders ;;
            await q (cancelAllOrders_1 p))
           (reject p))).

(** The [for] loop of [cancelAllOrders], entered at index [i]. *)
Definition cancelAllOrders_loop (orders i p : nat) : M unit :=
  try_catch
    (os <- get (array orders) ;;
     match nth_error os i with
     | Some o =>
         q <- send (cancel_order_request (Order.orderID o)) None ;;
         await q (cancelAllOrders_3 orders (S i) p)
     | None => ret tt
     end)
    (reject p).

Definition Bcx_flush : M unit :=
  set_apiSecret None ;;
  set_isSubscribedTrading false ;;
  flush.

Definition setAuthenticationToken (authenticationToken : string) : M unit :=
  set_apiSecret (Some authenticationToken).

(** ** Continuations *)

(** [_ws = await getSocket()] *)
Definition assign__ws (v : Value) : M unit :=
  modify (set__ws (match v with VSocket ws => Some ws | _ => None end)).

(** The value awaited where an array is expected. *)
Definition as_array (v : Value) : M (list Order.t) :=
  match v with
  | VOrders os => ret os
  | _ => throw (TypeError "Cannot read properties of undefined")
  end.

(** The rest of a function once the promise it awaits is settled.  In an
    [async] function a rejected [await] throws, which rejects the promise of
    the function unless a [catch] is around it. *)
Definition resume (k : Cont) (o : Outcome) : M unit :=
  match k, o with
  | send_1 request authToken p, Fulfilled v =>
      try_catch (assign__ws v ;; send_authenticate request authToken p) (reject p)
  | send_1 _ _ p, Rejected e => reject p e
  | send_2 request p, Fulfilled _ => send_write request p
  | send_2 _ p, Rejected e => reject p e
  | subscribe_1 channel listener params authToken p, Fulfilled v =>
      try_catch (assign__ws v ;; subscribe_checks channel listener params authToken p)
        (reject p)
  | subscribe_1 _ _ _ _ p, Rejected e => reject p e
  | subscribe_2 channel listener params p, Fulfilled _ =>
      subscribe_register channel listener params p
  | subscribe_2 _ _ _ p, Rejected e => reject p e
  | catch_reject p, Fulfilled _ => ret tt
  | catch_reject p, Rejected e => reject p e
  | then_resolve p v, Fulfilled _ => resolve p v
  | then_resolve _ _, Rejected _ => ret tt
  | then_reject p e, Fulfilled _ => reject p e
  | then_reject _ _, Rejected _ => ret tt
  | then_resolve_orders orders p, Fulfilled _ =>
      os <- get (array orders) ;; resolve p (VOrders os)
  | then_resolve_orders _ _, Rejected _ => ret tt
  | unsubcribeTrading_then p, Fulfilled _ =>
      set_isSubscribedTrading false ;; resolve p undefined
  | unsubcribeTrading_then p, Rejected e => reject p e
  | return_undefined p, Fulfilled _ => resolve p undefined
  | return_undefined p, Rejected e => reject p e
  | getOrderByClientOrderId_1 clOrdID p, Fulfilled v =>
      try_catch
        (orders <- as_array v ;;
         match find (fun order => String.eqb (Order.clOrdID order) clOrdID) orders with
         | Some order => resolve p (VOrder order)
         | None => throw (Error ("Order with clOrdID " +++ clOrdID +++ " not found"))
         end)
        (reject p)
  | getOrderByClientOrderId_1 _ p, Rejected e => reject p e
  | getOrder_1 orderID p, Fulfilled v =>
      try_catch
        (orders <- as_array v ;;
         match find (fun order => String.eqb (Order.orderID order) orderID) orders with
         | Some order => resolve p (VOrder order)
         | None => throw (Error ("Order with orderId " +++ orderID +++ " not found"))
         end)
        (reject p)
  | getOrder_1 _ p, Rejected e => reject p e
  | cancelOrder_1 orderID p, Fulfilled _ =>
      try_catch
        (s <- get secret ;;
         q <- send (cancel_order_request orderID) s ;;
         await q (catch_reject p))
        (reject p)
  | cancelOrder_1 _ p, Rejected e => reject p e
  | cancelAllOrders_1 p, Fulfilled v =>
      try_catch
        (os <- as_array v ;;
         orders <- new_array os ;;
         when (Nat.eqb (List.length os) 0) (resolve p undefined) ;;
         q <- subscribeTrading (cancelAllOrders_cb orders p) ;;
         await q (cancelAllOrders_2 orders p))
        (reject p)
  | cancelAllOrders_1 p, Rejected e => reject p e
  | cancelAllOrders_2 orders p, Fulfilled _ => cancelAllOrders_loop orders 0 p
  | cancelAllOrders_2 _ p, Rejected e => reject p e
  | cancelAllOrders_3 orders i p, Fulfilled _ => cancelAllOrders_loop orders i p
  | cancelAllOrders_3 _ _ p, Rejected e => reject p e
  end.

(** ** The event loop *)

(** What the caller of the library can do. *)
Inductive Operation :=
| socket_send (request : Request) (authToken : option string)
| socket_subscribe (channel : Channel.t) (listener : option nat) (params : Params)
    (authToken : option string)
| socket_unsubscribe (channel : Channel.t) (params : option Params)
| socket_flush
| Bcx_getTicker (symbol : string)
| Bcx_subscribeTicker (symbol : string) (cb : nat)
| Bcx_unsubscribeTicker (symbol : string)
| Bcx_getMarket (symbol : string) (level : MarketLevel)
| Bcx_subscribeMarket (symbol : string) (level : MarketLevel) (cb : nat)
| Bcx_unsubscribeMarket (symbol : string) (level : MarketLevel)
| Bcx_getBalances
| Bcx_subscribeBalances (cb : nat)
| Bcx_unsubscribeBalances
| Bcx_subscribeTrading (cb : nat)
| Bcx_unsubcribeTrading
| Bcx_createOrder (order : OrderCreationRequest)
| Bcx_getOrderByClientOrderId (clOrdID : string)
| Bcx_getOrder (orderID : string)
| Bcx_getOpenOrders
| Bcx_cancelOrder (orderID : string)
| Bcx_cancelAllOrders
| Bcx_flush_
| Bcx_setAuthenticationToken (authenticationToken : string).

Definition void (m : M unit) : M (option nat) := m ;; ret None.
Definition returned (m : M nat) : M (option nat) := p <- m ;; ret (Some p).

(** The call of an operation; the result is the promise it returns. *)
Definition perform (op : Operation) : M (option nat) :=
  match op with
  | socket_send request authToken => returned (send request authToken)
  | socket_subscribe channel listener params authToken =>
      returned (subscribe channel (option_map callback listener) params authToken)
  | socket_unsubscribe channel params => returned (unsubscribe channel params)
  | socket_flush => void flush
  | Bcx_getTicker symbol => returned (getTicker symbol)
  | Bcx_subscribeTicker symbol cb => returned (subscribeTicker symbol cb)
  | Bcx_unsubscribeTicker symbol => returned (unsubscribeTicker symbol)
  | Bcx_getMarket symbol level => returned (getMarket symbol level)
  | Bcx_subscribeMarket symbol level cb => returned (subscribeMarket symbol level cb)
  | Bcx_unsubscribeMarket symbol level => returned (unsubscribeMarket symbol level)
  | Bcx_getBalances => returned getBalances
  | Bcx_subscribeBalances cb => returned (subscribeBalances cb)
  | Bcx_unsubscribeBalances => returned unsubscribeBalances
  | Bcx_subscribeTrading cb => returned (subscribeTrading (callback cb))
  | Bcx_unsubcribeTrading => returned unsubcribeTrading
  | Bcx_createOrder order => returned (createOrder order)
  | Bcx_getOrderByClientOrderId clOrdID => returned (getOrderByClientOrderId clOrdID)
  | Bcx_getOrder orderID => returned (getOrder orderID)
  | Bcx_getOpenOrders => returned getOpenOrders
  | Bcx_cancelOrder orderID => returned (cancelOrder orderID)
  | Bcx_cancelAllOrders => returned cancelAllOrders
  | Bcx_flush_ => void Bcx_flush
  | Bcx_setAuthenticationToken authenticationToken =>
      void (setAuthenticationToken authenticationToken)
  end.

(** What happens to the program: a call from its user, or an event of one of
    its websockets. *)
(** The [ErrorEvent] a websocket passes to [onerror]: the text of its
    [error], as [new Error(event.error)] reads it, and whether the event can
    be serialised.  The [target] of the event is the websocket, which holds
    the request of the handshake and the socket of the connection; where
    these objects refer to one another, as they do when the handshake is
    refused, [JSON.stringify] throws a [TypeError]. *)
Module ErrorEvent.
Record t := mk {
  error : string;
  circular : bool
}.
End ErrorEvent.

Inductive Event :=
| Call (op : Operation)
| Open (ws : nat)                             (* onopen *)
| Failure (ws : nat) (event : ErrorEvent.t)   (* onerror *)
| Close (ws : nat)                            (* onclose *)
| Message (ws : nat) (frame : Response.t).

Definition onopen (ws : nat) : M unit :=
  s <- get (socket ws) ;;
  match s with
  | Some s =>
      match WebSocket.readyState s with
      | WebSocket.CONNECTING =>
          on_socket ws (set_readyState WebSocket.OPEN) ;;
          resolve (WebSocket.opening s) (VSocket ws)
      | _ => ret tt
      end
  | None => ret tt
  end.

(** [JSON.stringify(event, undefined, 2)], the argument of [console.error]:
    its text goes to the console, its exception to the caller. *)
Definition JSON_stringify_event (event : ErrorEvent.t) : M unit :=
  if ErrorEvent.circular event
  then throw (TypeError "Converting circular structure to JSON")
  else ret tt.

Definition onerror (ws : nat) (event : ErrorEvent.t) : M unit :=
  s <- get (socket ws) ;;
  match s with
  | Some s =>
      JSON_stringify_event event ;;
      reject (WebSocket.opening s) (Error (ErrorEvent.error event))
  | None => ret tt
  end.

Definition onclose (ws : nat) : M unit :=
  s <- get (socket ws) ;;
  match s with
  | Some s =>
      on_socket ws (set_readyState WebSocket.CLOSED) ;;
      reject (WebSocket.opening s) (Error "ws closed")
  | None => ret tt
  end.

(** A frame arrives on an open socket. *)
Definition onmessage (ws : nat) (frame : Response.t) : M unit :=
  s <- get (socket ws) ;;
  match s with
  | Some s =>
      match WebSocket.readyState s with
      | WebSocket.OPEN =>
          try_catch (emit frame (WebSocket.message s))
            (fun e => modify (fun st => set_uncaught (uncaught st ++ [e]) st))
      | _ => ret tt
      end
  | None => ret tt
  end.

(** The synchronous part of an event. *)
Definition handle (ev : Event) : M unit :=
  match ev with
  | Call op => try_catch (perform op ;; ret tt) (fun _ => ret tt)
  | Open ws => onopen ws
  | Failure ws event =>
      try_catch (onerror ws event)
        (fun e => modify (fun st => set_uncaught (uncaught st ++ [e]) st))
  | Close ws => onclose ws
  | Message ws frame => onmessage ws frame
  end.

(** The microtasks queued are run in order until none is left; [fuel] bounds
    their number. *)
Fixpoint drain (fuel : nat) (st : State) : State :=
  match fuel with
  | O => st
  | S fuel =>
      match jobs st with
      | [] => st
      | (k, o) :: rest => drain fuel (exec (resume k o) (set_jobs rest st))
      end
  end.

Definition step (fuel : nat) (st : State) (ev : Event) : State :=
  drain fuel (exec (handle ev) st).

Definition steps (fuel : nat) (st : State) (evs : list Event) : State :=
  fold_left (step fuel) evs st.

(** * Properties *)

(** ** Lists *)

Lemma nth_error_snoc {A} (l : list A) (x : A) :
  nth_error (l ++ [x]) (List.length l) = Some x.
Proof.
  induction l as [|a l IH]; simpl; [reflexivity | exact IH].
Qed.

Lemma nth_error_update {A} (l : list A) (n : nat) (x y : A) :
  nth_error l n = Some y -> nth_error (update n x l) n = Some x.
Proof.
  revert n; induction l as [|a l IH]; intros [|n] H; simpl in *;
    try discriminate; [reflexivity | now apply IH].
Qed.

Lemma nth_error_update_other {A} (l : list A) (n m : nat) (x : A) :
  n <> m -> nth_error (update n x l) m = nth_error l m.
Proof.
  revert n m; induction l as [|a l IH]; intros [|n] [|m] H; simpl;
    try reflexivity; [congruence | apply IH; congruence].
Qed.

Lemma length_update {A} (l : list A) (n : nat) (x : A) :
  List.length (update n x l) = List.length l.
Proof.
  revert n; induction l as [|a l IH]; intros [|n]; simpl; try reflexivity.
  now rewrite IH.
Qed.

Lemma nth_of_nth_error {A} (l : list A) (n : nat) (x d : A) :
  nth_error l n = Some x -> nth n l d = x.
Proof.
  revert n; induction l as [|a l IH]; intros [|n] H; simpl in *;
    try discriminate; [congruence | now apply IH].
Qed.

(** ** Frames used in the examples *)

Definition ack (channel : Channel.t) (event : ChannelEvent.t) : Response.t :=
  Response.mk channel event None None None None None None.

Definition refusal (channel : Channel.t) (reason : string) : Response.t :=
  Response.mk channel ChannelEvent.REJECTED (Some reason) None None None None None.

Definition ticker (event : ChannelEvent.t) (symbol : string) : Response.t :=
  Response.mk Channel.TICKER event None (Some symbol) None None None None.

Definition order_update (orderID clOrdID : string) (status : OrderStatus.t) : Response.t :=
  Response.mk Channel.TRADING ChannelEvent.UPDATED None None
    (Some orderID) (Some clOrdID) (Some status) None.

Definition open_orders (os : list Order.t) : Response.t :=
  Response.mk Channel.TRADING ChannelEvent.SNAPSHOT None None None None None (Some os).

(** The frames written to a websocket and the functions attached to it. *)
Definition sent_on (ws : nat) (st : State) : list Request :=
  match socket ws st with Some s => WebSocket.sent s | None => [] end.

Definition attached_to (ws : nat) (st : State) : list Registration :=
  match socket ws st with Some s => WebSocket.message s | None => [] end.

(** ** Subscribing twice (C5) *)

Definition duplicate (channel : Channel.t) : Err :=
  Error ("You already have a listener set for channel " +++ Channel.name channel).

(** C5.  When the registry holds a listener for the key (channel, params), a
    further [subscribe] with that key returns a promise rejected with the
    duplicate-listener error; no frame is written and no function attached
    (the websockets are untouched) and the registry is unchanged. *)
Theorem subscribe_twice_rejects :
  forall (st : State) (channel : Channel.t) (cb : ClientListener) (params : Params)
         (authToken : option string) (ws : nat) (l : Listener.t),
    _ws st = Some ws ->
    getListener channel (Some params) st = Some l ->
    let p := List.length (promises st) in
    let st' := exec (subscribe channel (Some cb) params authToken) st in
    fst (subscribe channel (Some cb) params authToken st) = Normal p /\
    promise p st' = Some (Rejected (duplicate channel)) /\
    listeners st' = listeners st /\
    sockets st' = sockets st /\
    _ws st' = _ws st.
Proof.
  intros st channel cb params authToken ws l Hws Hl p st'.
  subst st'. unfold exec, subscribe, bind, try_catch, new_Promise, get, ret.
  cbn [fst snd set_promises _ws].
  rewrite Hws. unfold subscribe_checks, bind, get.
  unfold getListener in *. cbn [listeners set_promises].
  rewrite Hl. unfold reject, settle. cbn [promises set_promises].
  rewrite nth_error_snoc. cbn -[String.append].
  repeat split; try reflexivity; try assumption.
  unfold promise. cbn -[String.append].
  apply nth_of_nth_error.
  apply nth_error_update with (y := None). apply nth_error_snoc.
Qed.

(** A state with one active subscription, to ticker BTC-USD. *)
Definition subscribed_once : State :=
  steps 10 (initial None)
    [Call (socket_subscribe Channel.TICKER (Some 1) (symbol_params "BTC-USD") None);
     Open 0;
     Message 0 (ticker ChannelEvent.SUBSCRIBED "BTC-USD")].

Definition BTC_listener : Listener.t :=
  Listener.mk Channel.TICKER (symbol_params "BTC-USD") (callback 1) 0.

Lemma subscribe_twice_rejects_witness :
  _ws subscribed_once = Some 0 /\
  getListener Channel.TICKER (Some (symbol_params "BTC-USD")) subscribed_once
    = Some BTC_listener /\
  promise 2 (exec (subscribe Channel.TICKER (Some (callback 2))
                     (symbol_params "BTC-USD") None) subscribed_once)
    = Some (Rejected (duplicate Channel.TICKER)) /\
  sent_on 0 (exec (subscribe Channel.TICKER (Some (callback 2))
                     (symbol_params "BTC-USD") None) subscribed_once)
    = sent_on 0 subscribed_once.
Proof.
  assert (Hws : _ws subscribed_once = Some 0) by reflexivity.
  assert (Hl : getListener Channel.TICKER (Some (symbol_params "BTC-USD")) subscribed_once
               = Some BTC_listener) by reflexivity.
  destruct (subscribe_twice_rejects subscribed_once Channel.TICKER (callback 2)
              (symbol_params "BTC-USD") None Hws Hl) as (_ & Hp & _ & Hs & _).
  split; [exact Hws | split; [exact Hl | split; [exact Hp |]]].
  unfold sent_on, socket. now rewrite Hs.
Defined.

(** ** The transient observer of [authenticate] (C9) *)

(** [subscribe] with a token on a fresh module: the connection is open and
    the authentication frame is written; promise 2 is the one [authenticate]
    returned. *)
Definition authenticating : State :=
  steps 10 (initial None)
    [Call (socket_subscribe Channel.BALANCES (Some 1) [] (Some "token")); Open 0].

Lemma authenticating_observer :
  attached_to 0 authenticating = [addEventListener (authHandler 0 2)] /\
  promise 2 authenticating = None /\
  sent_on 0 authenticating =
    [mkRequest Action.SUBSCRIBE Channel.AUTH [("token", "token")]].
Proof. vm_compute. repeat split. Qed.

(** On "subscribed" the observer takes itself off the websocket. *)
Lemma authenticate_subscribed_removes_observer :
  let st := step 10 authenticating (Message 0 (ack Channel.AUTH ChannelEvent.SUBSCRIBED)) in
  promise 2 st = Some (Fulfilled undefined) /\
  isAuthed st = true /\
  ~ In (addEventListener (authHandler 0 2)) (attached_to 0 st).
Proof.
  vm_compute. repeat split. intros [H | []]. discriminate H.
Qed.

(** On "rejected" the observer rejects and nothing else, in every state. *)
Lemma authHandler_rejected_stays (st : State) (ws p : nat) (json : Response.t) :
  Response.channel json = Channel.AUTH ->
  Response.event json = ChannelEvent.REJECTED ->
  let st' := exec (run_authHandler ws p (MessageEvent json)) st in
  sockets st' = sockets st /\ isAuthed st' = isAuthed st.
Proof.
  intros Hc He. unfold exec, run_authHandler, JSON_parse_data, bind, ret.
  rewrite Hc, He. cbn -[String.append].
  unfold reject, settle. destruct (nth_error (promises st) p) as [[o|]|]; cbn; auto.
Qed.

(** C9, the rejected outcome.  The server refuses the token: the promise of
    [authenticate] is rejected with the server's reason and [isAuthed] stays
    false, but the observer is still attached to the websocket; a later
    "subscribed" frame of the auth channel still runs it and sets
    [isAuthed]. *)
Theorem authenticate_rejected_keeps_observer :
  let st := step 10 authenticating (Message 0 (refusal Channel.AUTH "Invalid token")) in
  promise 2 st = Some (Rejected (Error "Invalid token")) /\
  isAuthed st = false /\
  attached_to 0 st = [addEventListener (authHandler 0 2)] /\
  isAuthed (step 10 st (Message 0 (ack Channel.AUTH ChannelEvent.SUBSCRIBED))) = true.
Proof. vm_compute. repeat split. Qed.

(** ** What [unsubscribe] removes (C3) *)

Definition ETH_listener : Listener.t :=
  Listener.mk Channel.TICKER (symbol_params "ETH-USD") (callback 2) 2.

(** Two active subscriptions to the ticker channel, BTC-USD and ETH-USD. *)
Definition two_tickers : State :=
  steps 10 subscribed_once
    [Call (socket_subscribe Channel.TICKER (Some 2) (symbol_params "ETH-USD") None);
     Message 0 (ticker ChannelEvent.SUBSCRIBED "ETH-USD")].

Lemma two_tickers_active :
  listeners two_tickers = [BTC_listener; ETH_listener] /\
  attached_to 0 two_tickers = [on (socketHandler BTC_listener); on (socketHandler ETH_listener)] /\
  promise 0 two_tickers = Some (Fulfilled undefined) /\
  promise 2 two_tickers = Some (Fulfilled undefined).
Proof. vm_compute. repeat split. Qed.

(** The filter keeps a listener only when both its channel and its
    parameters differ from the arguments: every listener of the channel goes,
    and every listener with these parameters. *)
Lemma kept_same_channel (channel : Channel.t) (params : option Params) (l : Listener.t) :
  Listener.channel l = channel -> kept channel params l = false.
Proof.
  intros <-. unfold kept. now rewrite Channel.eqb_refl.
Qed.

Lemma kept_same_params (channel : Channel.t) (params : Params) (l : Listener.t) :
  Listener.params l = params -> kept channel (Some params) l = false.
Proof.
  intros <-. unfold kept, strict_neq, JSON_stringify_opt, option_map.
  rewrite String.eqb_refl. apply andb_false_r.
Qed.

(** C3 at [unsubscribe(TICKER, {symbol: "BTC-USD"})] with both tickers
    active.  The listener of ETH-USD, registered under another key, leaves
    the registry with the one of BTC-USD; its function stays attached, finds
    no registry entry, and passes no frame to its callback any more. *)
Theorem unsubscribe_drops_sibling_listener :
  let st := step 10 two_tickers
              (Call (socket_unsubscribe Channel.TICKER (Some (symbol_params "BTC-USD")))) in
  In (2, ticker ChannelEvent.UPDATED "ETH-USD")
    (calls (step 10 two_tickers (Message 0 (ticker ChannelEvent.UPDATED "ETH-USD")))) /\
  listeners st = [] /\
  getListener Channel.TICKER (Some (symbol_params "ETH-USD")) st = None /\
  attached_to 0 st =
    [on (socketHandler ETH_listener); addEventListener (tmpSocketHandler BTC_listener 3)] /\
  calls (step 10 st (Message 0 (ticker ChannelEvent.UPDATED "ETH-USD"))) = [].
Proof. vm_compute. repeat split. right. left. reflexivity. Qed.


(** ** A refused [unsubscribe] (C6) *)

(** The subscription to ticker BTC-USD is active, [unsubscribe] is called for
    it (promise 2) and the server answers "rejected". *)
Definition unsubscribe_refused : State :=
  steps 10 subscribed_once
    [Call (socket_unsubscribe Channel.TICKER (Some (symbol_params "BTC-USD")));
     Message 0 (refusal Channel.TICKER "no")].

(** Before the [unsubscribe], a frame of the channel reaches the callback. *)
Lemma subscribed_once_routes (event : ChannelEvent.t) :
  event = ChannelEvent.SNAPSHOT \/ event = ChannelEvent.UPDATED ->
  calls (step 10 subscribed_once (Message 0 (ticker event "BTC-USD")))
    = [(1, ticker event "BTC-USD")].
Proof. intros [-> | ->]; vm_compute; reflexivity. Qed.

(** C6 at that input.  The promise is rejected with the server's reason, the
    listener is back in the registry and its function is attached again, this
    time with [addEventListener]: it is now called with events, takes their
    [data] unparsed, finds no [channel] in it, and so no frame whatever
    reaches the callback or changes the state. *)
Theorem refused_unsubscribe_leaves_listener_deaf :
  promise 2 unsubscribe_refused = Some (Rejected (Error "no")) /\
  listeners unsubscribe_refused = [BTC_listener] /\
  attached_to 0 unsubscribe_refused = [addEventListener (socketHandler BTC_listener)] /\
  calls unsubscribe_refused = [] /\
  forall (fuel : nat) (json : Response.t),
    step fuel unsubscribe_refused (Message 0 json) = unsubscribe_refused.
Proof.
  split; [|split; [|split; [|split]]]; try (vm_compute; reflexivity).
  intros fuel json.
  set (st := unsubscribe_refused). vm_compute in st. subst st.
  destruct fuel; reflexivity.
Qed.

(** ** createOrder without a trading subscription (C4) *)

Definition order_X : OrderCreationRequest :=
  mkOrderCreationRequest "X" [("symbol", "BTC-USD")].

(** [createOrder] (promise 0) has opened its temporary subscription, which
    the server has acknowledged. *)
Definition creating_order : State :=
  steps 10 (initial (Some "secret"))
    [Call (Bcx_createOrder order_X); Open 0;
     Message 0 (ack Channel.AUTH ChannelEvent.SUBSCRIBED);
     Message 0 (ack Channel.TRADING ChannelEvent.SUBSCRIBED)].

Definition temporary_listener : Listener.t :=
  Listener.mk Channel.TRADING [] (subscribeTrading_cb (createOrder_cb order_X 0) 1) 2.

Lemma creating_order_waits :
  fst (perform (Bcx_createOrder order_X) (initial (Some "secret"))) = Normal (Some 0) /\
  promise 0 creating_order = None /\
  listeners creating_order = [temporary_listener] /\
  attached_to 0 creating_order = [on (socketHandler temporary_listener)].
Proof. vm_compute. repeat split. Qed.

(** An update with the client order id of the request tears the subscription
    down, and the promise resolves with the update once the server has
    acknowledged the unsubscription. *)
Lemma createOrder_resolves_on_own_update (orderID : string) (status : OrderStatus.t) :
  let update := order_update orderID "X" status in
  let st := step 10 creating_order (Message 0 update) in
  listeners st = [] /\
  attached_to 0 st = [addEventListener (tmpSocketHandler temporary_listener 5)] /\
  promise 0 (step 10 st (Message 0 (ack Channel.TRADING ChannelEvent.UNSUBSCRIBED)))
    = Some (Fulfilled (VResponse update)).
Proof.
  set (st := creating_order). vm_compute in st. subst st.
  cbv zeta. split; [|split]; reflexivity.
Qed.

(** An update with another client order id settles nothing. *)
Lemma createOrder_waits_on_other_update (orderID : string) (status : OrderStatus.t) :
  let st := step 10 creating_order (Message 0 (order_update orderID "Y" status)) in
  promise 0 st = None /\ listeners st = [temporary_listener].
Proof.
  set (st := creating_order). vm_compute in st. subst st.
  cbv zeta. split; reflexivity.
Qed.

(** C4, the rejection event.  A "rejected" frame of the trading channel is
    taken by the function [subscribe] attached, which rejects the promise of
    [subscribe], settled already; the callback of [createOrder] is not
    called: the state is what it was, the promise of [createOrder] pending,
    the temporary subscription in place and no unsubscribe frame written. *)
Theorem createOrder_not_rejected_by_rejection :
  let st := step 10 creating_order (Message 0 (refusal Channel.TRADING "Insufficient funds")) in
  st = creating_order /\
  promise 0 st = None /\
  listeners st = [temporary_listener] /\
  sent_on 0 st =
    [mkRequest Action.SUBSCRIBE Channel.AUTH [("token", "secret")];
     mkRequest Action.SUBSCRIBE Channel.TRADING []].
Proof. vm_compute. repeat split. Qed.

(** ** cancelAllOrders (C7) *)

(** [cancelAllOrders] (promise 0) on a fresh client, up to the snapshot of
    open orders the server sends on the trading channel. *)
Definition cancelling_all (os : list Order.t) : State :=
  steps 10 (initial (Some "secret"))
    [Call Bcx_cancelAllOrders; Open 0;
     Message 0 (ack Channel.AUTH ChannelEvent.SUBSCRIBED);
     Message 0 (ack Channel.TRADING ChannelEvent.SUBSCRIBED);
     Message 0 (open_orders os)].

Definition O1 : Order.t := Order.mk "1" "a" "BTC-USD" OrderStatus.OPEN.
Definition O2 : Order.t := Order.mk "2" "b" "BTC-USD" OrderStatus.OPEN.

Definition is_cancel_request (r : Request) : bool :=
  match property "action" r with
  | Some a => String.eqb a (Action.name Action.CANCEL_ORDER_REQUEST)
  | None => false
  end.

(** With no open order the promise is fulfilled, with [undefined]. *)
Lemma cancelAllOrders_nothing_open :
  fst (perform Bcx_cancelAllOrders (initial (Some "secret"))) = Normal (Some 0) /\
  promise 0 (cancelling_all []) = Some (Fulfilled undefined) /\
  filter is_cancel_request (sent_on 0 (cancelling_all [])) = [].
Proof. vm_compute. repeat split. Qed.

(** The subscription [getOpenOrders] opened is still in the registry when
    [cancelAllOrders] subscribes for the confirmations. *)
Lemma getOpenOrders_stays_subscribed (os : list Order.t) :
  listeners (cancelling_all os) =
    [Listener.mk Channel.TRADING [] (subscribeTrading_cb (getOpenOrders_cb 1) 2) 3].
Proof. destruct os; vm_compute; reflexivity. Qed.

(** C7 with the open orders O1 and O2 (and with any open order at all).  The
    second [subscribeTrading] is refused as a duplicate of the subscription
    [getOpenOrders] left in place; the promise of [cancelAllOrders] is
    rejected with that error as soon as the snapshot has arrived, no cancel
    command is written, and nothing is left running that could write one. *)
Theorem cancelAllOrders_rejects_with_open_orders :
  (forall (o : Order.t) (os : list Order.t),
     promise 0 (cancelling_all (o :: os)) = Some (Rejected (duplicate Channel.TRADING))) /\
  let st := cancelling_all [O1; O2] in
  promise 0 st = Some (Rejected (duplicate Channel.TRADING)) /\
  filter is_cancel_request (sent_on 0 st) = [] /\
  array 0 st = [O1; O2] /\
  jobs st = [] /\ reactions st = [].
Proof.
  split; [intros o os; vm_compute; reflexivity | vm_compute; repeat split].
Qed.

(** ** Two subscriptions on one channel (C1) *)

(** The callback [cb] was only called with frames of [symbol]. *)
Definition own_symbol_only (cb : nat) (symbol : string) (st : State) : Prop :=
  forall res : Response.t, In (cb, res) (calls st) -> Response.symbol res = Some symbol.

(** [subscribe] for ticker BTC-USD (promise 0, callback 1) and, the
    connection being open, for ticker ETH-USD (promise 2, callback 2); no
    acknowledgement has arrived. *)
Definition both_subscribing : State :=
  steps 10 (initial None)
    [Call (socket_subscribe Channel.TICKER (Some 1) (symbol_params "BTC-USD") None);
     Open 0;
     Call (socket_subscribe Channel.TICKER (Some 2) (symbol_params "ETH-USD") None)].

(** C1 fails there: the acknowledgement of the BTC-USD subscription also
    resolves the promise of the ETH-USD one, and the snapshot of ETH-USD is
    passed to the callback of BTC-USD too. *)
Lemma tickers_share_acknowledgements_and_frames :
  let st := step 10 both_subscribing (Message 0 (ticker ChannelEvent.SUBSCRIBED "BTC-USD")) in
  let st' := step 10 st (Message 0 (ticker ChannelEvent.SNAPSHOT "ETH-USD")) in
  (promise 2 both_subscribing = None /\ promise 2 st = Some (Fulfilled undefined)) /\
  calls st' = [(1, ticker ChannelEvent.SNAPSHOT "ETH-USD");
               (2, ticker ChannelEvent.SNAPSHOT "ETH-USD")] /\
  ~ own_symbol_only 1 "BTC-USD" st'.
Proof.
  cbv zeta. split; [split; vm_compute; reflexivity | split; [vm_compute; reflexivity |]].
  intros H. specialize (H (ticker ChannelEvent.SNAPSHOT "ETH-USD")).
  assert (E : Response.symbol (ticker ChannelEvent.SNAPSHOT "ETH-USD") = Some "BTC-USD").
  { apply H. vm_compute. left. reflexivity. }
  discriminate E.
Qed.

(** ** Invariants

    A property of the state that every primitive operation preserves is
    preserved by all the code of the library.  The primitives are taken one
    by one as hypotheses, so that a lemma depends on those its code uses. *)

Definition preserves {A} (P : State -> Prop) (m : M A) : Prop :=
  forall st, P st -> P (exec m st).

Section Invariant.

Variable P : State -> Prop.

Lemma preserves_ret {A} (a : A) : preserves P (ret a).
Proof. intros st H; exact H. Qed.

Lemma preserves_throw {A} (e : Err) : preserves P (@throw A e).
Proof. intros st H; exact H. Qed.

Lemma preserves_get {A} (f : State -> A) : preserves P (get f).
Proof. intros st H; exact H. Qed.

Lemma preserves_bind {A B} (m : M A) (k : A -> M B) :
  preserves P m -> (forall a, preserves P (k a)) -> preserves P (bind m k).
Proof.
  intros Hm Hk st H. unfold exec, bind. specialize (Hm st H). unfold exec in Hm.
  destruct (m st) as [[a|e] st']; simpl in *; [now apply Hk | exact Hm].
Qed.

Lemma preserves_try_catch {A} (m : M A) (h : Err -> M A) :
  preserves P m -> (forall e, preserves P (h e)) -> preserves P (try_catch m h).
Proof.
  intros Hm Hh st H. unfold exec, try_catch. specialize (Hm st H). unfold exec in Hm.
  destruct (m st) as [[a|e] st']; simpl in *; [exact Hm | now apply Hh].
Qed.

Lemma preserves_async {A} (m : M A) : preserves P m -> preserves P (async m).
Proof.
  intros Hm. unfold async. apply preserves_try_catch.
  - apply preserves_bind; [exact Hm | intros; apply preserves_ret].
  - intros; apply preserves_ret.
Qed.

Lemma preserves_when (b : bool) (m : M unit) : preserves P m -> preserves P (when b m).
Proof. intros Hm. destruct b; [exact Hm | apply preserves_ret]. Qed.

(** The primitive operations. *)
Hypothesis P_new_Promise : preserves P new_Promise.
Hypothesis P_settle : forall p o, preserves P (settle p o).
Hypothesis P_await : forall p k, preserves P (await p k).
Hypothesis P_new_WebSocket : forall p, preserves P (new_WebSocket p).
Hypothesis P_on_socket : forall ws f, preserves P (on_socket ws f).
Hypothesis P__ws : forall x, preserves P (modify (set__ws x)).
Hypothesis P_listeners :
  forall f, preserves P (modify (fun st => set_listeners (f (listeners st)) st)).
Hypothesis P_isAuthed : forall x, preserves P (modify (set_isAuthed x)).
Hypothesis P_new_array : forall os, preserves P (new_array os).
Hypothesis P_arrays :
  forall f, preserves P (modify (fun st => set_arrays (f (arrays st)) st)).
Hypothesis P_apiSecret : forall s, preserves P (set_apiSecret s).
Hypothesis P_isSubscribedTrading : forall b, preserves P (set_isSubscribedTrading b).
Hypothesis P_callback : forall id res, preserves P (call_callback id res).
Hypothesis P_uncaught :
  forall e, preserves P (modify (fun st => set_uncaught (uncaught st ++ [e]) st)).
Hypothesis P_jobs : forall x st, P st -> P (set_jobs x st).

Create HintDb pres.

Ltac pres :=
  repeat first
    [ assumption
    | solve [auto with pres]
    | apply preserves_ret | apply preserves_throw | apply preserves_get
    | apply preserves_bind; [|intro]
    | apply preserves_try_catch; [|intro]
    | apply preserves_async
    | apply preserves_when
    | match goal with
      | |- preserves P (match ?x with _ => _ end) => destruct x
      end ].

Lemma preserves_resolve p v : preserves P (resolve p v).
Proof. apply P_settle. Qed.

Lemma preserves_reject p e : preserves P (reject p e).
Proof. apply P_settle. Qed.

Local Hint Resolve preserves_resolve preserves_reject P_new_Promise P_settle P_await
  P_new_WebSocket P_on_socket P__ws P_isAuthed P_new_array : pres.

Lemma preserves_defined ws : preserves P (defined ws).
Proof. unfold defined. pres. Qed.
Local Hint Resolve preserves_defined : pres.

Lemma preserves_ws_on ws f : preserves P (ws_on ws f).
Proof. unfold ws_on. pres. Qed.

Lemma preserves_ws_addEventListener ws f : preserves P (ws_addEventListener ws f).
Proof. unfold ws_addEventListener. pres. Qed.

Lemma preserves_ws_removeEventListener ws f : preserves P (ws_removeEventListener ws f).
Proof. unfold ws_removeEventListener. pres. Qed.

Lemma preserves_ws_send ws request cb :
  (forall err, preserves P (cb err)) -> preserves P (ws_send ws request cb).
Proof. intros H. unfold ws_send. pres. Qed.

Local Hint Resolve preserves_ws_on preserves_ws_addEventListener
  preserves_ws_removeEventListener : pres.

Lemma preserves_reject_on_error p err : preserves P (reject_on_error p err).
Proof. unfold reject_on_error. pres. Qed.
Local Hint Resolve preserves_reject_on_error : pres.

Lemma preserves_flush : preserves P flush.
Proof.
  unfold flush. pres.
  apply (P_listeners (fun _ => [])).
Qed.
Local Hint Resolve preserves_flush : pres.

Lemma preserves_authenticate ws authToken : preserves P (authenticate ws authToken).
Proof.
  unfold authenticate. pres.
Qed.
Local Hint Resolve preserves_authenticate : pres.

Lemma preserves_getSocket : preserves P getSocket.
Proof. unfold getSocket. pres. Qed.
Local Hint Resolve preserves_getSocket : pres.

Lemma preserves_send_write request p : preserves P (send_write request p).
Proof.
  unfold send_write. pres.
Qed.
Local Hint Resolve preserves_send_write : pres.

Lemma preserves_send_authenticate request authToken p :
  preserves P (send_authenticate request authToken p).
Proof. unfold send_authenticate. pres. Qed.
Local Hint Resolve preserves_send_authenticate : pres.

Lemma preserves_send request authToken : preserves P (send request authToken).
Proof. unfold send. pres. Qed.
Local Hint Resolve preserves_send : pres.

Lemma preserves_unsubscribe channel params : preserves P (unsubscribe channel params).
Proof.
  unfold unsubscribe. pres.
Qed.
Local Hint Resolve preserves_unsubscribe : pres.

Lemma preserves_subscribe_register channel listener params p :
  preserves P (subscribe_register channel listener params p).
Proof.
  unfold subscribe_register. pres.
  all: try apply (P_listeners (fun ls => ls ++ [Listener.mk channel params listener p])).
Qed.
Local Hint Resolve preserves_subscribe_register : pres.

Lemma preserves_subscribe_checks channel listener params authToken p :
  preserves P (subscribe_checks channel listener params authToken p).
Proof. unfold subscribe_checks. pres. Qed.
Local Hint Resolve preserves_subscribe_checks : pres.

Lemma preserves_subscribe channel listener params authToken :
  preserves P (subscribe channel listener params authToken).
Proof. unfold subscribe. pres. Qed.
Local Hint Resolve preserves_subscribe : pres.

(** *** bcx.ts *)

Local Hint Resolve P_apiSecret P_callback : pres.

(** The callbacks, called with an event other than "subscribed", do not
    assign [isSubscribedTrading]. *)
Lemma preserves_call_data listener res :
  Response.event res <> ChannelEvent.SUBSCRIBED -> preserves P (call listener res).
Proof.
  clear P_isSubscribedTrading.
  intros He.
  assert (E : ChannelEvent.eqb (Response.event res) ChannelEvent.SUBSCRIBED = false).
  { destruct (ChannelEvent.eqb _ _) eqn:E;
      [apply ChannelEvent.event_eqb_eq in E; contradiction | reflexivity]. }
  induction listener; simpl; unfold when; rewrite ?E; pres.
Qed.

Lemma preserves_call listener res : preserves P (call listener res).
Proof. induction listener; simpl; pres. Qed.

Lemma preserves_enforceAuthToken method : preserves P (enforceAuthToken method).
Proof. unfold enforceAuthToken. pres. Qed.
Local Hint Resolve preserves_enforceAuthToken : pres.

Lemma preserves_subscribeTrading cb : preserves P (subscribeTrading cb).
Proof. unfold subscribeTrading. pres. Qed.
Local Hint Resolve preserves_subscribeTrading : pres.

Lemma preserves_unsubcribeTrading : preserves P unsubcribeTrading.
Proof. unfold unsubcribeTrading. pres. Qed.

Lemma preserves_getOpenOrders : preserves P getOpenOrders.
Proof. unfold getOpenOrders, async_method. pres. Qed.
Local Hint Resolve preserves_getOpenOrders preserves_unsubcribeTrading : pres.

Lemma preserves_cancelAllOrders_loop orders i p :
  preserves P (cancelAllOrders_loop orders i p).
Proof. unfold cancelAllOrders_loop. pres. Qed.
Local Hint Resolve preserves_cancelAllOrders_loop : pres.

(** Every operation but [Bcx.flush] leaves [isSubscribedTrading] alone. *)
Lemma preserves_perform_but_flush op :
  op <> Bcx_flush_ -> preserves P (perform op).
Proof.
  clear P_isSubscribedTrading.
  intros Hop.
  destruct op; try congruence; simpl;
    unfold returned, void, getTicker, subscribeTicker, unsubscribeTicker, getMarket,
      subscribeMarket, unsubscribeMarket, getBalances, subscribeBalances,
      unsubscribeBalances, createOrder, getOrderByClientOrderId, getOrder, cancelOrder,
      cancelAllOrders, setAuthenticationToken, async_method; pres.
Qed.

Lemma preserves_Bcx_flush : preserves P Bcx_flush.
Proof. unfold Bcx_flush. pres. Qed.

Lemma preserves_perform op : preserves P (perform op).
Proof.
  destruct op; try (apply preserves_perform_but_flush; discriminate).
  simpl. unfold void. pres.
Qed.

(** *** The functions attached to a websocket *)

Lemma preserves_JSON_parse_data res : preserves P (JSON_parse_data res).
Proof. unfold JSON_parse_data. pres. Qed.
Local Hint Resolve preserves_JSON_parse_data : pres.

Lemma preserves_run_authHandler ws p res : preserves P (run_authHandler ws p res).
Proof. unfold run_authHandler. pres. Qed.

Lemma preserves_run_tmpSocketHandler listener p data :
  preserves P (run_tmpSocketHandler listener p data).
Proof.
  unfold run_tmpSocketHandler. pres.
  apply (P_listeners (fun ls => ls ++ [listener])).
Qed.

Lemma preserves_run_socketHandler l data : preserves P (run_socketHandler l data).
Proof.
  clear P_isSubscribedTrading.
  unfold run_socketHandler.
  destruct (json_of data) as [json|]; [|pres].
  destruct (Channel.eqb (Response.channel json) (Listener.channel l)); [|pres].
  apply preserves_bind; [pres | intros found].
  destruct (option_map Listener.clientListener found) as [clientListener|]; [|pres].
  destruct (Response.event json) eqn:E; pres;
    apply preserves_call_data; rewrite E; discriminate.
Qed.

Lemma preserves_run f data : preserves P (run f data).
Proof.
  destruct f; simpl;
    [apply preserves_run_authHandler | apply preserves_run_socketHandler
    | apply preserves_run_tmpSocketHandler].
Qed.

Lemma preserves_emit frame rs : preserves P (emit frame rs).
Proof.
  induction rs as [|r rs IH]; simpl; pres.
  destruct r; simpl; apply preserves_run.
Qed.

Lemma preserves_handle_but_flush ev :
  ev <> Call Bcx_flush_ -> preserves P (handle ev).
Proof.
  clear P_isSubscribedTrading.
  intros Hev. destruct ev; simpl.
  - pres. apply preserves_perform_but_flush. congruence.
  - unfold onopen. pres.
  - unfold onerror. pres.
  - unfold onclose. pres.
  - unfold onmessage. pres. apply preserves_emit.
Qed.

(** *** Continuations *)

Definition unsubscribed_trading (k : Cont) (o : Outcome) : bool :=
  match k, o with
  | unsubcribeTrading_then _, Fulfilled _ => true
  | _, _ => false
  end.

Lemma preserves_resume_but k o :
  unsubscribed_trading k o = false -> preserves P (resume k o).
Proof.
  clear P_isSubscribedTrading.
  intros H. destruct k, o; try discriminate H; simpl;
    unfold assign__ws, as_array; pres.
Qed.

Lemma preserves_resume k o : preserves P (resume k o).
Proof.
  destruct (unsubscribed_trading k o) eqn:E; [|now apply preserves_resume_but].
  destruct k, o; try discriminate E. simpl. pres.
Qed.

Lemma preserves_drain fuel st : P st -> P (drain fuel st).
Proof.
  revert st; induction fuel as [|fuel IH]; intros st H; simpl; [exact H|].
  destruct (jobs st) as [|[k o] rest]; [exact H|].
  apply IH. apply preserves_resume. now apply P_jobs.
Qed.

End Invariant.


(** ** TradingMode (C2) *)

(** A property of one component of the state is preserved by the primitives
    that do not write that component. *)
Ltac primitive :=
  unfold preserves; intros;
  unfold exec, new_Promise, settle, await, new_WebSocket, on_socket, modify, new_array,
    set_apiSecret, set_isSubscribedTrading, call_callback, promise, socket;
  repeat match goal with
         | |- context [match ?x with _ => _ end] => destruct x
         end;
  match goal with H : _ |- _ => exact H end.

(** The continuations [drain fuel st] runs, in order. *)
Fixpoint ran (fuel : nat) (st : State) : list (Cont * Outcome) :=
  match fuel with
  | O => []
  | S fuel =>
      match jobs st with
      | [] => []
      | (k, o) :: rest => (k, o) :: ran fuel (exec (resume k o) (set_jobs rest st))
      end
  end.

Section TradingMode.

Variable b : bool.

Let mode_is (st : State) : Prop := subscribed_to_trading st = b.

Lemma handle_keeps_mode (ev : Event) :
  ev <> Call Bcx_flush_ -> preserves mode_is (handle ev).
Proof.
  apply preserves_handle_but_flush; primitive.
Qed.

Lemma resume_keeps_mode (k : Cont) (o : Outcome) :
  unsubscribed_trading k o = false -> preserves mode_is (resume k o).
Proof.
  apply preserves_resume_but; primitive.
Qed.

End TradingMode.

Lemma flush_resets_mode (st : State) :
  subscribed_to_trading (exec (handle (Call Bcx_flush_)) st) = false.
Proof. reflexivity. Qed.

Lemma unsubscribed_resets_mode (p : nat) (v : Value) (st : State) :
  subscribed_to_trading (exec (resume (unsubcribeTrading_then p) (Fulfilled v)) st) = false.
Proof.
  unfold exec. simpl. unfold bind, set_isSubscribedTrading, modify, resolve, settle.
  cbn [fst snd promises set_this].
  destruct (nth_error (promises st) p) as [[o|]|]; reflexivity.
Qed.

Lemma drain_mode (fuel : nat) (st : State) :
  subscribed_to_trading (drain fuel st) = subscribed_to_trading st \/
  (subscribed_to_trading (drain fuel st) = false /\
   exists p v, In (unsubcribeTrading_then p, Fulfilled v) (ran fuel st)).
Proof.
  revert st; induction fuel as [|fuel IH]; intros st; simpl; [now left|].
  destruct (jobs st) as [|[k o] rest] eqn:J; [now left|].
  destruct (unsubscribed_trading k o) eqn:E.
  - right. destruct k, o; try discriminate E.
    split; [| exists p, v; now left].
    destruct (IH (exec (resume (unsubcribeTrading_then p) (Fulfilled v)) (set_jobs rest st)))
      as [H | [H _]]; [|exact H].
    rewrite H. apply unsubscribed_resets_mode.
  - assert (K : subscribed_to_trading (exec (resume k o) (set_jobs rest st))
                = subscribed_to_trading st).
    { exact (@resume_keeps_mode (subscribed_to_trading st) k o E (set_jobs rest st) eq_refl). }
    destruct (IH (exec (resume k o) (set_jobs rest st))) as [H | [H (p & v & I)]].
    + left. now rewrite H.
    + right. split; [exact H | exists p, v; now right].
Qed.

Definition Event_is_flush (ev : Event) : {ev = Call Bcx_flush_} + {ev <> Call Bcx_flush_}.
Proof.
  destruct ev as [op| | | |]; try (right; discriminate).
  destruct op; try (right; discriminate). left; reflexivity.
Defined.

Lemma step_mode (fuel : nat) (st : State) (ev : Event) :
  subscribed_to_trading (step fuel st ev) = subscribed_to_trading st \/
  (subscribed_to_trading (step fuel st ev) = false /\
   (ev = Call Bcx_flush_ \/
    exists p v, In (unsubcribeTrading_then p, Fulfilled v) (ran fuel (exec (handle ev) st)))).
Proof.
  unfold step.
  destruct (Event_is_flush ev) as [-> | Hev].
  - right.
    destruct (drain_mode fuel (exec (handle (Call Bcx_flush_)) st)) as [H | [H _]].
    + split; [|now left]. rewrite H. apply flush_resets_mode.
    + split; [exact H | now left].
  - assert (K : subscribed_to_trading (exec (handle ev) st) = subscribed_to_trading st).
    { exact (@handle_keeps_mode (subscribed_to_trading st) ev Hev st eq_refl). }
    destruct (drain_mode fuel (exec (handle ev) st)) as [H | [H I]].
    + left. now rewrite H.
    + right. split; [exact H | now right].
Qed.

Lemma steps_stay_unsubscribed (fuel : nat) (evs : list Event) (st : State) :
  subscribed_to_trading st = false -> subscribed_to_trading (steps fuel st evs) = false.
Proof.
  revert st; induction evs as [|ev evs IH]; intros st H; simpl; [exact H|].
  apply IH. destruct (step_mode fuel st ev) as [K | [K _]]; congruence.
Qed.

(** The operations that send one order command and wait for its outcome. *)
Definition one_shot (op : Operation) : Prop :=
  (exists order, op = Bcx_createOrder order) \/
  (exists orderID, op = Bcx_cancelOrder orderID) \/
  op = Bcx_cancelAllOrders.

(** C2.  Whatever happens to the program (a call of any operation of the
    client or of the socket module, or an event of a websocket, with the
    microtasks that follow), [isSubscribedTrading] is left as it was, or it
    becomes false, and then either the operation was [flush] or the
    continuation of [unsubcribeTrading] ran on a fulfilled [unsubscribe].
    In particular a client that is not subscribed to trading and calls a
    one-shot order operation is not subscribed to trading at any later
    point, whatever the server sends. *)
Theorem trading_mode_transitions :
  (forall (fuel : nat) (st : State) (ev : Event),
     subscribed_to_trading (step fuel st ev) = subscribed_to_trading st \/
     (subscribed_to_trading (step fuel st ev) = false /\
      (ev = Call Bcx_flush_ \/
       exists p v,
         In (unsubcribeTrading_then p, Fulfilled v) (ran fuel (exec (handle ev) st))))) /\
  (forall (fuel : nat) (st : State) (op : Operation) (evs : list Event),
     one_shot op ->
     subscribed_to_trading st = false ->
     subscribed_to_trading (steps fuel st (Call op :: evs)) = false).
Proof.
  split.
  - apply step_mode.
  - intros fuel st op evs _ H. now apply steps_stay_unsubscribed.
Qed.

Lemma trading_mode_transitions_witness :
  one_shot (Bcx_createOrder order_X) /\
  subscribed_to_trading (initial (Some "secret")) = false /\
  subscribed_to_trading
    (steps 10 (initial (Some "secret"))
       [Call (Bcx_createOrder order_X); Open 0;
        Message 0 (ack Channel.AUTH ChannelEvent.SUBSCRIBED);
        Message 0 (ack Channel.TRADING ChannelEvent.SUBSCRIBED);
        Message 0 (order_update "77" "X" OrderStatus.OPEN);
        Message 0 (ack Channel.TRADING ChannelEvent.UNSUBSCRIBED)]) = false.
Proof.
  assert (H1 : one_shot (Bcx_createOrder order_X)) by (left; exists order_X; reflexivity).
  assert (H2 : subscribed_to_trading (initial (Some "secret")) = false) by reflexivity.
  split; [exact H1 | split; [exact H2 |]].
  exact (proj2 trading_mode_transitions 10 (initial (Some "secret"))
           (Bcx_createOrder order_X) _ H1 H2).
Defined.

(** Where the two subscriptions are started together on a fresh module, as
    in the test of the library, each [subscribe] finds [_ws] undefined and
    opens a websocket of its own; each function is attached to another
    websocket and each callback is given the frames of its own connection. *)
Lemma concurrent_subscribes_open_two_connections :
  let st := steps 10 (initial None)
              [Call (Bcx_subscribeTicker "BTC-USD" 1); Call (Bcx_subscribeTicker "ETH-USD" 2);
               Open 0; Open 1;
               Message 0 (ticker ChannelEvent.SUBSCRIBED "BTC-USD");
               Message 1 (ticker ChannelEvent.SUBSCRIBED "ETH-USD");
               Message 0 (ticker ChannelEvent.SNAPSHOT "BTC-USD");
               Message 1 (ticker ChannelEvent.SNAPSHOT "ETH-USD")] in
  List.length (sockets st) = 2 /\
  List.length (attached_to 0 st) = 1 /\ List.length (attached_to 1 st) = 1 /\
  calls st = [(1, ticker ChannelEvent.SNAPSHOT "BTC-USD");
              (2, ticker ChannelEvent.SNAPSHOT "ETH-USD")].
Proof. vm_compute. repeat split. Qed.

(** ** Routing by channel (C1, as the code has it) *)

(** The microtasks call no callback of the caller. *)
Lemma drain_calls (fuel : nat) (st : State) : calls (drain fuel st) = calls st.
Proof.
  apply (@preserves_drain (fun st' => calls st' = calls st));
    try primitive; reflexivity.
Qed.

(** A settled promise stays as it is. *)
Section Settled.

Variable p : nat.
Variable o : Outcome.

Let settled (st : State) : Prop := nth_error (promises st) p = Some (Some o).

Lemma settled_new_Promise : preserves settled new_Promise.
Proof.
  intros st H. unfold settled, exec, new_Promise in *. cbn [snd promises set_promises].
  rewrite nth_error_app1; [exact H|]. apply nth_error_Some. congruence.
Qed.

Lemma settled_settle q o' : preserves settled (settle q o').
Proof.
  intros st H. unfold settled, exec, settle in *.
  destruct (nth_error (promises st) q) as [[x|]|] eqn:E; try exact H.
  cbn [snd promises set_promises set_reactions set_jobs].
  rewrite nth_error_update_other; [exact H|]. intros ->. congruence.
Qed.

Lemma settled_drain (fuel : nat) (st : State) : settled st -> settled (drain fuel st).
Proof.
  apply (@preserves_drain settled);
    try apply settled_new_Promise; try apply settled_settle; primitive.
Qed.

End Settled.

Lemma settle_pending (p : nat) (o : Outcome) (st : State) :
  nth_error (promises st) p = Some None ->
  nth_error (promises (exec (settle p o) st)) p = Some (Some o).
Proof.
  intros H. unfold exec, settle. rewrite H.
  cbn [snd promises set_promises set_reactions set_jobs].
  now apply nth_error_update with (y := None).
Qed.

(** [settle] writes the promises and the two queues only. *)
Lemma settle_frame (p : nat) (o : Outcome) (st : State) :
  let st' := exec (settle p o) st in
  calls st' = calls st /\ listeners st' = listeners st /\ sockets st' = sockets st /\
  _ws st' = _ws st /\ isAuthed st' = isAuthed st /\ this st' = this st.
Proof.
  unfold exec, settle. destruct (nth_error (promises st) p) as [[x|]|]; cbn; auto 10.
Qed.

(** Either the promise was pending and is settled with [o], or it is as it
    was. *)
Lemma settle_promise (p q : nat) (o : Outcome) (st : State) :
  nth_error (promises (exec (settle p o) st)) q =
    if Nat.eqb p q then
      match nth_error (promises st) q with
      | Some None => Some (Some o)
      | other => other
      end
    else nth_error (promises st) q.
Proof.
  unfold exec, settle. destruct (Nat.eqb_spec p q) as [->|N].
  - destruct (nth_error (promises st) q) as [[x|]|] eqn:E; cbn; try exact E.
    now apply nth_error_update with (y := None).
  - destruct (nth_error (promises st) p) as [[x|]|] eqn:E; cbn; try reflexivity.
    now apply nth_error_update_other.
Qed.

(** The events a [socketHandler] passes to the callback. *)
Definition data_event (e : ChannelEvent.t) : bool :=
  match e with
  | ChannelEvent.SUBSCRIBED | ChannelEvent.REJECTED => false
  | _ => true
  end.

(** What the function attached by [subscribe] does with a frame, when its
    listener is in the registry and is a callback of the caller: nothing for
    a frame of another channel; for a frame of its channel it resolves or
    rejects its promise on an acknowledgement, and calls the callback on any
    other event. *)
Lemma run_socketHandler_callback (l : Listener.t) (id : nat) (json : Response.t) (st : State) :
  Listener.clientListener l = callback id ->
  getListener (Listener.channel l) (Some (Listener.params l)) st = Some l ->
  run_socketHandler l (text json) st =
    (Normal tt,
     if Channel.eqb (Response.channel json) (Listener.channel l) then
       match Response.event json with
       | ChannelEvent.SUBSCRIBED => exec (resolve (Listener.resolver l) undefined) st
       | ChannelEvent.REJECTED =>
           exec (reject (Listener.resolver l) (Error_of (Response.text json))) st
       | _ => set_calls (calls st ++ [(id, json)]) st
       end
     else st).
Proof.
  intros Hc Hl. unfold run_socketHandler, json_of.
  destruct (Channel.eqb (Response.channel json) (Listener.channel l)); [|reflexivity].
  unfold bind, get. rewrite Hl. cbn [option_map]. rewrite Hc.
  unfold exec, resolve, reject, settle.
  destruct (Response.event json); try reflexivity;
    destruct (nth_error (promises st) (Listener.resolver l)) as [[x|]|]; reflexivity.
Qed.

Lemma socketHandler_effect (l : Listener.t) (id : nat) (json : Response.t) (st : State) :
  Listener.clientListener l = callback id ->
  getListener (Listener.channel l) (Some (Listener.params l)) st = Some l ->
  exists st1,
    run_socketHandler l (text json) st = (Normal tt, st1) /\
    calls st1 = calls st ++
      (if Channel.eqb (Response.channel json) (Listener.channel l)
          && data_event (Response.event json)
       then [(id, json)] else []) /\
    listeners st1 = listeners st /\
    (forall q o, nth_error (promises st) q = Some (Some o) ->
                 nth_error (promises st1) q = Some (Some o)) /\
    (Response.channel json = Listener.channel l ->
     Response.event json = ChannelEvent.SUBSCRIBED ->
     forall q,
       nth_error (promises st1) q =
         if Nat.eqb (Listener.resolver l) q then
           match nth_error (promises st) q with
           | Some None => Some (Some (Fulfilled undefined))
           | other => other
           end
         else nth_error (promises st) q).
Proof.
  intros Hc Hl. eexists. split; [now apply run_socketHandler_callback with (id := id)|].
  destruct (Channel.eqb (Response.channel json) (Listener.channel l)) eqn:E.
  - destruct (Response.event json) eqn:Ev; cbn [andb data_event];
      unfold resolve, reject.
    + destruct (settle_frame (Listener.resolver l) (Fulfilled undefined) st)
        as (F1 & F2 & _).
      rewrite F1, F2, app_nil_r. repeat split; try reflexivity.
      * intros q o H. now apply (@settled_settle q o).
      * intros _ _ q. apply settle_promise.
    + repeat split; try reflexivity; try discriminate. auto.
    + destruct (settle_frame (Listener.resolver l) (Rejected (Error_of (Response.text json))) st)
        as (F1 & F2 & _).
      rewrite F1, F2, app_nil_r. repeat split; try reflexivity; try discriminate.
      intros q o H. now apply (@settled_settle q o).
    + repeat split; try reflexivity; try discriminate. auto.
    + repeat split; try reflexivity; try discriminate. auto.
  - rewrite app_nil_r. repeat split; try reflexivity; auto.
    intros H. rewrite H in E. rewrite Channel.eqb_refl in E. discriminate.
Qed.

(** The function of the caller a listener holds. *)
Definition caller (l : Listener.t) : nat :=
  match Listener.clientListener l with
  | callback id => id
  | _ => 0
  end.

(** An active subscription of the caller: the listener is the one the
    registry holds under its key, and its callback is a function of the
    caller. *)
Definition active (st : State) (l : Listener.t) : Prop :=
  Listener.clientListener l = callback (caller l) /\
  getListener (Listener.channel l) (Some (Listener.params l)) st = Some l.

(** The channel of the frame is the one of the listener. *)
Definition on_channel (json : Response.t) (l : Listener.t) : bool :=
  Channel.eqb (Response.channel json) (Listener.channel l).

(** The listeners whose callback a frame is passed to: none for an
    acknowledgement, those of the channel of the frame otherwise. *)
Definition served (json : Response.t) (ls : list Listener.t) : list Listener.t :=
  if data_event (Response.event json) then filter (on_channel json) ls else [].

(** The promises after the function of a listener has run on a "subscribed"
    frame. *)
Lemma socketHandler_subscribed (l : Listener.t) (json : Response.t) (st st1 : State) :
  active st l ->
  Response.event json = ChannelEvent.SUBSCRIBED ->
  run_socketHandler l (text json) st = (Normal tt, st1) ->
  forall q,
    nth_error (promises st1) q =
      if on_channel json l && Nat.eqb (Listener.resolver l) q then
        match nth_error (promises st) q with
        | Some None => Some (Some (Fulfilled undefined))
        | other => other
        end
      else nth_error (promises st) q.
Proof.
  intros [Hc Hl] He R q.
  rewrite (run_socketHandler_callback json st Hc Hl) in R.
  injection R as <-. unfold on_channel.
  destruct (Channel.eqb (Response.channel json) (Listener.channel l)); [|reflexivity].
  rewrite He. cbn [andb]. apply settle_promise.
Qed.

(** A frame goes through the functions of active subscriptions, in the order
    they were attached. *)
Lemma emit_active (json : Response.t) (ls : list Listener.t) :
  forall st, Forall (active st) ls ->
    exists st2,
      emit json (map (fun l => on (socketHandler l)) ls) st = (Normal tt, st2) /\
      calls st2 = calls st ++ map (fun l => (caller l, json)) (served json ls) /\
      (forall q o, nth_error (promises st) q = Some (Some o) ->
                   nth_error (promises st2) q = Some (Some o)) /\
      (Response.event json = ChannelEvent.SUBSCRIBED ->
       forall q, nth_error (promises st) q = Some None ->
         (nth_error (promises st2) q = Some None \/
          nth_error (promises st2) q = Some (Some (Fulfilled undefined))) /\
         (forall l, In l ls -> on_channel json l = true -> Listener.resolver l = q ->
            nth_error (promises st2) q = Some (Some (Fulfilled undefined)))).
Proof.
  induction ls as [|l ls IH]; intros st H.
  - exists st. unfold served. simpl.
    destruct (data_event (Response.event json)); simpl; rewrite app_nil_r.
    all: repeat split; auto; intros l [].
  - inversion H as [|l0 ls0 Hl Hrest]; subst l0 ls0.
    destruct (socketHandler_effect json st (proj1 Hl) (proj2 Hl))
      as (st1 & R1 & C1 & L1 & S1 & _).
    assert (H1 : Forall (active st1) ls).
    { apply Forall_forall. intros x Hx. destruct (proj1 (Forall_forall _ _) Hrest x Hx) as [X1 X2].
      split; [exact X1|]. unfold getListener in *. now rewrite L1. }
    destruct (IH st1 H1) as (st2 & R2 & C2 & S2 & A2).
    exists st2. split; [|split; [|split]].
    + cbn [map emit deliver run]. unfold bind. rewrite R1. exact R2.
    + rewrite C2, C1, <- app_assoc. f_equal. unfold served, on_channel.
      destruct (data_event (Response.event json)); cbn [filter].
      * rewrite andb_true_r.
        destruct (Channel.eqb (Response.channel json) (Listener.channel l)); reflexivity.
      * rewrite andb_false_r. reflexivity.
    + intros q o Hq. apply S2, S1, Hq.
    + intros He q Hq.
      pose proof (@socketHandler_subscribed l json st st1 Hl He R1 q) as P1. rewrite Hq in P1.
      destruct (on_channel json l && Nat.eqb (Listener.resolver l) q) eqn:T.
      * (* this listener fulfils the promise *)
        pose proof (S2 _ _ P1) as F. split; [now right | intros; exact F].
      * destruct (A2 He q P1) as [K1 K2]. split; [exact K1|].
        intros x [<- | Hx] Hch Hr; [|now apply K2 with (l := x)].
        rewrite Hch, <- Hr, Nat.eqb_refl in T. discriminate T.
Qed.

(** C1 as the code has it.  The functions attached to an open websocket are
    those of active subscriptions of the caller, two of which, [a] and [b],
    are on one channel with different parameter sets.  A frame arriving on
    the websocket is passed to the callback of every listener of the channel
    of the frame, in the order of attachment and whatever its symbol, unless
    it is an acknowledgement: to the callbacks of [a] and of [b] both when
    the frame carries their channel, to neither otherwise.  A "subscribed"
    acknowledgement resolves the promise of every [subscribe] call of its
    channel that is still pending, whether the others are pending or not. *)
Theorem socketHandlers_route_by_channel :
  forall (fuel : nat) (st : State) (ws : nat) (s : WebSocket.t) (ls : list Listener.t)
         (a b : Listener.t) (json : Response.t),
    socket ws st = Some s ->
    WebSocket.readyState s = WebSocket.OPEN ->
    WebSocket.message s = map (fun l => on (socketHandler l)) ls ->
    Forall (active st) ls ->
    In a ls -> In b ls ->
    Listener.channel a = Listener.channel b ->
    JSON_stringify (Listener.params a) <> JSON_stringify (Listener.params b) ->
    let st' := step fuel st (Message ws json) in
    calls st' = calls st ++ map (fun l => (caller l, json)) (served json ls) /\
    (In a (served json ls) <->
     Response.channel json = Listener.channel a /\ data_event (Response.event json) = true) /\
    (In b (served json ls) <-> In a (served json ls)) /\
    (forall l, In l ls ->
       Response.channel json = Listener.channel l ->
       Response.event json = ChannelEvent.SUBSCRIBED ->
       nth_error (promises st) (Listener.resolver l) = Some None ->
       promise (Listener.resolver l) st' = Some (Fulfilled undefined)).
Proof.
  intros fuel st ws s ls a b json Hs Ho Hm Hact Ia Ib Hch Hpar st'.
  destruct (emit_active json Hact) as (st2 & R & C & S & A).
  assert (E : exec (handle (Message ws json)) st = st2).
  { unfold exec, handle, onmessage, bind, get. rewrite Hs, Ho, Hm.
    unfold try_catch. now rewrite R. }
  assert (Sv : forall l, In l ls ->
            (In l (served json ls) <->
             Response.channel json = Listener.channel l /\
             data_event (Response.event json) = true)).
  { intros l Il. unfold served, on_channel.
    destruct (data_event (Response.event json)).
    - rewrite filter_In, Channel.eqb_eq. tauto.
    - split; [intros [] | intros [_ D]; discriminate D]. }
  subst st'. unfold step. rewrite E. split; [|split; [|split]].
  - now rewrite drain_calls.
  - now apply Sv.
  - rewrite (Sv a Ia), (Sv b Ib), Hch. tauto.
  - intros l Il Hc He Hp.
    unfold promise. apply nth_of_nth_error. apply settled_drain.
    apply (proj2 (A He _ Hp) l Il); [|reflexivity].
    unfold on_channel. now apply Channel.eqb_eq.
Qed.

(** Ticker BTC-USD is subscribed and acknowledged (promise 0); [subscribe]
    for ticker ETH-USD was called and its promise (2) is pending. *)
Definition second_ticker_pending : State :=
  step 10 subscribed_once
    (Call (socket_subscribe Channel.TICKER (Some 2) (symbol_params "ETH-USD") None)).

Lemma socketHandlers_route_by_channel_witness :
  (promise 0 second_ticker_pending = Some (Fulfilled undefined) /\
   promise 2 second_ticker_pending = None) /\
  promise 2 (step 10 second_ticker_pending (Message 0 (ticker ChannelEvent.SUBSCRIBED "BTC-USD")))
    = Some (Fulfilled undefined) /\
  calls (step 10 two_tickers (Message 0 (ticker ChannelEvent.UPDATED "ETH-USD")))
    = calls two_tickers
      ++ [(1, ticker ChannelEvent.UPDATED "ETH-USD"); (2, ticker ChannelEvent.UPDATED "ETH-USD")].
Proof.
  assert (Hs : socket 0 two_tickers
               = Some (WebSocket.mk WebSocket.OPEN
                         (map (fun l => on (socketHandler l)) [BTC_listener; ETH_listener])
                         [mkRequest Action.SUBSCRIBE Channel.TICKER (symbol_params "BTC-USD");
                          mkRequest Action.SUBSCRIBE Channel.TICKER (symbol_params "ETH-USD")]
                         1))
    by (vm_compute; reflexivity).
  assert (Hs' : socket 0 second_ticker_pending
                = Some (WebSocket.mk WebSocket.OPEN
                          (map (fun l => on (socketHandler l)) [BTC_listener; ETH_listener])
                          [mkRequest Action.SUBSCRIBE Channel.TICKER (symbol_params "BTC-USD");
                           mkRequest Action.SUBSCRIBE Channel.TICKER (symbol_params "ETH-USD")]
                          1))
    by (vm_compute; reflexivity).
  assert (Hact : Forall (active two_tickers) [BTC_listener; ETH_listener])
    by (repeat constructor; vm_compute; reflexivity).
  assert (Hact' : Forall (active second_ticker_pending) [BTC_listener; ETH_listener])
    by (repeat constructor; vm_compute; reflexivity).
  assert (Hp : JSON_stringify (Listener.params BTC_listener)
               <> JSON_stringify (Listener.params ETH_listener))
    by (vm_compute; discriminate).
  assert (Hpending : nth_error (promises second_ticker_pending) (Listener.resolver ETH_listener)
                     = Some None)
    by (vm_compute; reflexivity).
  split; [split; vm_compute; reflexivity | split].
  - exact (proj2 (proj2 (proj2
             (@socketHandlers_route_by_channel 10 second_ticker_pending 0 _
                [BTC_listener; ETH_listener] BTC_listener ETH_listener
                (ticker ChannelEvent.SUBSCRIBED "BTC-USD")
                Hs' eq_refl eq_refl Hact' (or_introl eq_refl) (or_intror (or_introl eq_refl))
                eq_refl Hp)))
             ETH_listener (or_intror (or_introl eq_refl)) eq_refl eq_refl Hpending).
  - exact (proj1 (@socketHandlers_route_by_channel 10 two_tickers 0 _
                    [BTC_listener; ETH_listener] BTC_listener ETH_listener
                    (ticker ChannelEvent.UPDATED "ETH-USD")
                    Hs eq_refl eq_refl Hact (or_introl eq_refl) (or_intror (or_introl eq_refl))
                    eq_refl Hp)).
Defined.

(** Symbolic evaluation of the code on a state given by its components. *)
Ltac evaluate :=
  cbv beta iota zeta delta
    [step exec handle perform returned void
     bind try_catch get ret modify throw when async
     new_Promise promise settle resolve reject await
     new_WebSocket socket on_socket attach detach write set_readyState defined
     ws_on ws_addEventListener ws_removeEventListener ws_send
     flush Bcx_flush set_apiSecret set_isSubscribedTrading reject_on_error
     authenticate getSocket truthy send_write send_authenticate send
     getListener unsubscribe subscribe_register subscribe_checks subscribe
     onopen JSON_stringify_event onerror onclose onmessage emit deliver run
     ErrorEvent.error ErrorEvent.circular
     run_authHandler run_tmpSocketHandler run_socketHandler JSON_parse_data json_of
     resume assign__ws call
     sockets _ws listeners isAuthed promises reactions jobs arrays this calls uncaught
     set_sockets set__ws set_listeners set_isAuthed set_promises set_reactions set_jobs
     set_arrays set_this set_calls set_uncaught
     WebSocket.readyState WebSocket.message WebSocket.sent WebSocket.opening
     Response.channel Response.event Response.text Response.symbol Response.orderID
     Response.clOrdID Response.ordStatus Response.orders
     Listener.channel Listener.params Listener.clientListener Listener.resolver
     fst snd option_map].

(** ** flush (C10) *)

Lemma drain_idle (fuel : nat) (st : State) : jobs st = [] -> drain fuel st = st.
Proof. intros H. destruct fuel; simpl; [reflexivity | now rewrite H]. Qed.

Lemma update_snoc {A} (l : list A) (x y : A) : update (List.length l) y (l ++ [x]) = l ++ [y].
Proof. induction l as [|a l IH]; simpl; [reflexivity | now rewrite IH]. Qed.

Lemma nth_snoc {A} (l : list A) (x d : A) : nth (List.length l) (l ++ [x]) d = x.
Proof. induction l as [|a l IH]; simpl; [reflexivity | exact IH]. Qed.

Lemma length_snoc {A} (l : list A) (x : A) : List.length (l ++ [x]) = S (List.length l).
Proof. induction l as [|a l IH]; simpl; [reflexivity | now rewrite IH]. Qed.

(** No continuation waits for a promise that is not allocated yet. *)
Definition allocated (st : State) : Prop :=
  forall r, In r (reactions st) -> fst r < List.length (promises st).

Lemma none_waits (n : nat) (rs : list (nat * Cont)) :
  (forall r, In r rs -> fst r < n) ->
  forall m, n <= m ->
    filter (waits_for m) rs = [] /\ filter (fun r => negb (waits_for m r)) rs = rs.
Proof.
  intros H m Hm. induction rs as [|r rs IH]; simpl; [now split|].
  assert (E : waits_for m r = false).
  { unfold waits_for. apply Nat.eqb_neq. specialize (H r (or_introl eq_refl)). lia. }
  rewrite E. simpl.
  destruct IH as [I1 I2]; [intros r' Hr'; apply H; now right|].
  now rewrite I1, I2.
Qed.

(** The two operations called [flush]. *)
Definition is_flush (op : Operation) : Prop := op = socket_flush \/ op = Bcx_flush_.

Definition auth_request (token : string) : Request :=
  mkRequest Action.SUBSCRIBE Channel.AUTH [("token", token)].

(** What [flush] achieves.  After [flush] (that of the socket module, or that
    of the client, which calls it) the registry is empty, [isAuthed] is false
    and [_ws] is undefined, and no websocket was written to or otherwise
    touched.  A [subscribe] with a token that follows at once opens a new
    websocket and, when that opens before anything else happens, makes it
    the connection and writes the authentication request to it, the observer
    of [authenticate] being attached; the listener is not registered before
    the server answers. *)
Lemma flush_forgets_connection :
  forall (fuel : nat) (st : State) (op : Operation) (channel : Channel.t) (cb : nat)
         (params : Params) (token : string),
    jobs st = [] ->
    allocated st ->
    is_flush op ->
    token <> "" ->
    let ws := List.length (sockets st) in
    let p := List.length (promises st) in
    let st1 := step fuel st (Call op) in
    let st2 := step fuel st1 (Call (socket_subscribe channel (Some cb) params (Some token))) in
    let st3 := step (S fuel) st2 (Open ws) in
    (listeners st1 = [] /\ isAuthed st1 = false /\ _ws st1 = None /\ sockets st1 = sockets st) /\
    (_ws st2 = None /\
     sockets st2 = sockets st ++ [WebSocket.mk WebSocket.CONNECTING [] [] (S p)]) /\
    (_ws st3 = Some ws /\
     sockets st3 = sockets st ++
       [WebSocket.mk WebSocket.OPEN [addEventListener (authHandler ws (S (S p)))]
          [auth_request token] (S p)] /\
     isAuthed st3 = false /\ listeners st3 = []).
Proof.
  intros fuel st op channel cb params token HJ HA Hop Htok ws p st1 st2 st3.
  destruct token as [|c token]; [congruence|]. clear Htok.
  destruct st as [S W L A Ps R J Ar T C U]. simpl in HJ. subst J.
  unfold allocated in HA. simpl in HA, ws, p.
  assert (E1 : exists T', st1 = mkState S None [] false Ps R [] Ar T' C U).
  { subst st1. destruct Hop as [-> | ->]; unfold step;
      (rewrite drain_idle; [|reflexivity]); eexists; reflexivity. }
  destruct E1 as (T' & E1).
  split; [rewrite E1; repeat split; reflexivity|].
  assert (E2 : st2 = mkState (S ++ [WebSocket.mk WebSocket.CONNECTING [] [] (Datatypes.S p)])
                       None [] false ((Ps ++ [None]) ++ [None])
                       (R ++ [(Datatypes.S p,
                               subscribe_1 channel (Some (callback cb)) params (Some (String c token)) p)])
                       [] Ar T' C U).
  { subst st2. rewrite E1. unfold step.
    evaluate. rewrite nth_snoc. evaluate. rewrite length_snoc.
    rewrite drain_idle; reflexivity. }
  split; [rewrite E2; split; reflexivity|].
  set (k := subscribe_1 channel (Some (callback cb)) params (Some (String c token)) p) in *.
  assert (E3 : st3 = mkState
                 (S ++ [WebSocket.mk WebSocket.OPEN
                          [addEventListener (authHandler ws (Datatypes.S (Datatypes.S p)))]
                          [auth_request (String c token)] (Datatypes.S p)])
                 (Some ws) [] false
                 (((Ps ++ [None]) ++ [Some (Fulfilled (VSocket ws))]) ++ [None])
                 (R ++ [(Datatypes.S (Datatypes.S p),
                         subscribe_2 channel (callback cb) params p)])
                 [] Ar T' C U).
  { subst st3. rewrite E2. subst k ws p. evaluate.
    rewrite nth_error_snoc. evaluate. rewrite nth_error_snoc, update_snoc.
    rewrite <- (length_snoc Ps None), nth_error_snoc, update_snoc.
    rewrite !filter_app.
    match goal with
    | |- context [filter (waits_for ?m) R] =>
        destruct (@none_waits (List.length Ps) R HA m) as [F1 F2];
          [rewrite length_snoc; lia|]
    end.
    rewrite F1, F2. cbn [filter]. unfold waits_for at 1 2. cbn [fst negb].
    rewrite Nat.eqb_refl. cbn [negb app map snd]. cbn [drain jobs]. evaluate.
    cbn [find]. evaluate.
    rewrite !nth_error_snoc. evaluate. rewrite !update_snoc. evaluate.
    rewrite ?nth_error_snoc. evaluate. rewrite ?update_snoc. evaluate.
    rewrite nth_snoc. evaluate. rewrite drain_idle by reflexivity.
    cbn [app]. rewrite !length_snoc, !app_nil_r. reflexivity. }
  rewrite E3. repeat split; reflexivity.
Qed.

(** The subscription to balances is active on an authenticated connection. *)
Definition balances_subscribed : State :=
  steps 10 (initial None)
    [Call (socket_subscribe Channel.BALANCES (Some 1) [] (Some "token")); Open 0;
     Message 0 (ack Channel.AUTH ChannelEvent.SUBSCRIBED);
     Message 0 (ack Channel.BALANCES ChannelEvent.SUBSCRIBED)].

Lemma flush_forgets_connection_witness :
  (isAuthed balances_subscribed = true /\ _ws balances_subscribed = Some 0 /\
   List.length (sockets balances_subscribed) = 1 /\
   jobs balances_subscribed = [] /\ allocated balances_subscribed) /\
  let ws := List.length (sockets balances_subscribed) in
  let st1 := step 10 balances_subscribed (Call socket_flush) in
  let st2 := step 10 st1 (Call (socket_subscribe Channel.BALANCES (Some 1) [] (Some "token"))) in
  let st3 := step 11 st2 (Open ws) in
  isAuthed st1 = false /\ _ws st3 = Some ws /\ sent_on ws st3 = [auth_request "token"].
Proof.
  assert (HJ : jobs balances_subscribed = []) by (vm_compute; reflexivity).
  assert (HA : allocated balances_subscribed) by (intros r H; vm_compute in H; destruct H).
  assert (Hf : is_flush socket_flush) by (left; reflexivity).
  assert (Ht : "token" <> "") by discriminate.
  split; [split; [vm_compute; reflexivity | split; [vm_compute; reflexivity | split;
    [vm_compute; reflexivity | split; [exact HJ | exact HA]]]]|].
  destruct (@flush_forgets_connection 10 balances_subscribed socket_flush Channel.BALANCES 1 []
              "token" HJ HA Hf Ht) as ((_ & H1 & _) & _ & (H3 & H4 & _)).
  cbv zeta. split; [exact H1 | split; [exact H3 |]].
  unfold sent_on, socket. rewrite H4, nth_error_snoc. reflexivity.
Defined.

(** C10.  [flush] resets [isAuthed], but the websocket it forgets stays open
    with the observer of a pending [authenticate] attached to it.  When the
    acknowledgement of that authentication arrives after the flush, the
    observer sets [isAuthed] again: the [subscribe] with a token issued after
    the flush gets a new connection, and writes its request to it with no
    authentication request before. *)
Theorem late_acknowledgement_skips_authentication :
  let st := step 10 authenticating (Call socket_flush) in
  let st1 := step 10 st (Call (socket_subscribe Channel.TRADING (Some 2) [] (Some "token"))) in
  let st2 := step 10 st1 (Message 0 (ack Channel.AUTH ChannelEvent.SUBSCRIBED)) in
  let st3 := step 10 st2 (Open 1) in
  (listeners st = [] /\ isAuthed st = false /\ _ws st = None /\
   attached_to 0 st = [addEventListener (authHandler 0 2)]) /\
  (isAuthed st1 = false /\ isAuthed st2 = true) /\
  (_ws st3 = Some 1 /\ isAuthed st3 = true /\
   sent_on 1 st3 = [mkRequest Action.SUBSCRIBE Channel.TRADING []] /\
   ~ In (auth_request "token") (sent_on 1 st3)).
Proof.
  cbv zeta. repeat split; try (vm_compute; reflexivity).
  vm_compute. intros [H | []]. discriminate H.
Qed.

(** ** cancelOrder without a trading subscription (C8) *)

Lemma settle_settled (p : nat) (o v : Outcome) (st : State) :
  nth_error (promises st) p = Some (Some v) -> settle p o st = (Normal tt, st).
Proof. intros H. unfold settle. now rewrite H. Qed.

Definition unsubscribe_request (channel : Channel.t) : Request :=
  mkRequest Action.UNSUBSCRIBE channel [].

(** The update [cancelOrder] waits for. *)
Definition confirms_cancel (orderID : string) (json : Response.t) : bool :=
  Channel.eqb (Response.channel json) Channel.TRADING
  && ChannelEvent.eqb (Response.event json) ChannelEvent.UPDATED
  && strict_eq orderID (Response.orderID json)
  && is_cancelled (Response.ordStatus json).

Lemma update_update {A} (l : list A) (n : nat) (x y : A) :
  update n y (update n x l) = update n y l.
Proof.
  revert n; induction l as [|a l IH]; intros [|n]; simpl; try reflexivity.
  now rewrite IH.
Qed.

Lemma same_function_refl (f : Handler) : same_function f f = true.
Proof. unfold same_function. destruct (Handler_dec f f); congruence. Qed.

(** What [unsubscribe] does when a listener is found and the connection is
    open. *)
Definition unsubscribed (channel : Channel.t) (params : option Params) (ws : nat)
    (s : WebSocket.t) (l : Listener.t) (st : State) : State :=
  let q := List.length (promises st) in
  mkState
    (update ws
       (WebSocket.mk WebSocket.OPEN
          (filter (fun r => negb (same_function (registered r) (socketHandler l)))
             (WebSocket.message s)
           ++ [addEventListener (tmpSocketHandler l q)])
          (WebSocket.sent s
           ++ [mkRequest Action.UNSUBSCRIBE channel
                 (match params with Some p => p | None => [] end)])
          (WebSocket.opening s))
       (sockets st))
    (_ws st) (filter (kept channel params) (listeners st)) (isAuthed st)
    (promises st ++ [None]) (reactions st) (jobs st) (arrays st) (this st) (calls st)
    (uncaught st).

Lemma unsubscribe_found (channel : Channel.t) (params : option Params) (ws : nat)
    (s : WebSocket.t) (l : Listener.t) (st : State) :
  _ws st = Some ws ->
  socket ws st = Some s ->
  WebSocket.readyState s = WebSocket.OPEN ->
  getListener channel params st = Some l ->
  unsubscribe channel params st
    = (Normal (List.length (promises st)), unsubscribed channel params ws s l st).
Proof.
  intros Hws Hs Ho Hl. unfold unsubscribed.
  destruct st as [Ss W L A Ps R J Ar T C U]. destruct s as [rs ms sn op].
  unfold getListener in Hl. unfold socket in Hs.
  cbn [_ws socket sockets WebSocket.readyState listeners] in Hws, Hs, Ho, Hl.
  subst W rs.
  unfold unsubscribe. evaluate. rewrite Hl. evaluate. rewrite Hs. evaluate.
  repeat progress (rewrite ?update_update; erewrite ?nth_error_update by exact Hs; evaluate).
  reflexivity.
Qed.

Section CancelOrder.

Variables (orderID : string) (p p' r : nat).

(** The temporary subscription of [cancelOrder orderID], whose promise is
    [p]; [p'] is the promise of its [subscribeTrading] and [r] the one of its
    [subscribe]. *)
Definition cancelOrder_listener : Listener.t :=
  Listener.mk Channel.TRADING [] (subscribeTrading_cb (cancelOrder_cb orderID p) p') r.

(** [cancelOrder] is waiting for the outcome of its command: its temporary
    subscription is the only one, acknowledged and attached to the open
    connection, and no microtask is left. *)
Record waiting_for_cancel (ws : nat) (s : WebSocket.t) (st : State) : Prop := {
  waiting_ws : _ws st = Some ws;
  waiting_socket : socket ws st = Some s;
  waiting_open : WebSocket.readyState s = WebSocket.OPEN;
  waiting_attached : WebSocket.message s = [on (socketHandler cancelOrder_listener)];
  waiting_registry : listeners st = [cancelOrder_listener];
  waiting_jobs : jobs st = [];
  waiting_allocated : allocated st;
  waiting_pending : nth_error (promises st) p = Some None;
  waiting_subscribed : exists v, nth_error (promises st) r = Some (Some v);
  waiting_confirmed : exists v, nth_error (promises st) p' = Some (Some v)
}.

Lemma cancelOrder_keeps_waiting (fuel ws : nat) (s : WebSocket.t) (st : State)
    (json : Response.t) :
  waiting_for_cancel ws s st ->
  confirms_cancel orderID json = false ->
  step fuel st (Message ws json) = st.
Proof.
  intros [Hws Hs Ho Hm Hl HJ HA Hp [vr Hr] [vp Hp']] Hc.
  unfold step. 
  assert (E : exec (handle (Message ws json)) st = st).
  { unfold exec, handle, onmessage, bind, get. rewrite Hs, Ho, Hm.
    unfold try_catch, emit, deliver, run, bind, run_socketHandler, json_of.
    cbn [Listener.channel Listener.params Listener.resolver cancelOrder_listener].
    unfold confirms_cancel in Hc.
    destruct (Channel.eqb (Response.channel json) Channel.TRADING) eqn:Ech; [|reflexivity].
    unfold bind, get, getListener. rewrite Hl.
    change (find (is_listener Channel.TRADING []) [cancelOrder_listener])
      with (Some cancelOrder_listener).
    cbn [option_map Listener.clientListener cancelOrder_listener].
    unfold resolve, reject.
    destruct (Response.event json) eqn:Eev;
      rewrite ?(@settle_settled r _ vr st Hr); try reflexivity.
    all: cbn [call]; rewrite ?Eev.
    all: unfold async, when, try_catch, bind, ret.
    - change (ChannelEvent.eqb ChannelEvent.UNSUBSCRIBED ChannelEvent.SUBSCRIBED) with false.
      unfold resolve. rewrite (@settle_settled p' _ vp st Hp'). reflexivity.
    - change (ChannelEvent.eqb ChannelEvent.SNAPSHOT ChannelEvent.SUBSCRIBED) with false.
      unfold resolve. rewrite (@settle_settled p' _ vp st Hp'). reflexivity.
    - change (ChannelEvent.eqb ChannelEvent.UPDATED ChannelEvent.SUBSCRIBED) with false.
      rewrite ?Ech, ?Eev in Hc.
      change (ChannelEvent.eqb ChannelEvent.UPDATED ChannelEvent.UPDATED) with true in Hc.
      cbn [andb] in Hc. rewrite Hc.
      unfold resolve. rewrite (@settle_settled p' _ vp st Hp'). reflexivity. }
  rewrite E. now apply drain_idle.
Qed.

(** The state once the subscription is torn down: the registry is empty, the
    observer of [unsubscribe] (promise [q]) has replaced the function of the
    listener, the unsubscribe frame is written, and the rest of the callback
    waits for [q]. *)
Definition torn_down (ws : nat) (s : WebSocket.t) (json : Response.t) (st : State) : State :=
  let q := List.length (promises st) in
  mkState
    (update ws
       (WebSocket.mk WebSocket.OPEN
          [addEventListener (tmpSocketHandler cancelOrder_listener q)]
          (WebSocket.sent s ++ [unsubscribe_request Channel.TRADING])
          (WebSocket.opening s))
       (sockets st))
    (_ws st) [] (isAuthed st) (promises st ++ [None])
    (reactions st ++ [(q, then_resolve p (VResponse json))])
    [] (arrays st) (this st) (calls st) (uncaught st).

Lemma cancelOrder_tears_down (fuel ws : nat) (s : WebSocket.t) (st : State)
    (json : Response.t) :
  waiting_for_cancel ws s st ->
  confirms_cancel orderID json = true ->
  step fuel st (Message ws json) = torn_down ws s json st.
Proof.
  intros [Hws Hs Ho Hm Hl HJ HA Hp [vr Hr] [vp Hp']] Hc.
  unfold confirms_cancel in Hc.
  apply andb_prop in Hc. destruct Hc as [Hc H4].
  apply andb_prop in Hc. destruct Hc as [Hc H3].
  apply andb_prop in Hc. destruct Hc as [H1 H2].
  apply ChannelEvent.event_eqb_eq in H2.
  assert (HL : getListener Channel.TRADING (Some []) st = Some cancelOrder_listener)
    by (unfold getListener; rewrite Hl; reflexivity).
  assert (HN : getListener Channel.TRADING None st = Some cancelOrder_listener)
    by (unfold getListener; rewrite Hl; reflexivity).
  unfold step.
  assert (E : exec (handle (Message ws json)) st = torn_down ws s json st).
  { unfold exec, handle, onmessage, bind, get. rewrite Hs, Ho, Hm.
    unfold try_catch, emit, deliver, run, bind, run_socketHandler, json_of.
    cbn [Listener.channel Listener.params Listener.resolver cancelOrder_listener].
    rewrite H1. unfold bind, get. unfold getListener at 1. rewrite Hl.
    change (find (is_listener Channel.TRADING []) [cancelOrder_listener])
      with (Some cancelOrder_listener).
    cbn [option_map Listener.clientListener cancelOrder_listener]. rewrite H2.
    cbn [call]. rewrite H2, H3, H4.
    change (ChannelEvent.eqb ChannelEvent.UPDATED ChannelEvent.SUBSCRIBED) with false.
    cbn [andb]. unfold async, when, try_catch, bind, ret.
    rewrite (@unsubscribe_found Channel.TRADING None ws s cancelOrder_listener st Hws Hs Ho HN).
    unfold await, promise. unfold unsubscribed at 1. cbn [promises]. rewrite nth_snoc.
    unfold resolve.
    match goal with
    | |- context [settle p' ?o ?st1] =>
        rewrite (@settle_settled p' o vp st1)
          by (unfold unsubscribed; cbn [promises set_reactions]; rewrite nth_error_app1;
              [exact Hp' | apply nth_error_Some; congruence])
    end.
    cbn [snd]. unfold torn_down, unsubscribed.
    cbn [set_reactions sockets _ws listeners isAuthed promises reactions jobs arrays this
         calls uncaught].
    rewrite Hm, Hl, HJ. cbn [filter registered]. rewrite same_function_refl.
    cbn [negb app].
    change (filter (kept Channel.TRADING None) [cancelOrder_listener]) with (@nil Listener.t).
    reflexivity. }
  rewrite E. now apply drain_idle.
Qed.

Lemma cancelOrder_resolves (fuel ws : nat) (s : WebSocket.t) (st : State)
    (json ack : Response.t) :
  waiting_for_cancel ws s st ->
  Response.event ack = ChannelEvent.UNSUBSCRIBED ->
  promise p (step (S fuel) (torn_down ws s json st) (Message ws ack))
    = Some (Fulfilled (VResponse json)).
Proof.
  intros [Hws Hs Ho Hm Hl HJ HA Hp [vr Hr] [vp Hp']] Hack.
  set (k := then_resolve p (VResponse json)).
  assert (E : exists st2,
             exec (handle (Message ws ack)) (torn_down ws s json st) = st2 /\
             jobs st2 = [(k, Fulfilled undefined)] /\
             nth_error (promises st2) p = Some None).
  { eexists. split; [reflexivity|].
    unfold torn_down. fold k.
    destruct st as [Ss W L A Ps R J Ar T C U]. destruct ack as [ch ev tx sy oi ci os ol].
    unfold socket in Hs. unfold allocated in HA.
    cbn [_ws sockets listeners jobs promises reactions Response.event]
      in Hws, Hs, Hl, HJ, Hp, HA, Hack.
    subst W L J ev.
    repeat progress (rewrite ?update_update; erewrite ?nth_error_update by exact Hs; evaluate).
    rewrite nth_error_snoc. evaluate. rewrite update_snoc, !filter_app.
    destruct (@none_waits (List.length Ps) R HA (List.length Ps)) as [F1 F2]; [lia|].
    rewrite F1. cbn [filter app map]. unfold waits_for at 1. cbn [fst].
    rewrite Nat.eqb_refl. cbn [map snd app].
    split; [reflexivity|].
    rewrite nth_error_app1; [exact Hp |].
    apply nth_error_Some. intros N. pose proof (eq_trans (eq_sym N) Hp) as X. discriminate X. }
  destruct E as (st2 & E & J2 & P2).
  unfold step. rewrite E. cbn [drain]. rewrite J2.
  unfold promise. apply nth_of_nth_error. apply settled_drain.
  cbn [resume k]. unfold resolve. apply settle_pending. exact P2.
Qed.


Lemma torn_down_pending (ws : nat) (s : WebSocket.t) (st : State) (json : Response.t) :
  waiting_for_cancel ws s st -> promise p (torn_down ws s json st) = None.
Proof.
  intros W. unfold promise, torn_down. cbn [promises].
  apply nth_of_nth_error. rewrite nth_error_app1; [apply (waiting_pending W)|].
  apply nth_error_Some. intros N.
  pose proof (eq_trans (eq_sym N) (waiting_pending W)) as X. discriminate X.
Qed.

End CancelOrder.

(** An update of the order with a status other than cancelled is not the one
    [cancelOrder] waits for, nor is an update of another order. *)
Lemma confirms_cancel_status (orderID : string) (json : Response.t) :
  Response.ordStatus json <> Some OrderStatus.CANCELLED ->
  confirms_cancel orderID json = false.
Proof.
  intros H. unfold confirms_cancel, is_cancelled.
  destruct (Response.ordStatus json) as [[]|]; rewrite ?andb_false_r; try reflexivity.
  now contradiction H.
Qed.

Lemma confirms_cancel_orderID (orderID : string) (json : Response.t) :
  Response.orderID json <> Some orderID ->
  confirms_cancel orderID json = false.
Proof.
  intros H. unfold confirms_cancel, strict_eq.
  destruct (Response.orderID json) as [x|]; rewrite ?andb_false_r; try reflexivity.
  destruct (String.eqb_spec orderID x) as [->|N]; rewrite ?andb_false_r; try reflexivity.
  now contradiction H.
Qed.

(** C8.  While [cancelOrder orderID] waits on its temporary subscription, a
    frame that is not an update of the trading channel for this order id with
    status cancelled changes nothing: the promise stays pending and the
    subscription in place.  Such an update tears the subscription down (the
    registry is emptied, the observer of [unsubscribe] replaces the function
    of the listener, the unsubscribe frame is written), the promise still
    pending; it is fulfilled with the update when the server acknowledges the
    unsubscription. *)
Theorem cancelOrder_waits_for_cancelled :
  forall (orderID : string) (p p' r fuel ws : nat) (s : WebSocket.t) (st : State)
         (json : Response.t),
    waiting_for_cancel orderID p p' r ws s st ->
    let st' := step fuel st (Message ws json) in
    if confirms_cancel orderID json then
      st' = torn_down orderID p p' r ws s json st /\
      promise p st' = None /\
      forall (fuel' : nat) (ack : Response.t),
        Response.event ack = ChannelEvent.UNSUBSCRIBED ->
        promise p (step (S fuel') st' (Message ws ack)) = Some (Fulfilled (VResponse json))
    else st' = st.
Proof.
  intros orderID p p' r fuel ws s st json W st'. subst st'.
  destruct (confirms_cancel orderID json) eqn:E.
  - rewrite (@cancelOrder_tears_down orderID p p' r fuel ws s st json W E).
    split; [reflexivity | split; [now apply torn_down_pending|]].
    intros fuel' ack Hack. now apply cancelOrder_resolves.
  - now apply (@cancelOrder_keeps_waiting orderID p p' r fuel ws s st json W E).
Qed.

(** [cancelOrder "77"] (promise 0) on a fresh client: the subscription is
    acknowledged, the snapshot has arrived and the cancel command is sent. *)
Definition cancelling : State :=
  steps 10 (initial (Some "secret"))
    [Call (Bcx_cancelOrder "77"); Open 0;
     Message 0 (ack Channel.AUTH ChannelEvent.SUBSCRIBED);
     Message 0 (ack Channel.TRADING ChannelEvent.SUBSCRIBED);
     Message 0 (open_orders [O1])].

Definition cancelling_socket : WebSocket.t :=
  Eval vm_compute in
    match socket 0 cancelling with
    | Some s => s
    | None => WebSocket.mk WebSocket.CLOSED [] [] 0
    end.

Lemma cancelling_waits : waiting_for_cancel "77" 0 1 2 0 cancelling_socket cancelling.
Proof.
  constructor; try (vm_compute; reflexivity).
  - intros x H. vm_compute in H. destruct H.
  - eexists. vm_compute. reflexivity.
  - eexists. vm_compute. reflexivity.
Qed.

Lemma cancelOrder_waits_for_cancelled_witness :
  waiting_for_cancel "77" 0 1 2 0 cancelling_socket cancelling /\
  step 10 cancelling (Message 0 (order_update "77" "c" OrderStatus.EXPIRED)) = cancelling /\
  promise 0 (step 10 (step 10 cancelling (Message 0 (order_update "77" "c" OrderStatus.CANCELLED)))
               (Message 0 (ack Channel.TRADING ChannelEvent.UNSUBSCRIBED)))
    = Some (Fulfilled (VResponse (order_update "77" "c" OrderStatus.CANCELLED))).
Proof.
  split; [exact cancelling_waits | split].
  - exact (@cancelOrder_waits_for_cancelled "77" 0 1 2 10 0 cancelling_socket cancelling
             (order_update "77" "c" OrderStatus.EXPIRED) cancelling_waits).
  - exact (proj2 (proj2
             (@cancelOrder_waits_for_cancelled "77" 0 1 2 10 0 cancelling_socket cancelling
                (order_update "77" "c" OrderStatus.CANCELLED) cancelling_waits))
             9 (ack Channel.TRADING ChannelEvent.UNSUBSCRIBED) eq_refl).
Defined.


(** * Further properties of the code

    What the functions of the two modules do beyond the properties above:
    their errors, what they leave in the registry and on the websocket, and
    the course of each method of the client from its call to its result. *)

(** ** socket.ts *)

(** *** [unsubscribe] without a subscription *)

Definition not_subscribed (channel : Channel.t) : Err :=
  Error ("You are not subscribed to the channel " +++ Channel.name channel).

Lemma settle_normal (p : nat) (o : Outcome) (st : State) :
  settle p o st = (Normal tt, exec (settle p o) st).
Proof.
  unfold exec, settle. destruct (nth_error (promises st) p) as [[x|]|]; reflexivity.
Qed.

Lemma exec_eq {A} (m : M A) (st st' : State) (r : Completion A) :
  m st = (r, st') -> exec m st = st'.
Proof. intros H. unfold exec. now rewrite H. Qed.

(** A promise created and rejected at once. *)
Lemma rejected_at_once (e : Err) (st : State) :
  let p := List.length (promises st) in
  let st' := exec (reject p e) (exec new_Promise st) in
  promise p st' = Some (Rejected e) /\
  listeners st' = listeners st /\ sockets st' = sockets st /\ _ws st' = _ws st /\
  isAuthed st' = isAuthed st /\ calls st' = calls st /\ this st' = this st.
Proof.
  unfold exec, reject, settle, new_Promise, promise.
  cbn [snd promises set_promises]. rewrite nth_error_snoc.
  cbn [snd promises set_promises set_reactions set_jobs listeners sockets _ws isAuthed calls this].
  rewrite update_snoc, nth_snoc. repeat split.
Qed.

(** X1.  [unsubscribe] when the module has no connection, or when the registry
    has no listener for the key: the promise it returns is rejected with "You
    are not subscribed to the channel" and the name of the channel; nothing
    is written, and the registry, the websockets, [_ws] and [isAuthed] are as
    they were. *)
Theorem unsubscribe_without_subscription_rejects :
  forall (st : State) (channel : Channel.t) (params : option Params),
    _ws st = None \/ getListener channel params st = None ->
    let p := List.length (promises st) in
    let st' := exec (unsubscribe channel params) st in
    fst (unsubscribe channel params st) = Normal p /\
    promise p st' = Some (Rejected (not_subscribed channel)) /\
    listeners st' = listeners st /\ sockets st' = sockets st /\
    _ws st' = _ws st /\ isAuthed st' = isAuthed st /\ calls st' = calls st.
Proof.
  intros st channel params H p st'.
  assert (E : unsubscribe channel params st
              = (Normal p, exec (reject p (not_subscribed channel)) (exec new_Promise st))).
  { unfold unsubscribe, bind, try_catch, get, throw, ret, new_Promise.
    change (getListener channel params (set_promises (promises st ++ [None]) st))
      with (getListener channel params st).
    cbn [_ws set_promises].
    unfold reject.
    destruct H as [H | H]; rewrite H.
    - rewrite settle_normal. reflexivity.
    - destruct (_ws st); rewrite settle_normal; reflexivity. }
  subst st'. rewrite (exec_eq _ _ E), E. subst p.
  destruct (rejected_at_once (not_subscribed channel) st) as (H1 & H2 & H3 & H4 & H5 & H6 & _).
  split; [reflexivity | repeat split; assumption].
Qed.

Lemma unsubscribe_without_subscription_rejects_witness :
  promise 0 (exec (unsubscribe Channel.TICKER (Some (symbol_params "BTC-USD"))) (initial None))
    = Some (Rejected (Error "You are not subscribed to the channel ticker")).
Proof.
  exact (proj1 (proj2 (@unsubscribe_without_subscription_rejects (initial None) Channel.TICKER
                  (Some (symbol_params "BTC-USD")) (or_introl eq_refl)))).
Defined.

(** *** [subscribe] without a listener *)

Definition no_listener : Err :=
  Error "You must pass a valid listener to the subscription event".

Lemma nth_error_inner {A} (l r : list A) (x : A) :
  nth_error ((l ++ [x]) ++ r) (List.length l) = Some x.
Proof. induction l as [|a l IH]; simpl; [reflexivity | exact IH]. Qed.

Lemma update_inner {A} (l r : list A) (x y : A) :
  update (List.length l) y ((l ++ [x]) ++ r) = (l ++ [y]) ++ r.
Proof. induction l as [|a l IH]; simpl; [reflexivity | now rewrite IH]. Qed.

Lemma nth_inner {A} (l r : list A) (x d : A) :
  nth (List.length l) ((l ++ [x]) ++ r) d = x.
Proof. induction l as [|a l IH]; simpl; [reflexivity | exact IH]. Qed.

(** X2.  [subscribe] with no listener.  The test of the listener comes after
    the connection is made: with a connection the promise is rejected at
    once with "You must pass a valid listener to the subscription event" and
    nothing else happens; without one a websocket is created first, the
    promise stays pending while it connects, and is rejected with that error
    once it is open, the websocket having become the connection of the
    module.  The registry is not touched. *)
Theorem subscribe_without_listener :
  forall (fuel : nat) (st : State) (channel : Channel.t) (params : Params)
         (authToken : option string),
    jobs st = [] ->
    allocated st ->
    let p := List.length (promises st) in
    let ws := List.length (sockets st) in
    let st1 := step fuel st (Call (socket_subscribe channel None params authToken)) in
    let st2 := step (S fuel) st1 (Open ws) in
    listeners st1 = listeners st /\
    match _ws st with
    | Some _ =>
        promise p st1 = Some (Rejected no_listener) /\ sockets st1 = sockets st
    | None =>
        (promise p st1 = None /\
         sockets st1 = sockets st ++ [WebSocket.mk WebSocket.CONNECTING [] [] (S p)]) /\
        (promise p st2 = Some (Rejected no_listener) /\
         _ws st2 = Some ws /\
         sockets st2 = sockets st ++ [WebSocket.mk WebSocket.OPEN [] [] (S p)] /\
         listeners st2 = listeners st)
    end.
Proof.
  intros fuel st channel params authToken HJ HA p ws st1 st2.
  destruct st as [S W L A Ps R J Ar T C U]. simpl in HJ. subst J.
  unfold allocated in HA. simpl in HA, ws, p.
  destruct (@none_waits (List.length Ps) R HA (List.length Ps)) as [F1 F2]; [lia|].
  destruct W as [w|].
  - assert (E1 : st1 = mkState S (Some w) L A (Ps ++ [Some (Rejected no_listener)]) R [] Ar T C U).
    { subst st1. unfold step. evaluate. rewrite nth_error_snoc. evaluate.
      rewrite update_snoc, F1, F2. cbn [map app]. rewrite drain_idle; reflexivity. }
    rewrite E1. cbn [listeners promise promises sockets _ws]. subst p.
    unfold promise. cbn [promises]. rewrite nth_snoc. repeat split.
  - assert (E1 : st1 = mkState (S ++ [WebSocket.mk WebSocket.CONNECTING [] [] (Datatypes.S p)])
                         None L A ((Ps ++ [None]) ++ [None])
                         (R ++ [(Datatypes.S p, subscribe_1 channel None params authToken p)])
                         [] Ar T C U).
    { subst st1. unfold step. evaluate. rewrite nth_snoc. evaluate. rewrite length_snoc.
      rewrite drain_idle; reflexivity. }
    assert (E2 : st2 = mkState (S ++ [WebSocket.mk WebSocket.OPEN [] [] (Datatypes.S p)])
                         (Some ws) L A
                         ((Ps ++ [Some (Rejected no_listener)]) ++ [Some (Fulfilled (VSocket ws))])
                         R [] Ar T C U).
    { subst st2. rewrite E1. subst ws p. evaluate.
      rewrite nth_error_snoc. evaluate. rewrite nth_error_snoc, update_snoc.
      rewrite <- (length_snoc Ps None), nth_error_snoc, update_snoc.
      rewrite !filter_app.
      match goal with
      | |- context [filter (waits_for ?m) R] =>
          destruct (@none_waits (List.length Ps) R HA m) as [G1 G2];
            [rewrite length_snoc; lia|]
      end.
      rewrite G1, G2. cbn [filter]. unfold waits_for at 1 2. cbn [fst negb].
      rewrite Nat.eqb_refl. cbn [negb app map snd]. cbn [drain jobs]. evaluate.
      rewrite nth_error_inner. evaluate. rewrite update_inner, !app_nil_r, F1, F2.
      cbn [map app]. rewrite drain_idle; reflexivity. }
    rewrite E1, E2. subst p. unfold promise. cbn [listeners promises sockets _ws].
    rewrite !nth_inner. repeat split.
Qed.

Lemma subscribe_without_listener_witness :
  promise 0 (step 10 (initial None) (Call (socket_subscribe Channel.TICKER None [] None))) = None /\
  promise 0 (step 11 (step 10 (initial None) (Call (socket_subscribe Channel.TICKER None [] None)))
               (Open 0)) = Some (Rejected no_listener).
Proof.
  assert (HA : allocated (initial None)) by (intros r []).
  destruct (@subscribe_without_listener 10 (initial None) Channel.TICKER [] None eq_refl HA)
    as (_ & (H1 & _) & (H2 & _)).
  split; [exact H1 | exact H2].
Defined.

(** *** The registry: [subscribe] inserts, [getListener] looks up, [unsubscribe] removes *)

Lemma find_snoc {A} (f : A -> bool) (l : list A) (x : A) :
  find f l = None -> f x = true -> find f (l ++ [x]) = Some x.
Proof.
  intros H Hx. induction l as [|a l IH]; simpl in *; [now rewrite Hx|].
  destruct (f a); [discriminate | now apply IH].
Qed.

Lemma is_listener_key (l : Listener.t) :
  is_listener (Listener.channel l) (Listener.params l) l = true.
Proof. unfold is_listener. now rewrite Channel.eqb_refl, String.eqb_refl. Qed.

(** What [subscribe] does on an open connection for a key that is free, no
    token being given: the state it leaves. *)
Definition subscribed (channel : Channel.t) (cb : ClientListener) (params : Params)
    (ws : nat) (s : WebSocket.t) (st : State) : State :=
  let p := List.length (promises st) in
  let l := Listener.mk channel params cb p in
  mkState
    (update ws
       (WebSocket.mk WebSocket.OPEN
          (WebSocket.message s ++ [on (socketHandler l)])
          (WebSocket.sent s ++ [mkRequest Action.SUBSCRIBE channel params])
          (WebSocket.opening s))
       (sockets st))
    (_ws st) (listeners st ++ [l]) (isAuthed st)
    (promises st ++ [None]) (reactions st) (jobs st) (arrays st) (this st) (calls st)
    (uncaught st).

Lemma subscribe_free (channel : Channel.t) (cb : ClientListener) (params : Params)
    (authToken : option string) (ws : nat) (s : WebSocket.t) (st : State) :
  _ws st = Some ws ->
  socket ws st = Some s ->
  WebSocket.readyState s = WebSocket.OPEN ->
  getListener channel (Some params) st = None ->
  truthy authToken = None ->
  subscribe channel (Some cb) params authToken st
    = (Normal (List.length (promises st)), subscribed channel cb params ws s st).
Proof.
  intros Hws Hs Ho Hl Ht. unfold subscribed.
  destruct st as [Ss W L A Ps R J Ar T C U]. destruct s as [rs ms sn op].
  unfold getListener in Hl. unfold socket in Hs.
  cbn [_ws socket sockets WebSocket.readyState listeners] in Hws, Hs, Ho, Hl.
  subst W rs.
  assert (Ht' : authToken = None \/ authToken = Some "").
  { destruct authToken as [[|c t]|]; [now right | discriminate Ht | now left]. }
  clear Ht.
  unfold subscribe.
  destruct Ht' as [-> | ->]; evaluate; rewrite Hl; evaluate; rewrite Hs; evaluate.
  all: repeat progress (rewrite ?update_update; erewrite ?nth_error_update by exact Hs; evaluate).
  all: reflexivity.
Qed.


Lemma find_app_some {A} (f : A -> bool) (l r : list A) (x : A) :
  find f l = Some x -> find f (l ++ r) = Some x.
Proof.
  induction l as [|a l IH]; simpl; [discriminate|].
  destruct (f a); [trivial | exact IH].
Qed.

(** X3.  Insert and look up.  On an open connection, [subscribe] for a key that
    has no listener (no token given) returns a pending promise, appends the
    listener to the registry, attaches its function with [on] and writes the
    subscribe request with the parameters spread into it.  [getListener] then
    finds the new listener under its key, and whatever it found before under
    any key it still finds. *)
Theorem subscribe_registers_listener :
  forall (st : State) (channel : Channel.t) (cb : ClientListener) (params : Params)
         (authToken : option string) (ws : nat) (s : WebSocket.t),
    _ws st = Some ws ->
    socket ws st = Some s ->
    WebSocket.readyState s = WebSocket.OPEN ->
    getListener channel (Some params) st = None ->
    truthy authToken = None ->
    let p := List.length (promises st) in
    let l := Listener.mk channel params cb p in
    let st' := exec (subscribe channel (Some cb) params authToken) st in
    fst (subscribe channel (Some cb) params authToken st) = Normal p /\
    promise p st' = None /\
    listeners st' = listeners st ++ [l] /\
    getListener channel (Some params) st' = Some l /\
    (forall channel' params' l',
       getListener channel' params' st = Some l' ->
       getListener channel' params' st' = Some l') /\
    attached_to ws st' = WebSocket.message s ++ [on (socketHandler l)] /\
    sent_on ws st' = WebSocket.sent s ++ [mkRequest Action.SUBSCRIBE channel params].
Proof.
  intros st channel cb params authToken ws s Hws Hs Ho Hl Ht p l st'.
  pose proof (@subscribe_free channel cb params authToken ws s st Hws Hs Ho Hl Ht) as E.
  subst st'. rewrite (exec_eq _ _ E), E. unfold subscribed. fold p. fold l.
  unfold promise, getListener, attached_to, sent_on, socket in *.
  cbn [fst promises listeners sockets].
  erewrite nth_error_update by exact Hs. cbn [WebSocket.message WebSocket.sent].
  subst p. rewrite nth_snoc.
  repeat split.
  - apply find_snoc; [exact Hl | apply (is_listener_key l)].
  - intros channel' params' l'. apply find_app_some.
Qed.

Lemma subscribe_registers_listener_witness :
  getListener Channel.TICKER (Some (symbol_params "ETH-USD"))
    (exec (subscribe Channel.TICKER (Some (callback 2)) (symbol_params "ETH-USD") None)
       subscribed_once)
  = Some (Listener.mk Channel.TICKER (symbol_params "ETH-USD") (callback 2) 2).
Proof.
  assert (Hs : socket 0 subscribed_once
               = Some (WebSocket.mk WebSocket.OPEN [on (socketHandler BTC_listener)]
                         [mkRequest Action.SUBSCRIBE Channel.TICKER (symbol_params "BTC-USD")] 1))
    by (vm_compute; reflexivity).
  exact (proj1 (proj2 (proj2 (proj2
           (@subscribe_registers_listener subscribed_once Channel.TICKER (callback 2)
              (symbol_params "ETH-USD") None 0 _ eq_refl Hs eq_refl eq_refl eq_refl))))).
Defined.

(** The listeners the filter of [unsubscribe] keeps. *)
Lemma kept_spec (channel : Channel.t) (params : option Params) (l : Listener.t) :
  kept channel params l = true <->
  Listener.channel l <> channel /\
  match params with
  | Some ps => JSON_stringify (Listener.params l) <> JSON_stringify ps
  | None => True
  end.
Proof.
  unfold kept, strict_neq, JSON_stringify_opt, option_map.
  rewrite andb_true_iff, negb_true_iff, Channel.eqb_neq.
  destruct params as [ps|].
  - rewrite negb_true_iff, String.eqb_neq. reflexivity.
  - intuition.
Qed.

Lemma find_none_iff {A} (f : A -> bool) (l : list A) :
  find f l = None <-> forall x, In x l -> f x = false.
Proof.
  split.
  - apply find_none.
  - intros H. induction l as [|a l IH]; simpl; [reflexivity|].
    rewrite (H a (or_introl eq_refl)). apply IH. intros x Hx. apply H. now right.
Qed.

(** X4.  Delete and look up.  On an open connection, [unsubscribe] for a key that
    has a listener returns a pending promise, writes the unsubscribe request,
    takes the function of the listener off the websocket and attaches its
    observer.  The registry keeps exactly the listeners of the other channels
    whose parameters serialise differently from the ones given (all listeners
    of the other channels when none are given); no listener of the channel is
    left under any parameters, so [getListener] finds nothing under the key. *)
Theorem unsubscribe_removes_listener :
  forall (st : State) (channel : Channel.t) (params : option Params) (ws : nat)
         (s : WebSocket.t) (l : Listener.t),
    _ws st = Some ws ->
    socket ws st = Some s ->
    WebSocket.readyState s = WebSocket.OPEN ->
    getListener channel params st = Some l ->
    let p := List.length (promises st) in
    let st' := exec (unsubscribe channel params) st in
    fst (unsubscribe channel params st) = Normal p /\
    promise p st' = None /\
    (forall l', In l' (listeners st') <->
       In l' (listeners st) /\ Listener.channel l' <> channel /\
       match params with
       | Some ps => JSON_stringify (Listener.params l') <> JSON_stringify ps
       | None => True
       end) /\
    (forall params', getListener channel params' st' = None) /\
    sent_on ws st' = WebSocket.sent s ++
      [mkRequest Action.UNSUBSCRIBE channel (match params with Some ps => ps | None => [] end)] /\
    (forall r, In r (attached_to ws st') <->
       (In r (WebSocket.message s) /\ registered r <> socketHandler l) \/
       r = addEventListener (tmpSocketHandler l p)).
Proof.
  intros st channel params ws s l Hws Hs Ho Hl p st'.
  pose proof (@unsubscribe_found channel params ws s l st Hws Hs Ho Hl) as E.
  subst st'. rewrite (exec_eq _ _ E), E. unfold unsubscribed. fold p.
  unfold promise, getListener, attached_to, sent_on, socket in *.
  cbn [fst promises listeners sockets].
  erewrite nth_error_update by exact Hs. cbn [WebSocket.message WebSocket.sent].
  subst p. rewrite nth_snoc.
  split; [reflexivity | split; [reflexivity | split; [|split; [|split; [reflexivity|]]]]].
  - intros l'. rewrite filter_In, kept_spec. reflexivity.
  - intros params'. apply find_none_iff. intros x Hx.
    apply filter_In in Hx. destruct Hx as [_ Hx]. apply kept_spec in Hx.
    unfold is_listener. destruct Hx as [Hx _].
    apply Channel.eqb_neq in Hx. now rewrite Hx.
  - intros r. rewrite in_app_iff, filter_In, negb_true_iff. simpl.
    unfold same_function.
    destruct (Handler_dec (registered r) (socketHandler l)); intuition congruence.
Qed.

Lemma unsubscribe_removes_listener_witness :
  getListener Channel.TICKER (Some (symbol_params "BTC-USD"))
    (exec (unsubscribe Channel.TICKER (Some (symbol_params "BTC-USD"))) subscribed_once)
  = None.
Proof.
  assert (Hs : socket 0 subscribed_once
               = Some (WebSocket.mk WebSocket.OPEN [on (socketHandler BTC_listener)]
                         [mkRequest Action.SUBSCRIBE Channel.TICKER (symbol_params "BTC-USD")] 1))
    by (vm_compute; reflexivity).
  assert (Hl : getListener Channel.TICKER (Some (symbol_params "BTC-USD")) subscribed_once
               = Some BTC_listener) by (vm_compute; reflexivity).
  exact (proj1 (proj2 (proj2 (proj2
           (@unsubscribe_removes_listener subscribed_once Channel.TICKER
              (Some (symbol_params "BTC-USD")) 0 _ BTC_listener eq_refl Hs eq_refl Hl))))
           (Some (symbol_params "BTC-USD"))).
Defined.

(** *** The key of a listener *)

(** The text of a quoted string ends at its closing quote: what follows two
    quoted strings that agree can be told apart from them. *)
Lemma escape_closed (a b x y : string) :
  escape a +++ String dquote x = escape b +++ String dquote y -> a = b /\ x = y.
Proof.
  revert b. induction a as [|c a IH]; intros [|c' b] H; simpl in H.
  - now injection H.
  - exfalso.
    destruct (Ascii.eqb c' dquote || Ascii.eqb c' backslash) eqn:E; simpl in H;
      injection H as H _.
    + discriminate H.
    + subst c'. discriminate E.
  - exfalso.
    destruct (Ascii.eqb c dquote || Ascii.eqb c backslash) eqn:E; simpl in H;
      injection H as H _.
    + discriminate H.
    + subst c. discriminate E.
  - destruct (Ascii.eqb c dquote || Ascii.eqb c backslash) eqn:E;
      destruct (Ascii.eqb c' dquote || Ascii.eqb c' backslash) eqn:E'; simpl in H.
    + injection H as -> H. destruct (IH _ H) as [-> ->]. now split.
    + exfalso. injection H as H _. subst c'. discriminate E'.
    + exfalso. injection H as H _. subst c. discriminate E.
    + injection H as -> H. destruct (IH _ H) as [-> ->]. now split.
Qed.

Lemma string_append_assoc (a b c : string) : (a +++ b) +++ c = a +++ b +++ c.
Proof. induction a as [|x a IH]; simpl; [reflexivity | now rewrite IH]. Qed.

Lemma quote_closed (a b x y : string) :
  quote a +++ x = quote b +++ y -> a = b /\ x = y.
Proof.
  unfold quote. simpl. rewrite !string_append_assoc. simpl.
  intros H. injection H as H. now apply escape_closed.
Qed.

Lemma member_closed (k v k' v' x y : string) :
  (quote k +++ ":" +++ quote v) +++ x = (quote k' +++ ":" +++ quote v') +++ y ->
  k = k' /\ v = v' /\ x = y.
Proof.
  rewrite !string_append_assoc. intros H.
  apply quote_closed in H. destruct H as [-> H]. cbn [String.append] in H. injection H as H.
  rewrite !string_append_assoc in H. cbn [String.append] in H.
  apply escape_closed in H. destruct H as [-> ->]. auto.
Qed.

Lemma string_append_nil_r (a : string) : a +++ "" = a.
Proof. induction a as [|x a IH]; simpl; [reflexivity | now rewrite IH]. Qed.

(** The members that follow the first. *)
Definition more (p : Params) : string :=
  match p with
  | [] => ""
  | _ => "," +++ members p
  end.

Lemma members_cons (k v : string) (p : Params) :
  members ((k, v) :: p) = (quote k +++ ":" +++ quote v) +++ more p.
Proof.
  destruct p as [|m p]; cbn [members more].
  - now rewrite string_append_nil_r.
  - now rewrite !string_append_assoc.
Qed.

Lemma String_tail (c : ascii) (a b : string) : String c a = String c b -> a = b.
Proof. congruence. Qed.

Lemma members_closed (p q : Params) (x y : string) :
  members p +++ String "}" x = members q +++ String "}" y -> p = q /\ x = y.
Proof.
  revert q. induction p as [|[k v] p IH]; intros [|[k' v'] q] H.
  - simpl in H. now injection H.
  - exfalso. rewrite members_cons in H. unfold quote in H. simpl in H. discriminate H.
  - exfalso. rewrite members_cons in H. unfold quote in H. simpl in H. discriminate H.
  - rewrite !members_cons, !(string_append_assoc (quote _ +++ ":" +++ quote _)) in H.
    apply member_closed in H. destruct H as (-> & -> & H).
    destruct p as [|m p], q as [|m' q]; cbn [more String.append] in H.
    + now injection H as ->.
    + discriminate H.
    + discriminate H.
    + change (String "," (members (m :: p) +++ String "}" x)
              = String "," (members (m' :: q) +++ String "}" y)) in H.
      apply String_tail in H. destruct (IH _ H) as [-> ->]. now split.
Qed.

(** The serialisation tells parameter sets apart. *)
Lemma JSON_stringify_inj (p q : Params) : JSON_stringify p = JSON_stringify q -> p = q.
Proof.
  unfold JSON_stringify. cbn [String.append]. intros H. injection H as H.
  now apply members_closed in H.
Qed.

(** X5.  [getListener] returns a listener of the registry that has the channel
    and the parameters asked for (no parameters standing for the empty
    object), the first there is; and every listener of the registry has its
    key taken, by itself or by one before it. *)
Theorem getListener_finds_its_key :
  forall (st : State) (channel : Channel.t) (params : option Params) (l : Listener.t),
    (getListener channel params st = Some l ->
     In l (listeners st) /\ Listener.channel l = channel /\
     Listener.params l = (match params with Some ps => ps | None => [] end)) /\
    (In l (listeners st) ->
     exists l', getListener (Listener.channel l) (Some (Listener.params l)) st = Some l' /\
                Listener.channel l' = Listener.channel l /\
                Listener.params l' = Listener.params l).
Proof.
  intros st channel params l.
  assert (K : forall c ps x, is_listener c ps x = true ->
                Listener.channel x = c /\ Listener.params x = ps).
  { intros c ps x H. unfold is_listener in H. apply andb_prop in H. destruct H as [H1 H2].
    apply Channel.eqb_eq in H1. apply String.eqb_eq in H2.
    split; [exact H1 | now apply JSON_stringify_inj]. }
  split.
  - intros H. unfold getListener in H. apply find_some in H. destruct H as [H1 H2].
    apply K in H2. tauto.
  - intros H. unfold getListener.
    destruct (find (is_listener (Listener.channel l) (Listener.params l)) (listeners st))
      as [l'|] eqn:F.
    + exists l'. split; [reflexivity|]. apply find_some in F. now apply K.
    + exfalso. pose proof (find_none _ _ F l H) as N.
      now rewrite is_listener_key in N.
Qed.

(** *** A connection that does not open *)

(** How the attempt to connect ends, with the error [getSocket] rejects
    with: the websocket reports an error, in an event that can be serialised,
    or it closes. *)
Definition fails_with (ws : nat) (ev : Event) (e : Err) : Prop :=
  (exists event, ev = Failure ws event /\ ErrorEvent.circular event = false /\
                 e = Error (ErrorEvent.error event)) \/
  (ev = Close ws /\ e = Error "ws closed").

Definition not_serialisable : Err := TypeError "Converting circular structure to JSON".

(** X6.  [subscribe] on a module without a connection opens a websocket and waits
    for it.  When the websocket closes before it has opened, or reports an
    error in an event that can be serialised, the promise of [subscribe] is
    rejected with the error of [getSocket]; [_ws] stays undefined and the
    registry as it was, and nothing was written or attached: the next call
    starts from a new websocket.  When the event of the error cannot be
    serialised, [onerror] throws before it rejects: the promise stays
    pending, until the websocket closes. *)
Theorem subscribe_rejects_when_connection_fails :
  forall (fuel : nat) (st : State) (channel : Channel.t) (listener : option nat)
         (params : Params) (authToken : option string) (ev : Event) (e : Err),
    jobs st = [] ->
    allocated st ->
    _ws st = None ->
    fails_with (List.length (sockets st)) ev e ->
    let p := List.length (promises st) in
    let ws := List.length (sockets st) in
    let st1 := step fuel st (Call (socket_subscribe channel listener params authToken)) in
    let st2 := step (S fuel) st1 ev in
    promise p st1 = None /\
    (promise p st2 = Some (Rejected e) /\
     _ws st2 = None /\
     listeners st2 = listeners st /\
     isAuthed st2 = isAuthed st /\
     attached_to ws st2 = [] /\
     sent_on ws st2 = [] /\
     jobs st2 = []) /\
    (forall event : ErrorEvent.t,
       ErrorEvent.circular event = true ->
       let st3 := step (S fuel) st1 (Failure ws event) in
       promise p st3 = None /\
       uncaught st3 = uncaught st ++ [not_serialisable] /\
       promise p (step (S fuel) st3 (Close ws)) = Some (Rejected (Error "ws closed"))).
Proof.
  intros fuel st channel listener params authToken ev e HJ HA HW Hev p ws st1 st2.
  destruct st as [S W L A Ps R J Ar T C U]. simpl in HJ, HW. subst J W.
  unfold allocated in HA. simpl in HA, p, ws, Hev.
  set (k := subscribe_1 channel (option_map callback listener) params authToken p).
  set (connecting := fun U' =>
         mkState (S ++ [WebSocket.mk WebSocket.CONNECTING [] [] (Datatypes.S p)])
           None L A ((Ps ++ [None]) ++ [None]) (R ++ [(Datatypes.S p, k)]) [] Ar T C U').
  assert (E1 : st1 = connecting U).
  { subst st1 connecting. unfold step.
    evaluate. rewrite nth_snoc. evaluate. rewrite length_snoc.
    rewrite drain_idle; reflexivity. }
  destruct (@none_waits (List.length Ps) R HA (List.length Ps)) as [F1 F2]; [lia|].
  destruct (@none_waits (List.length Ps) R HA (Datatypes.S (List.length Ps))) as [G1 G2]; [lia|].
  assert (E2 : forall U' ev' e', fails_with ws ev' e' ->
            exists state,
              step (Datatypes.S fuel) (connecting U') ev'
              = mkState (S ++ [WebSocket.mk state [] [] (Datatypes.S p)])
                  None L A ((Ps ++ [Some (Rejected e')]) ++ [Some (Rejected e')])
                  R [] Ar T C U').
  { intros U' ev' e' Hev'. subst connecting k p ws. cbv beta.
    destruct Hev' as [([error circular] & -> & Hc & ->) | [-> ->]].
    - simpl in Hc. subst circular. exists WebSocket.CONNECTING.
      evaluate. rewrite nth_error_snoc. evaluate.
      rewrite <- (length_snoc Ps None), nth_error_snoc, update_snoc.
      rewrite !filter_app, (length_snoc Ps None), G1, G2. cbn [filter]. unfold waits_for at 1 2. cbn [fst negb].
      rewrite Nat.eqb_refl. cbn [negb app map snd]. cbn [drain jobs]. evaluate.
      rewrite nth_error_inner. evaluate. rewrite update_inner, !app_nil_r, F1, F2.
      cbn [map app]. rewrite drain_idle; reflexivity.
    - exists WebSocket.CLOSED.
      evaluate. rewrite nth_error_snoc. evaluate. rewrite nth_error_snoc, update_snoc.
      rewrite <- (length_snoc Ps None), nth_error_snoc, update_snoc.
      rewrite !filter_app, (length_snoc Ps None), G1, G2. cbn [filter]. unfold waits_for at 1 2. cbn [fst negb].
      rewrite Nat.eqb_refl. cbn [negb app map snd]. cbn [drain jobs]. evaluate.
      rewrite nth_error_inner. evaluate. rewrite update_inner, !app_nil_r, F1, F2.
      cbn [map app]. rewrite drain_idle; reflexivity. }
  assert (E3 : forall event, ErrorEvent.circular event = true ->
            step (Datatypes.S fuel) (connecting U) (Failure ws event)
            = connecting (U ++ [not_serialisable])).
  { intros [error circular] Hc. simpl in Hc. subst circular connecting k p ws. cbv beta.
    evaluate. rewrite nth_error_snoc. evaluate.
    rewrite drain_idle; reflexivity. }
  split; [rewrite E1; subst connecting p; unfold promise; cbn [promises];
          now rewrite nth_inner|].
  split.
  - subst st2. rewrite E1. destruct (E2 U ev e Hev) as (state & ->).
    subst p ws. unfold promise, attached_to, sent_on, socket.
    cbn [listeners promises sockets _ws isAuthed jobs].
    rewrite !nth_inner, nth_error_snoc. repeat split.
  - intros event Hc st3. subst st3. rewrite E1, (E3 event Hc).
    destruct (E2 (U ++ [not_serialisable]) (Close ws) (Error "ws closed")) as (state & ->);
      [right; split; reflexivity|].
    subst connecting p. unfold promise. cbn [promises uncaught].
    rewrite !nth_inner. repeat split.
Qed.

Lemma subscribe_rejects_when_connection_fails_witness :
  let st1 := step 10 (initial None)
               (Call (socket_subscribe Channel.TICKER (Some 1) (symbol_params "BTC-USD") None)) in
  promise 0 (step 11 st1 (Close 0)) = Some (Rejected (Error "ws closed")) /\
  _ws (step 11 st1 (Close 0)) = None /\
  promise 0 (step 11 st1 (Failure 0 (ErrorEvent.mk "ECONNREFUSED" true))) = None.
Proof.
  assert (HA : allocated (initial None)) by (intros r []).
  assert (Hf : fails_with (List.length (sockets (initial None))) (Close 0) (Error "ws closed"))
    by (right; split; reflexivity).
  destruct (@subscribe_rejects_when_connection_fails 10 (initial None) Channel.TICKER (Some 1)
              (symbol_params "BTC-USD") None (Close 0) (Error "ws closed") eq_refl HA eq_refl Hf)
    as (_ & (H1 & H2 & _) & H3).
  cbv zeta. split; [exact H1 | split; [exact H2 |]].
  exact (proj1 (H3 (ErrorEvent.mk "ECONNREFUSED" true) eq_refl)).
Defined.

(** *** The connection once it is closed *)

(** X7.  The websocket closes after it had opened: [onclose] rejects a promise
    that is settled already.  Nothing of the module changes: [_ws] still
    holds the closed websocket, the registry and [isAuthed] are as they were
    and no pending promise is settled. *)
Theorem close_leaves_module_as_it_is :
  forall (fuel : nat) (st : State) (ws : nat) (s : WebSocket.t) (o : Outcome),
    socket ws st = Some s ->
    nth_error (promises st) (WebSocket.opening s) = Some (Some o) ->
    jobs st = [] ->
    step fuel st (Close ws)
      = set_sockets (update ws (set_readyState WebSocket.CLOSED s) (sockets st)) st.
Proof.
  intros fuel st ws s o Hs Hp HJ.
  unfold step.
  assert (E : exec (handle (Close ws)) st
              = set_sockets (update ws (set_readyState WebSocket.CLOSED s) (sockets st)) st).
  { unfold exec, handle, onclose, bind, get. rewrite Hs.
    unfold on_socket, modify. rewrite Hs. unfold reject.
    erewrite settle_settled; [reflexivity | exact Hp]. }
  rewrite E. apply drain_idle. exact HJ.
Qed.

Lemma close_leaves_module_as_it_is_witness :
  _ws (step 10 subscribed_once (Close 0)) = Some 0 /\
  listeners (step 10 subscribed_once (Close 0)) = [BTC_listener].
Proof.
  assert (Hs : socket 0 subscribed_once
               = Some (WebSocket.mk WebSocket.OPEN [on (socketHandler BTC_listener)]
                         [mkRequest Action.SUBSCRIBE Channel.TICKER (symbol_params "BTC-USD")] 1))
    by (vm_compute; reflexivity).
  assert (Hp : nth_error (promises subscribed_once) 1 = Some (Some (Fulfilled (VSocket 0))))
    by (vm_compute; reflexivity).
  rewrite (@close_leaves_module_as_it_is 10 subscribed_once 0 _ _ Hs Hp eq_refl).
  split; reflexivity.
Defined.

(** A key that is taken. *)
Lemma subscribe_taken (st : State) (channel : Channel.t) (cb : ClientListener)
    (params : Params) (authToken : option string) (ws : nat) (l : Listener.t) :
  _ws st = Some ws ->
  getListener channel (Some params) st = Some l ->
  subscribe channel (Some cb) params authToken st
    = (Normal (List.length (promises st)),
       exec (reject (List.length (promises st)) (duplicate channel)) (exec new_Promise st)).
Proof.
  intros Hws Hl. unfold subscribe, bind, try_catch, new_Promise, get, ret, exec.
  cbn [fst snd set_promises _ws]. rewrite Hws.
  unfold subscribe_checks, bind, get.
  change (getListener channel (Some params) (set_promises (promises st ++ [None]) st))
    with (getListener channel (Some params) st).
  rewrite Hl. unfold duplicate, reject. rewrite settle_normal. reflexivity.
Qed.

(** X8.  A [subscribe] on the closed connection.  The listener is registered and
    its function attached before the request is written; the write fails and
    the promise is rejected with the error of the websocket, but the listener
    stays: [getListener] finds it, so that the same [subscribe] made again is
    refused as a duplicate. *)
Theorem subscribe_on_closed_connection :
  forall (st : State) (channel : Channel.t) (cb : ClientListener) (params : Params)
         (authToken : option string) (ws : nat) (s : WebSocket.t),
    _ws st = Some ws ->
    socket ws st = Some s ->
    WebSocket.readyState s = WebSocket.CLOSED ->
    getListener channel (Some params) st = None ->
    truthy authToken = None ->
    let p := List.length (promises st) in
    let l := Listener.mk channel params cb p in
    let st' := exec (subscribe channel (Some cb) params authToken) st in
    (exists e, promise p st' = Some (Rejected e)) /\
    getListener channel (Some params) st' = Some l /\
    attached_to ws st' = WebSocket.message s ++ [on (socketHandler l)] /\
    sent_on ws st' = WebSocket.sent s /\
    promise (S p) (exec (subscribe channel (Some cb) params authToken) st')
      = Some (Rejected (duplicate channel)).
Proof.
  intros st channel cb params authToken ws s Hws Hs Ho Hl Ht p l st'.
  assert (Ht' : authToken = None \/ authToken = Some "").
  { destruct authToken as [[|c t]|]; [now right | discriminate Ht | now left]. }
  clear Ht.
  assert (E : exists e R' J',
    st' = mkState
            (update ws (WebSocket.mk WebSocket.CLOSED (WebSocket.message s ++ [on (socketHandler l)])
                          (WebSocket.sent s) (WebSocket.opening s)) (sockets st))
            (_ws st) (listeners st ++ [l]) (isAuthed st)
            (promises st ++ [Some (Rejected e)]) R' J' (arrays st) (this st) (calls st)
            (uncaught st)).
  { subst st' l p.
    destruct st as [Ss W L A Ps R J Ar T C U]. destruct s as [rs ms sn op].
    unfold getListener in Hl. unfold socket in Hs.
    cbn [_ws socket sockets WebSocket.readyState listeners] in Hws, Hs, Ho, Hl.
    subst W rs.
    unfold subscribe.
    destruct Ht' as [-> | ->]; evaluate; rewrite Hl; evaluate; rewrite Hs; evaluate.
    all: repeat progress (rewrite ?update_update; erewrite ?nth_error_update by exact Hs; evaluate).
    all: rewrite nth_error_snoc; evaluate; rewrite update_snoc.
    all: do 3 eexists; reflexivity. }
  destruct E as (e & R' & J' & E).
  assert (G : getListener channel (Some params) st' = Some l).
  { rewrite E. unfold getListener in *. cbn [listeners].
    apply find_snoc; [exact Hl | apply (is_listener_key l)]. }
  split; [|split; [exact G | split; [|split]]].
  - exists e. rewrite E. unfold promise. cbn [promises]. subst p. apply nth_snoc.
  - rewrite E. unfold attached_to, socket. cbn [sockets].
    erewrite nth_error_update by exact Hs. reflexivity.
  - rewrite E. unfold sent_on, socket. cbn [sockets].
    erewrite nth_error_update by exact Hs. reflexivity.
  - assert (W' : _ws st' = Some ws) by (rewrite E; exact Hws).
    assert (N : List.length (promises st') = S p).
    { rewrite E. cbn [promises]. now rewrite length_snoc. }
    rewrite (exec_eq _ _ (@subscribe_taken st' channel cb params authToken ws l W' G)).
    rewrite <- N. apply rejected_at_once.
Qed.

Lemma subscribe_on_closed_connection_witness :
  let st := step 10 subscribed_once (Close 0) in
  let st' := exec (subscribe Channel.TICKER (Some (callback 2)) (symbol_params "ETH-USD") None) st in
  sent_on 0 st' = sent_on 0 subscribed_once /\
  promise 3 (exec (subscribe Channel.TICKER (Some (callback 2)) (symbol_params "ETH-USD") None) st')
    = Some (Rejected (duplicate Channel.TICKER)).
Proof.
  assert (Hs : socket 0 (step 10 subscribed_once (Close 0))
               = Some (WebSocket.mk WebSocket.CLOSED [on (socketHandler BTC_listener)]
                         [mkRequest Action.SUBSCRIBE Channel.TICKER (symbol_params "BTC-USD")] 1))
    by (vm_compute; reflexivity).
  destruct (@subscribe_on_closed_connection (step 10 subscribed_once (Close 0)) Channel.TICKER
              (callback 2) (symbol_params "ETH-USD") None 0 _ eq_refl Hs eq_refl eq_refl eq_refl)
    as (_ & _ & _ & H1 & H2).
  cbv zeta. split; [exact H1 | exact H2].
Defined.

(** *** [send] *)

(** X9.  On an open connection and without a token, [send] writes the request and
    returns a promise that is fulfilled; nothing else changes. *)
Theorem send_writes_request :
  forall (st : State) (request : Request) (authToken : option string) (ws : nat)
         (s : WebSocket.t),
    _ws st = Some ws ->
    socket ws st = Some s ->
    WebSocket.readyState s = WebSocket.OPEN ->
    truthy authToken = None ->
    allocated st ->
    send request authToken st
      = (Normal (List.length (promises st)),
         set_sockets (update ws (write request s) (sockets st))
           (set_promises (promises st ++ [Some (Fulfilled undefined)]) st)).
Proof.
  intros st request authToken ws s Hws Hs Ho Ht HA.
  assert (Ht' : authToken = None \/ authToken = Some "").
  { destruct authToken as [[|c t]|]; [now right | discriminate Ht | now left]. }
  clear Ht.
  destruct st as [Ss W L A Ps R J Ar T C U]. destruct s as [rs ms sn op].
  unfold socket in Hs. unfold allocated in HA.
  cbn [_ws socket sockets WebSocket.readyState reactions promises fst] in Hws, Hs, Ho, HA.
  subst W rs.
  destruct (@none_waits (List.length Ps) R HA (List.length Ps)) as [F1 F2]; [lia|].
  unfold send.
  destruct Ht' as [-> | ->]; evaluate; rewrite Hs; evaluate.
  all: repeat progress
         (rewrite ?Hs, ?update_update; erewrite ?nth_error_update by exact Hs; evaluate).
  all: rewrite nth_error_snoc; evaluate; rewrite update_snoc, F1, F2.
  all: cbn [map]; rewrite app_nil_r; reflexivity.
Qed.

Lemma send_writes_request_witness :
  sent_on 0 (exec (send (cancel_order_request "77") None) subscribed_once)
    = sent_on 0 subscribed_once ++ [cancel_order_request "77"].
Proof.
  assert (Hs : socket 0 subscribed_once
               = Some (WebSocket.mk WebSocket.OPEN [on (socketHandler BTC_listener)]
                         [mkRequest Action.SUBSCRIBE Channel.TICKER (symbol_params "BTC-USD")] 1))
    by (vm_compute; reflexivity).
  assert (HA : allocated subscribed_once) by (intros r H; vm_compute in H; destruct H).
  rewrite (exec_eq _ _ (@send_writes_request subscribed_once (cancel_order_request "77") None 0 _
                          eq_refl Hs eq_refl eq_refl HA)).
  reflexivity.
Defined.

(** X10.  [isAuthed] belongs to the module, not to a token: once it is set, [send]
    with a token, whichever it is, writes no authentication request and
    attaches no observer; the request is written in the next microtask and
    the promise fulfilled. *)
Theorem send_authenticates_once :
  forall (fuel : nat) (st : State) (request : Request) (token : string) (ws : nat)
         (s : WebSocket.t),
    _ws st = Some ws ->
    socket ws st = Some s ->
    WebSocket.readyState s = WebSocket.OPEN ->
    isAuthed st = true ->
    token <> "" ->
    jobs st = [] ->
    allocated st ->
    step (S fuel) st (Call (socket_send request (Some token)))
      = set_sockets (update ws (write request s) (sockets st))
          (set_promises
             (promises st ++ [Some (Fulfilled undefined); Some (Fulfilled undefined)]) st).
Proof.
  intros fuel st request token ws s Hws Hs Ho Hauth Ht HJ HA.
  destruct token as [|c token]; [congruence|]. clear Ht.
  destruct st as [Ss W L A Ps R J Ar T C U]. destruct s as [rs ms sn op].
  unfold socket in Hs. unfold allocated in HA.
  cbn [_ws socket sockets WebSocket.readyState reactions promises fst isAuthed jobs]
    in Hws, Hs, Ho, HA, Hauth, HJ.
  subst W rs A J.
  destruct (@none_waits (List.length Ps) R HA (List.length Ps)) as [F1 F2]; [lia|].
  evaluate. rewrite nth_error_snoc. evaluate. rewrite update_snoc.
  match goal with
  | |- context [filter (waits_for ?m) R] =>
      destruct (@none_waits (List.length Ps) R HA m) as [G1 G2];
        [rewrite length_snoc; lia|]
  end.
  rewrite G1, G2. cbn [map app]. rewrite nth_snoc. evaluate.
  cbn [drain jobs]. evaluate. rewrite Hs. evaluate.
  repeat progress
    (rewrite ?Hs, ?update_update; erewrite ?nth_error_update by exact Hs; evaluate).
  rewrite nth_error_inner. evaluate. rewrite update_inner, F1, F2. cbn [map app].
  rewrite drain_idle by reflexivity.
  rewrite <- app_assoc. reflexivity.
Qed.

Lemma send_authenticates_once_witness :
  sent_on 0 (step 10 balances_subscribed (Call (socket_send (cancel_order_request "77") (Some "other"))))
    = sent_on 0 balances_subscribed ++ [cancel_order_request "77"].
Proof.
  assert (Hs : socket 0 balances_subscribed
               = Some (WebSocket.mk WebSocket.OPEN
                         [on (socketHandler (Listener.mk Channel.BALANCES [] (callback 1) 0))]
                         [auth_request "token"; mkRequest Action.SUBSCRIBE Channel.BALANCES []] 1))
    by (vm_compute; reflexivity).
  assert (HA : allocated balances_subscribed) by (intros r H; vm_compute in H; destruct H).
  assert (Ht : "other" <> "") by discriminate.
  rewrite (@send_authenticates_once 9 balances_subscribed (cancel_order_request "77") "other" 0 _
             eq_refl Hs eq_refl eq_refl Ht eq_refl HA).
  reflexivity.
Defined.

(** **** Frames of other channels *)

(** A function attached by [subscribe] for another channel than [channel]. *)
Definition deaf_to (channel : Channel.t) (r : Registration) : Prop :=
  exists l, registered r = socketHandler l /\ Listener.channel l <> channel.

Lemma deliver_deaf (json : Response.t) (r : Registration) (st : State) :
  deaf_to (Response.channel json) r -> deliver json r st = (Normal tt, st).
Proof.
  intros (l & Hr & Hc). destruct r as [f|f]; simpl in Hr; subst f; simpl.
  - unfold run_socketHandler, json_of.
    apply not_eq_sym in Hc. apply Channel.eqb_neq in Hc. now rewrite Hc.
  - reflexivity.
Qed.

Lemma emit_deaf (json : Response.t) (rs : list Registration) (st : State) :
  Forall (deaf_to (Response.channel json)) rs -> emit json rs st = (Normal tt, st).
Proof.
  induction 1 as [|r rs Hr _ IH]; simpl; [reflexivity|].
  unfold bind. now rewrite (@deliver_deaf json r st Hr).
Qed.

Lemma emit_app (json : Response.t) (rs rs' : list Registration) (st st1 : State) :
  emit json rs st = (Normal tt, st1) -> emit json (rs ++ rs') st = emit json rs' st1.
Proof.
  revert st. induction rs as [|r rs IH]; intros st H; simpl in *.
  - unfold ret in H. now inversion H.
  - unfold bind in *. destruct (deliver json r st) as [[[]|e] st0]; [|discriminate H].
    now apply IH.
Qed.

Lemma filter_deaf (channel : Channel.t) (ws p : nat) (rs : list Registration) :
  Forall (deaf_to channel) rs ->
  filter (fun r => negb (same_function (registered r) (authHandler ws p))) rs = rs.
Proof.
  induction 1 as [|r rs (l & Hr & _) _ IH]; simpl; [reflexivity|].
  rewrite Hr, IH. unfold same_function.
  destruct (Handler_dec (socketHandler l) (authHandler ws p)); [discriminate | reflexivity].
Qed.

(** X11.  With a token and [isAuthed] false, [send] authenticates first: it
    attaches the observer and writes the authentication request, and nothing
    more.  When the server acknowledges on the auth channel, [isAuthed] is
    set, the observer is taken off, and the request is written after the
    authentication request; the promise is then fulfilled. *)
Theorem send_authenticates_first :
  forall (fuel : nat) (st : State) (request : Request) (token : string) (ws : nat)
         (s : WebSocket.t) (json : Response.t),
    _ws st = Some ws ->
    socket ws st = Some s ->
    WebSocket.readyState s = WebSocket.OPEN ->
    isAuthed st = false ->
    token <> "" ->
    jobs st = [] ->
    allocated st ->
    Forall (deaf_to Channel.AUTH) (WebSocket.message s) ->
    Response.channel json = Channel.AUTH ->
    Response.event json = ChannelEvent.SUBSCRIBED ->
    let p := List.length (promises st) in
    let st1 := step fuel st (Call (socket_send request (Some token))) in
    let st2 := step (S fuel) st1 (Message ws json) in
    (promise p st1 = None /\
     sent_on ws st1 = WebSocket.sent s ++ [auth_request token] /\
     attached_to ws st1 = WebSocket.message s ++ [addEventListener (authHandler ws (S p))]) /\
    (promise p st2 = Some (Fulfilled undefined) /\
     isAuthed st2 = true /\
     sent_on ws st2 = WebSocket.sent s ++ [auth_request token; request] /\
     attached_to ws st2 = WebSocket.message s).
Proof.
  intros fuel st request token ws s json Hws Hs Ho Hauth Ht HJ HA Hdeaf Hc He p st1 st2.
  destruct token as [|c token]; [congruence|]. clear Ht.
  destruct st as [Ss W L A Ps R J Ar T C U]. destruct s as [rs ms sn op].
  destruct json as [ch ev tx sy oi ci os ol].
  unfold socket in Hs. unfold allocated in HA.
  cbn [_ws socket sockets WebSocket.readyState reactions promises fst isAuthed jobs
       WebSocket.message Response.channel Response.event]
    in Hws, Hs, Ho, HA, Hauth, HJ, Hdeaf, Hc, He, p.
  subst W rs A J ch ev.
  set (a := Datatypes.S p).
  set (frame := Response.mk Channel.AUTH ChannelEvent.SUBSCRIBED tx sy oi ci os ol).
  assert (E1 : st1 = mkState
                 (update ws (WebSocket.mk WebSocket.OPEN
                               (ms ++ [addEventListener (authHandler ws a)])
                               (sn ++ [auth_request (String c token)]) op) Ss)
                 (Some ws) L false ((Ps ++ [None]) ++ [None])
                 (R ++ [(a, send_2 request p)]) [] Ar T C U).
  { subst st1 a p. unfold step. evaluate. rewrite Hs. evaluate.
    repeat progress
      (rewrite ?Hs, ?update_update; erewrite ?nth_error_update by exact Hs; evaluate).
    rewrite nth_snoc. evaluate. rewrite length_snoc.
    rewrite drain_idle; reflexivity. }
  split.
  { rewrite E1. unfold promise, sent_on, attached_to, socket. cbn [promises sockets].
    erewrite nth_error_update by exact Hs. subst p. rewrite nth_inner. repeat split. }
  assert (E2 : st2 = mkState
                 (update ws (WebSocket.mk WebSocket.OPEN ms
                               (sn ++ [auth_request (String c token); request]) op) Ss)
                 (Some ws) L true
                 ((Ps ++ [Some (Fulfilled undefined)]) ++ [Some (Fulfilled undefined)])
                 R [] Ar T C U).
  { subst st2. rewrite E1. unfold step.
    unfold exec. unfold handle, onmessage, bind at 1, get at 1, socket at 1.
    cbn [sockets]. erewrite nth_error_update by exact Hs.
    cbn [WebSocket.readyState WebSocket.message]. unfold try_catch.
    erewrite emit_app by (apply emit_deaf; exact Hdeaf).
    subst a p frame. evaluate. rewrite Channel.eqb_refl. cbn [negb]. evaluate.
    repeat progress
      (rewrite ?Hs, ?update_update; erewrite ?nth_error_update by exact Hs; evaluate).
    rewrite <- (length_snoc Ps None), nth_error_snoc, update_snoc.
    rewrite !filter_app, (filter_deaf _ _ Hdeaf).
    match goal with
    | |- context [filter (waits_for ?m) R] =>
        destruct (@none_waits (List.length Ps) R HA m) as [G1 G2];
          [rewrite length_snoc; lia|]
    end.
    rewrite G1, G2. cbn [filter registered]. rewrite same_function_refl.
    unfold waits_for at 1 2. cbn [fst negb].
    rewrite Nat.eqb_refl. cbn [negb app map snd]. cbn [drain jobs]. evaluate.
    repeat progress
      (rewrite ?Hs, ?update_update, ?app_nil_r; erewrite ?nth_error_update by exact Hs; evaluate).
    rewrite nth_error_inner. evaluate. rewrite update_inner.
    destruct (@none_waits (List.length Ps) R HA (List.length Ps)) as [F1 F2]; [lia|].
    rewrite F1, F2. cbn [map app]. rewrite drain_idle by reflexivity.
    rewrite <- app_assoc. reflexivity. }
  rewrite E2. unfold promise, sent_on, attached_to, socket. cbn [promises sockets isAuthed].
  erewrite nth_error_update by exact Hs. subst p. rewrite nth_inner. repeat split.
Qed.


Lemma send_authenticates_first_witness :
  let st1 := step 10 subscribed_once (Call (socket_send (cancel_order_request "77") (Some "secret"))) in
  let st2 := step 11 st1 (Message 0 (ack Channel.AUTH ChannelEvent.SUBSCRIBED)) in
  sent_on 0 st1 = sent_on 0 subscribed_once ++ [auth_request "secret"] /\
  sent_on 0 st2 = sent_on 0 subscribed_once ++ [auth_request "secret"; cancel_order_request "77"].
Proof.
  assert (Hs : socket 0 subscribed_once
               = Some (WebSocket.mk WebSocket.OPEN [on (socketHandler BTC_listener)]
                         [mkRequest Action.SUBSCRIBE Channel.TICKER (symbol_params "BTC-USD")] 1))
    by (vm_compute; reflexivity).
  assert (HA : allocated subscribed_once) by (intros r H; vm_compute in H; destruct H).
  assert (Ht : "secret" <> "") by discriminate.
  assert (Hd : Forall (deaf_to Channel.AUTH) [on (socketHandler BTC_listener)]).
  { constructor; [|constructor]. exists BTC_listener. split; [reflexivity | discriminate]. }
  destruct (@send_authenticates_first 10 subscribed_once (cancel_order_request "77") "secret" 0 _
              (ack Channel.AUTH ChannelEvent.SUBSCRIBED)
              eq_refl Hs eq_refl eq_refl Ht eq_refl HA Hd eq_refl eq_refl)
    as ((_ & H1 & _) & (_ & _ & H2 & _)).
  cbv zeta. split; [exact H1 | exact H2].
Defined.

(** *** The observers of [unsubscribe] *)

(** The function [unsubscribe] attaches to wait for the answer of the
    server: the listener it puts back on a refusal, and its promise. *)
Definition observer (o : Listener.t * nat) : Registration :=
  addEventListener (tmpSocketHandler (fst o) (snd o)).

Definition pending_or_done (p : nat) (st : State) : Prop :=
  nth_error (promises st) p = Some None \/
  nth_error (promises st) p = Some (Some (Fulfilled undefined)).

Lemma run_tmpSocketHandler_unsubscribed (l : Listener.t) (p ws : nat) (s : WebSocket.t)
    (json : Response.t) (st : State) :
  Response.event json = ChannelEvent.UNSUBSCRIBED ->
  _ws st = Some ws ->
  socket ws st = Some s ->
  run_tmpSocketHandler l p (MessageEvent json) st
    = (Normal tt,
       exec (resolve p undefined)
         (set_sockets (update ws (detach (tmpSocketHandler l p) s) (sockets st)) st)).
Proof.
  intros He Hws Hs.
  unfold run_tmpSocketHandler, JSON_parse_data, bind, ret. rewrite He.
  unfold get, ws_removeEventListener, bind, defined, on_socket, modify. rewrite Hws.
  unfold ret. rewrite Hs. unfold resolve. now rewrite settle_normal.
Qed.

Lemma emit_observers (json : Response.t) (obs : list (Listener.t * nat)) :
  Response.event json = ChannelEvent.UNSUBSCRIBED ->
  forall (st : State) (ws : nat) (s : WebSocket.t),
    _ws st = Some ws ->
    socket ws st = Some s ->
    (forall r, In r (WebSocket.message s) -> In r (map observer obs)) ->
    (forall o, In o obs -> pending_or_done (snd o) st) ->
    exists st' s',
      emit json (map observer obs) st = (Normal tt, st') /\
      socket ws st' = Some s' /\
      WebSocket.message s' = [] /\
      WebSocket.sent s' = WebSocket.sent s /\
      listeners st' = listeners st /\
      calls st' = calls st /\
      (forall o, In o obs ->
         nth_error (promises st') (snd o) = Some (Some (Fulfilled undefined))) /\
      (forall q v, nth_error (promises st) q = Some (Some v) ->
                   nth_error (promises st') q = Some (Some v)).
Proof.
  intros He. induction obs as [|[l p] obs IH]; intros st ws s Hws Hs Hm Hp.
  - exists st, s. simpl. repeat split; auto.
    + destruct (WebSocket.message s) as [|r rs]; [reflexivity|].
      destruct (Hm r (or_introl eq_refl)).
    + intros o [].
  - set (s1 := detach (tmpSocketHandler l p) s).
    set (st0 := set_sockets (update ws s1 (sockets st)) st).
    set (st1 := exec (resolve p undefined) st0).
    destruct (settle_frame p (Fulfilled undefined) st0) as (F1 & F2 & F3 & F4 & _).
    fold (resolve p undefined) in F1, F2, F3, F4. fold st1 in F1, F2, F3, F4.
    assert (Hs1 : socket ws st1 = Some s1).
    { unfold socket. rewrite F3. subst st0. cbn [sockets set_sockets].
      now apply nth_error_update with (y := s). }
    assert (Hm1 : forall r, In r (WebSocket.message s1) -> In r (map observer obs)).
    { intros r Hr. subst s1. unfold detach in Hr. cbn [WebSocket.message] in Hr.
      apply filter_In in Hr. destruct Hr as [Hr Hn].
      destruct (Hm r Hr) as [<- | H]; [|exact H].
      unfold observer in Hn. cbn [registered fst snd] in Hn.
      rewrite same_function_refl in Hn. discriminate Hn. }
    assert (Hq : forall q, nth_error (promises st1) q =
                   if Nat.eqb p q then
                     match nth_error (promises st) q with
                     | Some None => Some (Some (Fulfilled undefined))
                     | other => other
                     end
                   else nth_error (promises st) q).
    { intros q. subst st1. unfold resolve. rewrite settle_promise. reflexivity. }
    assert (Hp1 : forall o, In o obs -> pending_or_done (snd o) st1).
    { intros o Ho. unfold pending_or_done. rewrite (Hq (snd o)).
      destruct (Hp o (or_intror Ho)) as [H | H]; rewrite H;
        destruct (Nat.eqb p (snd o)); auto. }
    destruct (IH st1 ws s1 (eq_trans F4 Hws) Hs1 Hm1 Hp1)
      as (st' & s' & E & Hs' & Hm' & Hsent & Hl & Hc & Hdone & Hkeep).
    exists st', s'.
    assert (Hp0 : nth_error (promises st1) p = Some (Some (Fulfilled undefined))).
    { rewrite Hq, Nat.eqb_refl.
      destruct (Hp (l, p) (or_introl eq_refl)) as [H | H]; cbn [snd] in H; now rewrite H. }
    split; [|split; [exact Hs' | split; [exact Hm' | split; [|split; [|split; [|split]]]]]].
    + cbn [map emit observer deliver run fst snd]. unfold bind.
      rewrite (@run_tmpSocketHandler_unsubscribed l p ws s json st He Hws Hs).
      exact E.
    + rewrite Hsent. reflexivity.
    + rewrite Hl, F2. reflexivity.
    + rewrite Hc, F1. reflexivity.
    + intros o [<- | Ho]; [|now apply Hdone]. cbn [snd]. now apply Hkeep.
    + intros q v H. apply Hkeep. rewrite Hq, H. now destruct (Nat.eqb p q).
Qed.

(** X12.  [tmpSocketHandler] looks at the event of a frame and not at its channel.
    When the functions attached to the open connection are the observers of
    pending [unsubscribe] calls, any "unsubscribed" frame, whatever channel
    it names, fulfils the promise of every one of those calls and takes all
    the observers off; the registry is not touched and no callback called. *)
Theorem unsubscribed_frame_settles_every_unsubscribe :
  forall (fuel : nat) (st : State) (ws : nat) (s : WebSocket.t) (json : Response.t)
         (obs : list (Listener.t * nat)),
    _ws st = Some ws ->
    socket ws st = Some s ->
    WebSocket.readyState s = WebSocket.OPEN ->
    WebSocket.message s = map observer obs ->
    (forall o, In o obs -> nth_error (promises st) (snd o) = Some None) ->
    Response.event json = ChannelEvent.UNSUBSCRIBED ->
    (forall o, In o obs ->
       promise (snd o) (step fuel st (Message ws json)) = Some (Fulfilled undefined)) /\
    attached_to ws (exec (handle (Message ws json)) st) = [] /\
    listeners (exec (handle (Message ws json)) st) = listeners st /\
    calls (step fuel st (Message ws json)) = calls st.
Proof.
  intros fuel st ws s json obs Hws Hs Ho Hm Hp He.
  destruct (@emit_observers json obs He st ws s Hws Hs) as
    (st' & s' & E & Hs' & Hm' & _ & Hl & Hc & Hdone & _).
  { intros r Hr. now rewrite <- Hm. }
  { intros o H. left. now apply Hp. }
  assert (E' : exec (handle (Message ws json)) st = st').
  { unfold exec, handle, onmessage, bind, get. rewrite Hs, Ho, Hm.
    unfold try_catch. now rewrite E. }
  unfold step. rewrite E'. split; [|split; [|split]].
  - intros o H. unfold promise. apply nth_of_nth_error. apply settled_drain. now apply Hdone.
  - unfold attached_to. now rewrite Hs'.
  - exact Hl.
  - now rewrite drain_calls.
Qed.

(** Ticker BTC-USD and the order book of ETH-USD were subscribed, and both
    are being unsubscribed (promises 3 and 4). *)
Definition two_unsubscribing : State :=
  steps 10 subscribed_once
    [Call (socket_subscribe Channel.MARKET_L2 (Some 2) (symbol_params "ETH-USD") None);
     Message 0 (Response.mk Channel.MARKET_L2 ChannelEvent.SUBSCRIBED None (Some "ETH-USD")
                  None None None None);
     Call (socket_unsubscribe Channel.TICKER (Some (symbol_params "BTC-USD")));
     Call (socket_unsubscribe Channel.MARKET_L2 (Some (symbol_params "ETH-USD")))].

Lemma unsubscribed_frame_settles_every_unsubscribe_witness :
  promise 4 two_unsubscribing = None /\
  promise 4 (step 10 two_unsubscribing (Message 0 (ack Channel.TICKER ChannelEvent.UNSUBSCRIBED)))
    = Some (Fulfilled undefined).
Proof.
  set (l2_listener := Listener.mk Channel.MARKET_L2 (symbol_params "ETH-USD") (callback 2) 2).
  assert (Hs : socket 0 two_unsubscribing
               = Some (WebSocket.mk WebSocket.OPEN
                         (map observer [(BTC_listener, 3); (l2_listener, 4)])
                         [mkRequest Action.SUBSCRIBE Channel.TICKER (symbol_params "BTC-USD");
                          mkRequest Action.SUBSCRIBE Channel.MARKET_L2 (symbol_params "ETH-USD");
                          mkRequest Action.UNSUBSCRIBE Channel.TICKER (symbol_params "BTC-USD");
                          mkRequest Action.UNSUBSCRIBE Channel.MARKET_L2 (symbol_params "ETH-USD")]
                         1))
    by (vm_compute; reflexivity).
  assert (Hp : forall o, In o [(BTC_listener, 3); (l2_listener, 4)] ->
                 nth_error (promises two_unsubscribing) (snd o) = Some None).
  { intros o [<- | [<- | []]]; vm_compute; reflexivity. }
  split; [vm_compute; reflexivity|].
  exact (proj1 (@unsubscribed_frame_settles_every_unsubscribe 10 two_unsubscribing 0 _
                  (ack Channel.TICKER ChannelEvent.UNSUBSCRIBED)
                  [(BTC_listener, 3); (l2_listener, 4)]
                  eq_refl Hs eq_refl eq_refl Hp eq_refl)
           (l2_listener, 4) (or_intror (or_introl eq_refl))).
Defined.

(** *** Frames and the registry *)

(** X13.  The function [subscribe] attaches looks the callback up in the registry
    when a frame arrives: it serves the listener that holds its key then,
    which need not be the one it was created for, nor one of the connection
    the frame came in on (after [flush] the websocket is neither closed nor
    are its functions taken off). *)
Theorem socketHandler_serves_current_listener :
  forall (fuel : nat) (st : State) (ws : nat) (s : WebSocket.t) (l l' : Listener.t)
         (id : nat) (json : Response.t),
    socket ws st = Some s ->
    WebSocket.readyState s = WebSocket.OPEN ->
    WebSocket.message s = [on (socketHandler l)] ->
    getListener (Listener.channel l) (Some (Listener.params l)) st = Some l' ->
    Listener.clientListener l' = callback id ->
    Response.channel json = Listener.channel l ->
    data_event (Response.event json) = true ->
    calls (step fuel st (Message ws json)) = calls st ++ [(id, json)].
Proof.
  intros fuel st ws s l l' id json Hs Ho Hm Hl Hcb Hc He.
  unfold step. rewrite drain_calls.
  unfold exec, handle, onmessage, bind, get. rewrite Hs, Ho, Hm.
  unfold try_catch, emit, deliver, run, bind, run_socketHandler, json_of.
  rewrite Hc, Channel.eqb_refl. unfold bind, get. rewrite Hl. cbn [option_map]. rewrite Hcb.
  destruct (Response.event json); try discriminate He; reflexivity.
Qed.

(** After [flush] and a new [subscribe] to ticker BTC-USD (callback 2, on a
    second websocket), the first websocket is still open with the function of
    the first subscription attached. *)
Definition resubscribed : State :=
  steps 10 subscribed_once
    [Call socket_flush;
     Call (socket_subscribe Channel.TICKER (Some 2) (symbol_params "BTC-USD") None);
     Open 1;
     Message 1 (ticker ChannelEvent.SUBSCRIBED "BTC-USD")].

Lemma socketHandler_serves_current_listener_witness :
  _ws resubscribed = Some 1 /\
  calls (step 10 resubscribed (Message 0 (ticker ChannelEvent.UPDATED "BTC-USD")))
    = calls resubscribed ++ [(2, ticker ChannelEvent.UPDATED "BTC-USD")].
Proof.
  assert (Hs : socket 0 resubscribed
               = Some (WebSocket.mk WebSocket.OPEN [on (socketHandler BTC_listener)]
                         [mkRequest Action.SUBSCRIBE Channel.TICKER (symbol_params "BTC-USD")] 1))
    by (vm_compute; reflexivity).
  assert (Hl : getListener (Listener.channel BTC_listener) (Some (Listener.params BTC_listener))
                 resubscribed
               = Some (Listener.mk Channel.TICKER (symbol_params "BTC-USD") (callback 2) 2))
    by (vm_compute; reflexivity).
  split; [vm_compute; reflexivity|].
  exact (@socketHandler_serves_current_listener 10 resubscribed 0 _ BTC_listener _ 2
           (ticker ChannelEvent.UPDATED "BTC-USD") Hs eq_refl eq_refl Hl eq_refl eq_refl eq_refl).
Defined.

(** A function attached by [subscribe], whichever way it was attached. *)
Definition is_socketHandler (r : Registration) : Prop :=
  exists l, registered r = socketHandler l.

Lemma run_socketHandler_unregistered (l : Listener.t) (data : Data) (st : State) :
  listeners st = [] ->
  exists st',
    run_socketHandler l data st = (Normal tt, st') /\
    listeners st' = [] /\ calls st' = calls st /\ sockets st' = sockets st.
Proof.
  intros HL. unfold run_socketHandler.
  destruct (json_of data) as [json|]; [|now exists st].
  destruct (Channel.eqb (Response.channel json) (Listener.channel l)); [|now exists st].
  unfold bind, get, getListener. rewrite HL. cbn [find option_map].
  unfold resolve. rewrite settle_normal. eexists. split; [reflexivity|].
  destruct (settle_frame (Listener.resolver l) (Fulfilled undefined) st) as (F1 & F2 & F3 & _).
  rewrite F1, F2, F3. auto.
Qed.

Lemma emit_unregistered (json : Response.t) (rs : list Registration) :
  Forall is_socketHandler rs ->
  forall st, listeners st = [] ->
    exists st',
      emit json rs st = (Normal tt, st') /\
      listeners st' = [] /\ calls st' = calls st /\ sockets st' = sockets st.
Proof.
  induction 1 as [|r rs (l & Hr) _ IH]; intros st HL; simpl; [now exists st|].
  assert (E : exists st1, deliver json r st = (Normal tt, st1) /\
                listeners st1 = [] /\ calls st1 = calls st /\ sockets st1 = sockets st).
  { destruct r as [f|f]; simpl in Hr; subst f; simpl;
      now apply run_socketHandler_unregistered. }
  destruct E as (st1 & E & L1 & C1 & S1).
  destruct (IH st1 L1) as (st' & E' & L' & C' & S').
  exists st'. unfold bind. rewrite E. repeat split; congruence.
Qed.

(** X14.  With the registry empty, as [flush] leaves it, the functions former
    subscriptions left on a websocket call no callback, whatever arrives; they
    write nothing and register nothing. *)
Theorem empty_registry_silences_callbacks :
  forall (fuel : nat) (st : State) (ws : nat) (s : WebSocket.t) (json : Response.t),
    socket ws st = Some s ->
    listeners st = [] ->
    Forall is_socketHandler (WebSocket.message s) ->
    calls (step fuel st (Message ws json)) = calls st /\
    listeners (exec (handle (Message ws json)) st) = [] /\
    sockets (exec (handle (Message ws json)) st) = sockets st.
Proof.
  intros fuel st ws s json Hs HL Hm.
  unfold step. rewrite drain_calls.
  unfold exec, handle, onmessage, bind, get. rewrite Hs.
  destruct (emit_unregistered json Hm st HL) as (st' & E & L' & C' & S').
  destruct (WebSocket.readyState s); unfold try_catch, ret; rewrite ?E; cbn [snd]; auto.
Qed.

Lemma empty_registry_silences_callbacks_witness :
  let st := step 10 two_tickers (Call socket_flush) in
  calls (step 10 st (Message 0 (ticker ChannelEvent.UPDATED "ETH-USD"))) = calls st.
Proof.
  assert (Hs : socket 0 (step 10 two_tickers (Call socket_flush))
               = Some (WebSocket.mk WebSocket.OPEN
                         [on (socketHandler BTC_listener); on (socketHandler ETH_listener)]
                         [mkRequest Action.SUBSCRIBE Channel.TICKER (symbol_params "BTC-USD");
                          mkRequest Action.SUBSCRIBE Channel.TICKER (symbol_params "ETH-USD")] 1))
    by (vm_compute; reflexivity).
  assert (Hm : Forall is_socketHandler
                 [on (socketHandler BTC_listener); on (socketHandler ETH_listener)]).
  { repeat constructor; eexists; reflexivity. }
  exact (proj1 (@empty_registry_silences_callbacks 10 (step 10 two_tickers (Call socket_flush)) 0 _
                  (ticker ChannelEvent.UPDATED "ETH-USD") Hs eq_refl Hm)).
Defined.

(** *** When the callbacks of the caller are called *)

(** X15.  The callbacks are called while a frame is delivered and at no other
    time: not in the call of a method, not when a websocket opens, fails or
    closes, and not in the microtasks that follow. *)
Theorem callbacks_only_on_frames :
  forall (fuel : nat) (st : State) (ev : Event),
    (forall ws frame, ev <> Message ws frame) ->
    calls (step fuel st ev) = calls st.
Proof.
  intros fuel st ev Hev. unfold step. rewrite drain_calls.
  destruct ev as [op|ws|ws error|ws|ws frame].
  - unfold exec, handle, try_catch, bind.
    pose proof (@preserves_perform (fun st' => calls st' = calls st)) as H.
    unfold preserves, exec in H.
    assert (K : calls (snd (perform op st)) = calls st)
      by (apply H; try primitive; reflexivity).
    destruct (perform op st) as [[a|e] st']; exact K.
  - unfold exec, handle, onopen, bind, get.
    destruct (socket ws st) as [s|]; [|reflexivity].
    destruct (WebSocket.readyState s); try reflexivity.
    unfold on_socket, modify, resolve.
    destruct (socket ws st); cbn [snd]; rewrite settle_normal; cbn [snd];
      now rewrite (proj1 (settle_frame _ _ _)).
  - unfold exec, handle, try_catch, onerror, bind, get.
    destruct (socket ws st) as [s|]; [|reflexivity].
    unfold JSON_stringify_event, throw, ret, modify.
    destruct (ErrorEvent.circular error); [reflexivity|].
    unfold reject. rewrite settle_normal. cbn [snd]. now rewrite (proj1 (settle_frame _ _ _)).
  - unfold exec, handle, onclose, bind, get.
    destruct (socket ws st) as [s|]; [|reflexivity].
    unfold on_socket, modify, reject.
    destruct (socket ws st); cbn [snd]; rewrite settle_normal; cbn [snd];
      now rewrite (proj1 (settle_frame _ _ _)).
  - now contradiction (Hev ws frame).
Qed.

Lemma callbacks_only_on_frames_witness :
  calls (step 10 subscribed_once (Call (Bcx_getTicker "ETH-USD"))) = calls subscribed_once.
Proof.
  apply callbacks_only_on_frames. intros ws frame. discriminate.
Defined.

(** ** bcx.ts *)

(** *** The api secret *)

Definition requires_secret (method : string) : Err :=
  Error (method +++ " requires an api secret to be supplied as an argument during the Bcx class initialisation.").

(** The [async] methods that call [enforceAuthToken], with the name each
    passes to it. *)
Definition enforced_async (op : Operation) : option string :=
  match op with
  | Bcx_getBalances => Some "getBalances()"
  | Bcx_subscribeBalances _ => Some "subscribeBalances()"
  | Bcx_createOrder _ => Some "createOrder()"
  | Bcx_getOrderByClientOrderId _ => Some "getOrder()"
  | Bcx_getOrder _ => Some "getOrder()"
  | Bcx_getOpenOrders => Some "getOpenOrders()"
  | Bcx_cancelOrder _ => Some "cancelOrder()"
  | Bcx_cancelAllOrders => Some "cancelAllOrders()"
  | _ => None
  end.

(** The methods that call it and are not [async]. *)
Definition enforced_sync (op : Operation) : option string :=
  match op with
  | Bcx_unsubscribeBalances => Some "unsubscribeBalances()"
  | Bcx_subscribeTrading _ => Some "createOrder()"
  | Bcx_unsubcribeTrading => Some "unsubcribeTrading()"
  | _ => None
  end.

Lemma enforceAuthToken_throws (method : string) (st : State) :
  truthy (secret st) = None ->
  enforceAuthToken method st = (Throw (requires_secret method), st).
Proof.
  intros H. unfold enforceAuthToken, bind, get. now rewrite H.
Qed.

Lemma enforceAuthToken_passes (method : string) (st : State) :
  truthy (secret st) <> None ->
  enforceAuthToken method st = (Normal tt, st).
Proof.
  intros H. unfold enforceAuthToken, bind, get.
  destruct (truthy (secret st)); [reflexivity | congruence].
Qed.

Lemma async_method_throws (body : nat -> M unit) (e : Err) (st : State) :
  body (List.length (promises st)) (exec new_Promise st) = (Throw e, exec new_Promise st) ->
  async_method body st
    = (Normal (List.length (promises st)),
       exec (reject (List.length (promises st)) e) (exec new_Promise st)).
Proof.
  intros H. unfold async_method, bind, try_catch, ret.
  change (new_Promise st) with (Normal (List.length (promises st)), exec new_Promise st).
  cbn iota. rewrite H. unfold reject. rewrite settle_normal. reflexivity.
Qed.

Lemma enforced_async_rejects (st : State) (op : Operation) (method : string) :
  truthy (secret st) = None ->
  enforced_async op = Some method ->
  perform op st
    = (Normal (Some (List.length (promises st))),
       exec (reject (List.length (promises st)) (requires_secret method))
         (exec new_Promise st)).
Proof.
  intros Hs Hop.
  assert (Hs' : truthy (secret (exec new_Promise st)) = None) by exact Hs.
  destruct op; try discriminate Hop; simpl in Hop; injection Hop as <-;
    unfold perform, returned, getBalances, subscribeBalances, createOrder,
      getOrderByClientOrderId, getOrder, getOpenOrders, cancelOrder, cancelAllOrders;
    unfold bind at 1;
    (erewrite async_method_throws;
     [reflexivity | unfold bind at 1; rewrite (enforceAuthToken_throws _ _ Hs'); reflexivity]).
Qed.

(** X16.  Without an api secret (none given, or the empty string), an [async]
    method that needs one returns a promise rejected with the error of
    [enforceAuthToken]; no websocket is created or written to and the
    registry is not touched. *)
Theorem async_methods_reject_without_secret :
  forall (st : State) (op : Operation) (method : string),
    truthy (secret st) = None ->
    enforced_async op = Some method ->
    let p := List.length (promises st) in
    let st' := exec (perform op) st in
    fst (perform op st) = Normal (Some p) /\
    promise p st' = Some (Rejected (requires_secret method)) /\
    sockets st' = sockets st /\ listeners st' = listeners st /\ _ws st' = _ws st /\
    this st' = this st.
Proof.
  intros st op method Hs Hop p st'.
  pose proof (@enforced_async_rejects st op method Hs Hop) as E.
  subst st'. rewrite (exec_eq _ _ E), E. subst p.
  destruct (rejected_at_once (requires_secret method) st) as (H1 & H2 & H3 & H4 & _ & _ & H7).
  split; [reflexivity | repeat split; assumption].
Qed.

Lemma async_methods_reject_without_secret_witness :
  promise 0 (exec (perform Bcx_getBalances) (initial (Some "")))
    = Some (Rejected (requires_secret "getBalances()")).
Proof.
  exact (proj1 (proj2 (@async_methods_reject_without_secret (initial (Some "")) Bcx_getBalances
                         "getBalances()" eq_refl eq_refl))).
Defined.

(** X17.  The methods that are not [async] throw that error to their caller
    instead: no promise is returned, and the state is as it was. *)
Theorem sync_methods_throw_without_secret :
  forall (st : State) (op : Operation) (method : string),
    truthy (secret st) = None ->
    enforced_sync op = Some method ->
    perform op st = (Throw (requires_secret method), st).
Proof.
  intros st op method Hs Hop.
  destruct op; try discriminate Hop; simpl in Hop; injection Hop as <-;
    unfold perform, returned, unsubscribeBalances, subscribeTrading, unsubcribeTrading;
    unfold bind at 1; unfold bind at 1;
    rewrite (enforceAuthToken_throws _ _ Hs); reflexivity.
Qed.

Lemma sync_methods_throw_without_secret_witness :
  perform Bcx_unsubcribeTrading (initial None)
    = (Throw (requires_secret "unsubcribeTrading()"), initial None).
Proof.
  exact (@sync_methods_throw_without_secret (initial None) Bcx_unsubcribeTrading
           "unsubcribeTrading()" eq_refl eq_refl).
Defined.

(** **** [flush] of the client *)

(** X18.  [Bcx.flush] forgets the secret with everything else: after it, the
    methods that need a secret fail as on a client made without one, until
    [setAuthenticationToken] gives a new one. *)
Theorem flush_forgets_secret :
  forall (st : State) (op : Operation) (method token : string),
    enforced_async op = Some method ->
    token <> "" ->
    let st1 := exec (perform Bcx_flush_) st in
    let st2 := exec (perform (Bcx_setAuthenticationToken token)) st1 in
    secret st1 = None /\
    promise (List.length (promises st)) (exec (perform op) st1)
      = Some (Rejected (requires_secret method)) /\
    secret st2 = Some token /\
    enforceAuthToken method st2 = (Normal tt, st2).
Proof.
  intros st op method token Hop Ht st1 st2.
  assert (H1 : secret st1 = None) by reflexivity.
  assert (H2 : secret st2 = Some token) by reflexivity.
  split; [exact H1 | split; [|split; [exact H2|]]].
  - assert (Hs : truthy (secret st1) = None) by (rewrite H1; reflexivity).
    rewrite (exec_eq _ _ (@enforced_async_rejects st1 op method Hs Hop)).
    change (List.length (promises st)) with (List.length (promises st1)).
    apply rejected_at_once.
  - apply enforceAuthToken_passes. rewrite H2.
    destruct token; [congruence | discriminate].
Qed.

Lemma flush_forgets_secret_witness :
  let st1 := exec (perform Bcx_flush_) (initial (Some "secret")) in
  promise (List.length (promises (initial (Some "secret")))) (exec (perform Bcx_getBalances) st1)
    = Some (Rejected (requires_secret "getBalances()")).
Proof.
  assert (Ht : "new" <> "") by discriminate.
  exact (proj1 (proj2 (@flush_forgets_secret (initial (Some "secret")) Bcx_getBalances
                         "getBalances()" "new" eq_refl Ht))).
Defined.

(** *** The methods of the client, from call to result *)

Lemma is_listener_mk (channel : Channel.t) (params : Params) (cb : ClientListener) (p : nat) :
  is_listener channel params (Listener.mk channel params cb p) = true.
Proof. apply (is_listener_key (Listener.mk channel params cb p)). Qed.

Lemma kept_mk (channel : Channel.t) (params : option Params) (ps : Params)
    (cb : ClientListener) (p : nat) :
  kept channel params (Listener.mk channel ps cb p) = false.
Proof. now apply kept_same_channel. Qed.

Lemma same_function_neq (f g : Handler) : f <> g -> same_function f g = false.
Proof. intros H. unfold same_function. destruct (Handler_dec f g); congruence. Qed.

(** Evaluation of the code on a state that is known but for the strings in
    it: the tests on strings are left for rewriting, the microtasks are run
    one at a time. *)
Ltac run_code :=
  cbv beta iota zeta delta
    -[drain is_listener kept same_function String.eqb strict_eq String.append escape
      to_string mkRequest].

Ltac decide_tests :=
  rewrite ?is_listener_mk, ?kept_mk, ?String.eqb_refl, ?same_function_refl;
  repeat match goal with
         | |- context [same_function ?f ?g] =>
             rewrite (@same_function_neq f g) by discriminate
         end.

Lemma drain_cons (fuel : nat) S W L A Ps R k o rest Ar T C U :
  drain (Datatypes.S fuel) (mkState S W L A Ps R ((k, o) :: rest) Ar T C U)
    = drain fuel (exec (resume k o) (mkState S W L A Ps R rest Ar T C U)).
Proof. reflexivity. Qed.

Lemma drain_nil (fuel : nat) S W L A Ps R Ar T C U :
  drain fuel (mkState S W L A Ps R [] Ar T C U) = mkState S W L A Ps R [] Ar T C U.
Proof. now apply drain_idle. Qed.

Ltac run_microtask := first [rewrite drain_cons | rewrite drain_nil | idtac].

Ltac run_event :=
  unfold step;
  repeat progress (run_code; decide_tests; run_microtask).

(** The value of the state [st], a [step] from a state whose value the
    equation [prev] gives, is computed and named by the equation [E]. *)
Ltac advance st prev E :=
  let x := fresh "x" in
  evar (x : State);
  assert (E : st = x) by (subst st x; rewrite ?prev; run_event; reflexivity);
  subst x.

(** The queries of one snapshot that need no secret, and the channel each
    subscribes to. *)
Definition anonymous_query (op : Operation) : option (Channel.t * string) :=
  match op with
  | Bcx_getTicker symbol => Some (Channel.TICKER, symbol)
  | Bcx_getMarket symbol level => Some (level_as_Channel level, symbol)
  | _ => None
  end.

(** X19.  [getTicker] and [getMarket] on a new client, with or without a secret.
    The call opens a websocket; once it is open the subscribe request for
    the symbol is written.  The first snapshot frame of the channel, whatever
    symbol it carries, makes the callback unsubscribe: the registry is
    emptied and the unsubscribe request written, the promise still pending.
    It is fulfilled with that snapshot when an "unsubscribed" frame arrives,
    and nothing is left attached to the websocket. *)
Theorem query_resolves_with_first_snapshot :
  forall (op : Operation) (channel : Channel.t) (symbol : string)
         (apiSecret : option string) (json bye : Response.t),
    anonymous_query op = Some (channel, symbol) ->
    Response.channel json = channel ->
    Response.event json = ChannelEvent.SNAPSHOT ->
    Response.event bye = ChannelEvent.UNSUBSCRIBED ->
    let st1 := steps 10 (initial apiSecret) [Call op; Open 0] in
    let st2 := step 10 st1 (Message 0 (ack channel ChannelEvent.SUBSCRIBED)) in
    let st3 := step 10 st2 (Message 0 json) in
    let st4 := step 10 st3 (Message 0 bye) in
    fst (perform op (initial apiSecret)) = Normal (Some 0) /\
    sent_on 0 st1 = [mkRequest Action.SUBSCRIBE channel (symbol_params symbol)] /\
    promise 0 st2 = None /\
    (promise 0 st3 = None /\ listeners st3 = [] /\
     sent_on 0 st3 = [mkRequest Action.SUBSCRIBE channel (symbol_params symbol);
                      mkRequest Action.UNSUBSCRIBE channel (symbol_params symbol)]) /\
    (promise 0 st4 = Some (Fulfilled (VResponse json)) /\
     attached_to 0 st4 = [] /\ calls st4 = []).
Proof.
  intros op channel symbol apiSecret json bye Hop Hc He Hb st1 st2 st3 st4.
  destruct json as [ch ev tx sy oi ci os ol]. destruct bye as [ch' ev' tx' sy' oi' ci' os' ol'].
  simpl in Hc, He, Hb. subst ch ev ev'.
  assert (E0 : fst (perform op (initial apiSecret)) = Normal (Some 0)).
  { destruct op; try discriminate Hop; reflexivity. }
  split; [exact E0 | clear E0].
  destruct op; try discriminate Hop; simpl in Hop; injection Hop as <- <-;
    try destruct level.
  all: unfold steps in st1; cbn [fold_left] in st1.
  all: set (st0 := step 10 (initial apiSecret) _) in st1.
  all: advance st0 I E0; advance st1 E0 E1; advance st2 E1 E2; advance st3 E2 E3;
    advance st4 E3 E4.
  all: rewrite E1, E2, E3, E4.
  all: repeat split; reflexivity.
Qed.

Lemma query_resolves_with_first_snapshot_witness :
  let st1 := steps 10 (initial None) [Call (Bcx_getTicker "BTC-USD"); Open 0] in
  let st2 := step 10 st1 (Message 0 (ack Channel.TICKER ChannelEvent.SUBSCRIBED)) in
  let st3 := step 10 st2 (Message 0 (ticker ChannelEvent.SNAPSHOT "BTC-USD")) in
  let st4 := step 10 st3 (Message 0 (ack Channel.TICKER ChannelEvent.UNSUBSCRIBED)) in
  promise 0 st4 = Some (Fulfilled (VResponse (ticker ChannelEvent.SNAPSHOT "BTC-USD"))).
Proof.
  exact (proj1 (proj2 (proj2 (proj2 (proj2
           (@query_resolves_with_first_snapshot (Bcx_getTicker "BTC-USD") Channel.TICKER
              "BTC-USD" None (ticker ChannelEvent.SNAPSHOT "BTC-USD")
              (ack Channel.TICKER ChannelEvent.UNSUBSCRIBED)
              eq_refl eq_refl eq_refl eq_refl)))))).
Defined.

(** **** Balances *)

(** X20.  [getBalances] on a new client with a secret: authentication, then the
    subscription to the balances channel with no parameters; the first
    snapshot of the channel makes the callback unsubscribe, and the promise
    is fulfilled with that snapshot when an "unsubscribed" frame arrives.
    The connection stays open and authenticated, with an empty registry. *)
Theorem getBalances_resolves_with_snapshot :
  forall (token : string) (json bye : Response.t),
    token <> "" ->
    Response.channel json = Channel.BALANCES ->
    Response.event json = ChannelEvent.SNAPSHOT ->
    Response.event bye = ChannelEvent.UNSUBSCRIBED ->
    let st1 := steps 10 (initial (Some token)) [Call Bcx_getBalances; Open 0] in
    let st2 := step 10 st1 (Message 0 (ack Channel.AUTH ChannelEvent.SUBSCRIBED)) in
    let st3 := step 10 st2 (Message 0 (ack Channel.BALANCES ChannelEvent.SUBSCRIBED)) in
    let st4 := step 10 st3 (Message 0 json) in
    let st5 := step 10 st4 (Message 0 bye) in
    fst (perform Bcx_getBalances (initial (Some token))) = Normal (Some 0) /\
    promise 0 st3 = None /\
    (promise 0 st4 = None /\ listeners st4 = [] /\
     sent_on 0 st4 = [auth_request token; mkRequest Action.SUBSCRIBE Channel.BALANCES [];
                      mkRequest Action.UNSUBSCRIBE Channel.BALANCES []]) /\
    (promise 0 st5 = Some (Fulfilled (VResponse json)) /\
     attached_to 0 st5 = [] /\ isAuthed st5 = true /\ _ws st5 = Some 0).
Proof.
  intros token json bye Ht Hc He Hb st1 st2 st3 st4 st5.
  destruct token as [|c token]; [congruence | clear Ht].
  destruct json as [ch ev tx sy oi ci os ol]. destruct bye as [ch' ev' tx' sy' oi' ci' os' ol'].
  simpl in Hc, He, Hb. subst ch ev ev'.
  split; [reflexivity|].
  unfold steps in st1; cbn [fold_left] in st1.
  set (st0 := step 10 (initial _) _) in st1.
  advance st0 I E0; advance st1 E0 E1; advance st2 E1 E2; advance st3 E2 E3;
    advance st4 E3 E4; advance st5 E4 E5.
  rewrite E3, E4, E5. repeat split; reflexivity.
Qed.

Lemma getBalances_resolves_with_snapshot_witness :
  let snapshot := ack Channel.BALANCES ChannelEvent.SNAPSHOT in
  let st1 := steps 10 (initial (Some "secret")) [Call Bcx_getBalances; Open 0] in
  let st2 := step 10 st1 (Message 0 (ack Channel.AUTH ChannelEvent.SUBSCRIBED)) in
  let st3 := step 10 st2 (Message 0 (ack Channel.BALANCES ChannelEvent.SUBSCRIBED)) in
  let st4 := step 10 st3 (Message 0 snapshot) in
  let st5 := step 10 st4 (Message 0 (ack Channel.BALANCES ChannelEvent.UNSUBSCRIBED)) in
  promise 0 st5 = Some (Fulfilled (VResponse snapshot)).
Proof.
  assert (Ht : "secret" <> "") by discriminate.
  exact (proj1 (proj2 (proj2 (proj2
           (@getBalances_resolves_with_snapshot "secret"
              (ack Channel.BALANCES ChannelEvent.SNAPSHOT)
              (ack Channel.BALANCES ChannelEvent.UNSUBSCRIBED) Ht eq_refl eq_refl eq_refl))))).
Defined.

(** The methods that authenticate and hand the outcome of their
    subscription on to their caller. *)
Definition authenticated (op : Operation) : Prop :=
  match op with
  | Bcx_getBalances | Bcx_subscribeBalances _ | Bcx_subscribeTrading _
  | Bcx_getOpenOrders | Bcx_getOrder _ | Bcx_getOrderByClientOrderId _
  | Bcx_cancelOrder _ | Bcx_cancelAllOrders => True
  | _ => False
  end.

(** X21.  The server refuses the token.  Each of these methods, called on a new
    client, opens the connection and writes the authentication request and
    nothing else; on the "rejected" frame of the auth channel its promise is
    rejected with the text of the frame.  No listener was registered. *)
Theorem refused_token_rejects :
  forall (op : Operation) (token : string) (json : Response.t),
    authenticated op ->
    token <> "" ->
    Response.channel json = Channel.AUTH ->
    Response.event json = ChannelEvent.REJECTED ->
    let st1 := steps 10 (initial (Some token)) [Call op; Open 0] in
    let st2 := step 10 st1 (Message 0 json) in
    fst (perform op (initial (Some token))) = Normal (Some 0) /\
    (promise 0 st1 = None /\ sent_on 0 st1 = [auth_request token]) /\
    (promise 0 st2 = Some (Rejected (Error_of (Response.text json))) /\
     listeners st2 = [] /\ sent_on 0 st2 = [auth_request token] /\ isAuthed st2 = false).
Proof.
  intros op token json Hop Ht Hc He st1 st2.
  destruct token as [|c token]; [congruence | clear Ht].
  destruct json as [ch ev tx sy oi ci os ol]. simpl in Hc, He. subst ch ev.
  split; [destruct op; try destruct Hop; reflexivity|].
  unfold steps in st1; cbn [fold_left] in st1.
  set (st0 := step 10 (initial _) _) in st1.
  destruct op; try destruct Hop.
  all: advance st0 I E0; advance st1 E0 E1; advance st2 E1 E2.
  all: rewrite E1, E2.
  all: repeat split; reflexivity.
Qed.

Lemma refused_token_rejects_witness :
  let st1 := steps 10 (initial (Some "Foo")) [Call Bcx_getBalances; Open 0] in
  let st2 := step 10 st1 (Message 0 (refusal Channel.AUTH "Invalid token")) in
  promise 0 st2 = Some (Rejected (Error "Invalid token")).
Proof.
  assert (Ht : "Foo" <> "") by discriminate.
  exact (proj1 (proj2 (proj2
           (@refused_token_rejects Bcx_getBalances "Foo" (refusal Channel.AUTH "Invalid token")
              I Ht eq_refl eq_refl)))).
Defined.

(** **** Subscriptions with a callback *)

(** The subscriptions that need no secret: the channel, and the callback of
    the caller. *)
Definition anonymous_stream (op : Operation) : option (Channel.t * string * nat) :=
  match op with
  | Bcx_subscribeTicker symbol cb => Some (Channel.TICKER, symbol, cb)
  | Bcx_subscribeMarket symbol level cb => Some (level_as_Channel level, symbol, cb)
  | _ => None
  end.

(** X22.  [subscribeTicker] and [subscribeMarket] on a new client.  The promise is
    not settled by the acknowledgement of the server: [resolve] is called in
    the callback, so the promise is fulfilled when the first frame of the
    channel that is not an acknowledgement arrives.  That frame and each one
    after it is passed to the callback of the caller. *)
Theorem subscription_resolves_on_first_frame :
  forall (op : Operation) (channel : Channel.t) (symbol : string) (cb : nat)
         (apiSecret : option string) (json json' : Response.t),
    anonymous_stream op = Some (channel, symbol, cb) ->
    Response.channel json = channel -> data_event (Response.event json) = true ->
    Response.channel json' = channel -> data_event (Response.event json') = true ->
    let st1 := steps 10 (initial apiSecret) [Call op; Open 0] in
    let st2 := step 10 st1 (Message 0 (ack channel ChannelEvent.SUBSCRIBED)) in
    let st3 := step 10 st2 (Message 0 json) in
    let st4 := step 10 st3 (Message 0 json') in
    fst (perform op (initial apiSecret)) = Normal (Some 0) /\
    sent_on 0 st1 = [mkRequest Action.SUBSCRIBE channel (symbol_params symbol)] /\
    (promise 0 st2 = None /\ calls st2 = []) /\
    (promise 0 st3 = Some (Fulfilled undefined) /\ calls st3 = [(cb, json)]) /\
    calls st4 = [(cb, json); (cb, json')].
Proof.
  intros op channel symbol cb apiSecret json json' Hop Hc He Hc' He' st1 st2 st3 st4.
  destruct json as [ch ev tx sy oi ci os ol]. destruct json' as [ch' ev' tx' sy' oi' ci' os' ol'].
  simpl in Hc, He, Hc', He'. subst ch ch'.
  assert (E : fst (perform op (initial apiSecret)) = Normal (Some 0)).
  { destruct op; try discriminate Hop; reflexivity. }
  split; [exact E | clear E].
  unfold steps in st1; cbn [fold_left] in st1.
  set (st0 := step 10 (initial _) _) in st1.
  destruct op; try discriminate Hop; simpl in Hop; injection Hop as <- <- <-;
    try destruct level.
  all: destruct ev; try discriminate He; destruct ev'; try discriminate He'.
  all: advance st0 I E0; advance st1 E0 E1; advance st2 E1 E2; advance st3 E2 E3;
    advance st4 E3 E4.
  all: rewrite E1, E2, E3, E4.
  all: repeat split; reflexivity.
Qed.

Lemma subscription_resolves_on_first_frame_witness :
  let st1 := steps 10 (initial None) [Call (Bcx_subscribeTicker "BTC-USD" 1); Open 0] in
  let st2 := step 10 st1 (Message 0 (ack Channel.TICKER ChannelEvent.SUBSCRIBED)) in
  let st3 := step 10 st2 (Message 0 (ticker ChannelEvent.SNAPSHOT "BTC-USD")) in
  promise 0 st2 = None /\ promise 0 st3 = Some (Fulfilled undefined).
Proof.
  destruct (@subscription_resolves_on_first_frame (Bcx_subscribeTicker "BTC-USD" 1)
              Channel.TICKER "BTC-USD" 1 None (ticker ChannelEvent.SNAPSHOT "BTC-USD")
              (ticker ChannelEvent.UPDATED "BTC-USD") eq_refl eq_refl eq_refl eq_refl eq_refl)
    as (_ & _ & (H1 & _) & (H2 & _) & _).
  split; [exact H1 | exact H2].
Defined.

(** The subscriptions that need the secret. *)
Definition authenticated_stream (op : Operation) : option (Channel.t * nat) :=
  match op with
  | Bcx_subscribeBalances cb => Some (Channel.BALANCES, cb)
  | Bcx_subscribeTrading cb => Some (Channel.TRADING, cb)
  | _ => None
  end.

(** X23.  [subscribeBalances] and [subscribeTrading] on a new client with a
    secret.  The authentication request is written first, the subscribe
    request once the server has acknowledged it.  The acknowledgement of the
    subscription is not passed to the callback and does not settle the
    promise; the first other frame of the channel does both.  Since the
    "subscribed" event never reaches the callback of [subscribeTrading], the
    client does not record that it is subscribed to trading. *)
Theorem authenticated_subscription_resolves_on_first_frame :
  forall (op : Operation) (channel : Channel.t) (cb : nat) (token : string)
         (json : Response.t),
    authenticated_stream op = Some (channel, cb) ->
    token <> "" ->
    Response.channel json = channel -> data_event (Response.event json) = true ->
    let st1 := steps 10 (initial (Some token)) [Call op; Open 0] in
    let st2 := step 10 st1 (Message 0 (ack Channel.AUTH ChannelEvent.SUBSCRIBED)) in
    let st3 := step 10 st2 (Message 0 (ack channel ChannelEvent.SUBSCRIBED)) in
    let st4 := step 10 st3 (Message 0 json) in
    fst (perform op (initial (Some token))) = Normal (Some 0) /\
    sent_on 0 st1 = [auth_request token] /\
    sent_on 0 st2 = [auth_request token; mkRequest Action.SUBSCRIBE channel []] /\
    (promise 0 st3 = None /\ calls st3 = []) /\
    (promise 0 st4 = Some (Fulfilled undefined) /\ calls st4 = [(cb, json)]) /\
    subscribed_to_trading st4 = false.
Proof.
  intros op channel cb token json Hop Ht Hc He st1 st2 st3 st4.
  destruct token as [|c token]; [congruence | clear Ht].
  destruct json as [ch ev tx sy oi ci os ol]. simpl in Hc, He. subst ch.
  assert (E : fst (perform op (initial (Some (String c token)))) = Normal (Some 0)).
  { destruct op; try discriminate Hop; reflexivity. }
  split; [exact E | clear E].
  unfold steps in st1; cbn [fold_left] in st1.
  set (st0 := step 10 (initial _) _) in st1.
  destruct op; try discriminate Hop; simpl in Hop; injection Hop as <- <-.
  all: destruct ev; try discriminate He.
  all: advance st0 I E0; advance st1 E0 E1; advance st2 E1 E2; advance st3 E2 E3;
    advance st4 E3 E4.
  all: rewrite E1, E2, E3, E4.
  all: repeat split; reflexivity.
Qed.

Lemma authenticated_subscription_resolves_on_first_frame_witness :
  let st1 := steps 10 (initial (Some "secret")) [Call (Bcx_subscribeTrading 1); Open 0] in
  let st2 := step 10 st1 (Message 0 (ack Channel.AUTH ChannelEvent.SUBSCRIBED)) in
  let st3 := step 10 st2 (Message 0 (ack Channel.TRADING ChannelEvent.SUBSCRIBED)) in
  let st4 := step 10 st3 (Message 0 (open_orders [O1])) in
  promise 0 st3 = None /\ promise 0 st4 = Some (Fulfilled undefined) /\
  subscribed_to_trading st4 = false.
Proof.
  assert (Ht : "secret" <> "") by discriminate.
  destruct (@authenticated_subscription_resolves_on_first_frame (Bcx_subscribeTrading 1)
              Channel.TRADING 1 "secret" (open_orders [O1]) eq_refl Ht eq_refl eq_refl)
    as (_ & _ & _ & (H1 & _) & (H2 & _) & H3).
  split; [exact H1 | split; [exact H2 | exact H3]].
Defined.

(** **** The trading subscription of the client *)

Definition not_subscribed_to_trading : Err := Reason "You not subscribed to trading".

(** X24.  [unsubcribeTrading] never unsubscribes.  Whatever was called on a new
    client and whatever the server sent, [isSubscribedTrading] is false, so
    that the method, when a secret is set, returns a promise rejected with
    its string; it writes nothing and leaves the registry as it is, also
    when [subscribeTrading] has an active subscription. *)
Theorem unsubcribeTrading_always_rejects :
  forall (fuel : nat) (apiSecret : option string) (evs : list Event),
    let st := steps fuel (initial apiSecret) evs in
    truthy (secret st) <> None ->
    let p := List.length (promises st) in
    let st' := exec (perform Bcx_unsubcribeTrading) st in
    fst (perform Bcx_unsubcribeTrading st) = Normal (Some p) /\
    promise p st' = Some (Rejected not_subscribed_to_trading) /\
    sockets st' = sockets st /\ listeners st' = listeners st.
Proof.
  intros fuel apiSecret evs st Hs p st'.
  assert (Hm : subscribed_to_trading st = false)
    by (apply steps_stay_unsubscribed; reflexivity).
  assert (E : perform Bcx_unsubcribeTrading st
              = (Normal (Some p),
                 exec (reject p not_subscribed_to_trading) (exec new_Promise st))).
  { unfold perform, returned, unsubcribeTrading. unfold bind at 1. unfold bind at 1.
    rewrite (enforceAuthToken_passes _ _ Hs). unfold bind at 1, get at 1.
    rewrite Hm. cbn [negb]. unfold bind at 1.
    change (new_Promise st) with (Normal p, exec new_Promise st). cbn iota.
    unfold bind, reject. rewrite settle_normal. reflexivity. }
  subst st'. rewrite (exec_eq _ _ E), E. subst p.
  destruct (rejected_at_once not_subscribed_to_trading st) as (H1 & H2 & H3 & _).
  split; [reflexivity | repeat split; assumption].
Qed.

Lemma unsubcribeTrading_always_rejects_witness :
  let st := steps 10 (initial (Some "secret"))
              [Call (Bcx_subscribeTrading 1); Open 0;
               Message 0 (ack Channel.AUTH ChannelEvent.SUBSCRIBED);
               Message 0 (ack Channel.TRADING ChannelEvent.SUBSCRIBED);
               Message 0 (open_orders [O1])] in
  let p := List.length (promises st) in
  let st' := exec (perform Bcx_unsubcribeTrading) st in
  calls st = [(1, open_orders [O1])] /\
  promise p st' = Some (Rejected not_subscribed_to_trading).
Proof.
  set (evs := [Call (Bcx_subscribeTrading 1); Open 0;
               Message 0 (ack Channel.AUTH ChannelEvent.SUBSCRIBED);
               Message 0 (ack Channel.TRADING ChannelEvent.SUBSCRIBED);
               Message 0 (open_orders [O1])]).
  assert (Hs : truthy (secret (steps 10 (initial (Some "secret")) evs)) <> None)
    by (vm_compute; discriminate).
  split; [vm_compute; reflexivity|].
  exact (proj1 (proj2 (@unsubcribeTrading_always_rejects 10 (Some "secret") evs Hs))).
Defined.

(** **** Open orders *)

Definition orders_of (json : Response.t) : Value :=
  match Response.orders json with
  | Some os => VOrders os
  | None => undefined
  end.

Definition getOpenOrders_listener : Listener.t :=
  Listener.mk Channel.TRADING [] (subscribeTrading_cb (getOpenOrders_cb 0) 1) 2.

(** X25.  [getOpenOrders] on a new client with a secret.  Its promise is
    fulfilled with the [orders] of the first snapshot frame of the trading
    channel.  The subscription it opened is not ended: the listener stays in
    the registry and no unsubscribe request is written, so that a second
    [getOpenOrders] is refused by [subscribe] as a duplicate. *)
Theorem getOpenOrders_resolves_once :
  forall (token : string) (json : Response.t),
    token <> "" ->
    Response.channel json = Channel.TRADING ->
    Response.event json = ChannelEvent.SNAPSHOT ->
    let st1 := steps 10 (initial (Some token)) [Call Bcx_getOpenOrders; Open 0] in
    let st2 := step 10 st1 (Message 0 (ack Channel.AUTH ChannelEvent.SUBSCRIBED)) in
    let st3 := step 10 st2 (Message 0 (ack Channel.TRADING ChannelEvent.SUBSCRIBED)) in
    let st4 := step 10 st3 (Message 0 json) in
    let st5 := step 10 st4 (Call Bcx_getOpenOrders) in
    fst (perform Bcx_getOpenOrders (initial (Some token))) = Normal (Some 0) /\
    promise 0 st3 = None /\
    (promise 0 st4 = Some (Fulfilled (orders_of json)) /\
     listeners st4 = [getOpenOrders_listener] /\
     sent_on 0 st4 = [auth_request token; mkRequest Action.SUBSCRIBE Channel.TRADING []]) /\
    (fst (perform Bcx_getOpenOrders st4) = Normal (Some 5) /\
     promise 5 st5 = Some (Rejected (duplicate Channel.TRADING)) /\
     sent_on 0 st5 = sent_on 0 st4).
Proof.
  intros token json Ht Hc He st1 st2 st3 st4 st5.
  destruct token as [|c token]; [congruence | clear Ht].
  destruct json as [ch ev tx sy oi ci os ol]. simpl in Hc, He. subst ch ev.
  split; [reflexivity|].
  unfold steps in st1; cbn [fold_left] in st1.
  set (st0 := step 10 (initial _) _) in st1.
  advance st0 I E0; advance st1 E0 E1; advance st2 E1 E2; advance st3 E2 E3;
    advance st4 E3 E4; advance st5 E4 E5.
  rewrite E3, E4, E5. unfold orders_of. cbn [Response.orders].
  repeat split; reflexivity.
Qed.

Lemma getOpenOrders_resolves_once_witness :
  let st1 := steps 10 (initial (Some "secret")) [Call Bcx_getOpenOrders; Open 0] in
  let st2 := step 10 st1 (Message 0 (ack Channel.AUTH ChannelEvent.SUBSCRIBED)) in
  let st3 := step 10 st2 (Message 0 (ack Channel.TRADING ChannelEvent.SUBSCRIBED)) in
  let st4 := step 10 st3 (Message 0 (open_orders [O1; O2])) in
  let st5 := step 10 st4 (Call Bcx_getOpenOrders) in
  promise 0 st4 = Some (Fulfilled (VOrders [O1; O2])) /\
  promise 5 st5 = Some (Rejected (duplicate Channel.TRADING)).
Proof.
  assert (Ht : "secret" <> "") by discriminate.
  destruct (@getOpenOrders_resolves_once "secret" (open_orders [O1; O2]) Ht eq_refl eq_refl)
    as (_ & _ & (H1 & _) & (_ & H2 & _)).
  split; [exact H1 | exact H2].
Defined.

(** The order a lookup asks for: by its order id, or by the id the client
    gave it. *)
Definition lookup (op : Operation) : option ((Order.t -> bool) * Err) :=
  match op with
  | Bcx_getOrder orderID =>
      Some (fun order => String.eqb (Order.orderID order) orderID,
            Error ("Order with orderId " +++ orderID +++ " not found"))
  | Bcx_getOrderByClientOrderId clOrdID =>
      Some (fun order => String.eqb (Order.clOrdID order) clOrdID,
            Error ("Order with clOrdID " +++ clOrdID +++ " not found"))
  | _ => None
  end.

(** X26.  [getOrder] and [getOrderByClientOrderId] on a new client with a secret:
    the promise is fulfilled with the first order of the snapshot that has
    the id asked for, and rejected with "not found" when the snapshot has
    none. *)
Theorem getOrder_finds_first_match :
  forall (op : Operation) (test : Order.t -> bool) (not_found : Err) (token : string)
         (json : Response.t) (os : list Order.t),
    lookup op = Some (test, not_found) ->
    token <> "" ->
    Response.channel json = Channel.TRADING ->
    Response.event json = ChannelEvent.SNAPSHOT ->
    Response.orders json = Some os ->
    let st1 := steps 10 (initial (Some token)) [Call op; Open 0] in
    let st2 := step 10 st1 (Message 0 (ack Channel.AUTH ChannelEvent.SUBSCRIBED)) in
    let st3 := step 10 st2 (Message 0 (ack Channel.TRADING ChannelEvent.SUBSCRIBED)) in
    let st4 := step 10 st3 (Message 0 json) in
    fst (perform op (initial (Some token))) = Normal (Some 0) /\
    promise 0 st3 = None /\
    promise 0 st4 =
      match find test os with
      | Some order => Some (Fulfilled (VOrder order))
      | None => Some (Rejected not_found)
      end.
Proof.
  intros op test not_found token json os Hop Ht Hc He Hos st1 st2 st3 st4.
  destruct token as [|c token]; [congruence | clear Ht].
  destruct json as [ch ev tx sy oi ci ost ol]. simpl in Hc, He, Hos. subst ch ev ol.
  assert (E : fst (perform op (initial (Some (String c token)))) = Normal (Some 0)).
  { destruct op; try discriminate Hop; reflexivity. }
  split; [exact E | clear E].
  unfold steps in st1; cbn [fold_left] in st1.
  set (st0 := step 10 (initial _) _) in st1.
  destruct op; try discriminate Hop; simpl in Hop; injection Hop as <- <-.
  all: advance st0 I E0; advance st1 E0 E1; advance st2 E1 E2; advance st3 E2 E3.
  all: split; [rewrite E3; reflexivity|].
  all: subst st4; rewrite E3.
  all: match goal with
       | |- context [find ?f ?l] => remember (find f l) as found eqn:F
       end.
  all: cbv beta iota zeta delta
         -[drain is_listener kept same_function String.eqb strict_eq String.append escape
           to_string] in F.
  all: destruct found.
  all: unfold step; repeat progress (run_code; decide_tests; rewrite <- ?F; run_microtask).
  all: reflexivity.
Qed.

Lemma getOrder_finds_first_match_witness :
  let st1 := steps 10 (initial (Some "secret")) [Call (Bcx_getOrder "2"); Open 0] in
  let st2 := step 10 st1 (Message 0 (ack Channel.AUTH ChannelEvent.SUBSCRIBED)) in
  let st3 := step 10 st2 (Message 0 (ack Channel.TRADING ChannelEvent.SUBSCRIBED)) in
  let st4 := step 10 st3 (Message 0 (open_orders [O1; O2])) in
  promise 0 st4 = Some (Fulfilled (VOrder O2)).
Proof.
  assert (Ht : "secret" <> "") by discriminate.
  exact (proj2 (proj2
           (@getOrder_finds_first_match (Bcx_getOrder "2") _ _ "secret" (open_orders [O1; O2])
              [O1; O2] eq_refl Ht eq_refl eq_refl eq_refl))).
Defined.

(** **** Cancelling an order *)

(** X27.  [cancelOrder] on a new client with a secret.  The cancel request is
    written after [await this.subscribeTrading(...)], and the promise of
    [subscribeTrading] is settled in its callback: the acknowledgement of the
    subscription does not release the request, the first other frame of the
    trading channel does (here the snapshot of open orders).  The request is
    written once, with the order id, and the promise stays pending. *)
Theorem cancelOrder_sends_after_first_frame :
  forall (orderID token : string) (json : Response.t),
    token <> "" ->
    Response.channel json = Channel.TRADING ->
    Response.event json = ChannelEvent.SNAPSHOT ->
    let st1 := steps 10 (initial (Some token)) [Call (Bcx_cancelOrder orderID); Open 0] in
    let st2 := step 10 st1 (Message 0 (ack Channel.AUTH ChannelEvent.SUBSCRIBED)) in
    let st3 := step 10 st2 (Message 0 (ack Channel.TRADING ChannelEvent.SUBSCRIBED)) in
    let st4 := step 10 st3 (Message 0 json) in
    fst (perform (Bcx_cancelOrder orderID) (initial (Some token))) = Normal (Some 0) /\
    (promise 0 st3 = None /\
     sent_on 0 st3 = [auth_request token; mkRequest Action.SUBSCRIBE Channel.TRADING []]) /\
    (promise 0 st4 = None /\
     sent_on 0 st4 = [auth_request token; mkRequest Action.SUBSCRIBE Channel.TRADING [];
                      cancel_order_request orderID] /\
     jobs st4 = [] /\ reactions st4 = []).
Proof.
  intros orderID token json Ht Hc He st1 st2 st3 st4.
  destruct token as [|c token]; [congruence | clear Ht].
  destruct json as [ch ev tx sy oi ci os ol]. simpl in Hc, He. subst ch ev.
  split; [reflexivity|].
  unfold steps in st1; cbn [fold_left] in st1.
  set (st0 := step 10 (initial _) _) in st1.
  advance st0 I E0; advance st1 E0 E1; advance st2 E1 E2; advance st3 E2 E3;
    advance st4 E3 E4.
  rewrite E3, E4. repeat split; reflexivity.
Qed.

Lemma cancelOrder_sends_after_first_frame_witness :
  let st1 := steps 10 (initial (Some "secret")) [Call (Bcx_cancelOrder "77"); Open 0] in
  let st2 := step 10 st1 (Message 0 (ack Channel.AUTH ChannelEvent.SUBSCRIBED)) in
  let st3 := step 10 st2 (Message 0 (ack Channel.TRADING ChannelEvent.SUBSCRIBED)) in
  let st4 := step 10 st3 (Message 0 (open_orders [O1])) in
  sent_on 0 st3 = [auth_request "secret"; mkRequest Action.SUBSCRIBE Channel.TRADING []] /\
  sent_on 0 st4 = [auth_request "secret"; mkRequest Action.SUBSCRIBE Channel.TRADING [];
                   cancel_order_request "77"].
Proof.
  assert (Ht : "secret" <> "") by discriminate.
  destruct (@cancelOrder_sends_after_first_frame "77" "secret" (open_orders [O1])
              Ht eq_refl eq_refl) as (_ & (_ & H1) & (_ & H2 & _)).
  split; [exact H1 | exact H2].
Defined.

(** X28.  [createOrder] on a client that is not subscribed to trading calls
    [subscribeTrading] and neither awaits its promise nor handles its
    rejection.  When the server refuses the token, the promise of
    [subscribeTrading] is rejected and the one of [createOrder] stays
    pending, with nothing left that waits or listens. *)
Theorem createOrder_pending_after_refused_token :
  forall (order : OrderCreationRequest) (token : string) (json : Response.t),
    token <> "" ->
    Response.channel json = Channel.AUTH ->
    Response.event json = ChannelEvent.REJECTED ->
    let st1 := steps 10 (initial (Some token)) [Call (Bcx_createOrder order); Open 0] in
    let st2 := step 10 st1 (Message 0 json) in
    fst (perform (Bcx_createOrder order) (initial (Some token))) = Normal (Some 0) /\
    promise 0 st2 = None /\
    promise 1 st2 = Some (Rejected (Error_of (Response.text json))) /\
    reactions st2 = [] /\ jobs st2 = [] /\ listeners st2 = [] /\
    sent_on 0 st2 = [auth_request token].
Proof.
  intros order token json Ht Hc He st1 st2.
  destruct token as [|c token]; [congruence | clear Ht].
  destruct json as [ch ev tx sy oi ci os ol]. simpl in Hc, He. subst ch ev.
  split; [reflexivity|].
  unfold steps in st1; cbn [fold_left] in st1.
  set (st0 := step 10 (initial _) _) in st1.
  advance st0 I E0; advance st1 E0 E1; advance st2 E1 E2.
  rewrite E2. repeat split; reflexivity.
Qed.

Lemma createOrder_pending_after_refused_token_witness :
  let st1 := steps 10 (initial (Some "Foo")) [Call (Bcx_createOrder order_X); Open 0] in
  let st2 := step 10 st1 (Message 0 (refusal Channel.AUTH "Invalid token")) in
  promise 0 st2 = None.
Proof.
  assert (Ht : "Foo" <> "") by discriminate.
  exact (proj1 (proj2
           (@createOrder_pending_after_refused_token order_X "Foo"
              (refusal Channel.AUTH "Invalid token") Ht eq_refl eq_refl))).
Defined.

(** **** Creating an order *)

Lemma strict_eq_refl (x : string) : strict_eq x (Some x) = true.
Proof. apply String.eqb_refl. Qed.

(** X29.  [createOrder] on a new client with a secret subscribes to trading and
    waits; the order is not written.  An update of the trading channel that
    carries the [clOrdID] of the order makes the callback unsubscribe, and
    the promise is fulfilled with that update when an "unsubscribed" frame
    arrives.  The requests written are those of the authentication, of the
    subscription and of its end. *)
Theorem createOrder_resolves_on_matching_update :
  forall (order : OrderCreationRequest) (token : string) (json bye : Response.t),
    token <> "" ->
    Response.channel json = Channel.TRADING ->
    Response.event json = ChannelEvent.UPDATED ->
    Response.clOrdID json = Some (req_clOrdID order) ->
    Response.event bye = ChannelEvent.UNSUBSCRIBED ->
    let st1 := steps 10 (initial (Some token)) [Call (Bcx_createOrder order); Open 0] in
    let st2 := step 10 st1 (Message 0 (ack Channel.AUTH ChannelEvent.SUBSCRIBED)) in
    let st3 := step 10 st2 (Message 0 (ack Channel.TRADING ChannelEvent.SUBSCRIBED)) in
    let st4 := step 10 st3 (Message 0 json) in
    let st5 := step 10 st4 (Message 0 bye) in
    (promise 0 st3 = None /\
     sent_on 0 st3 = [auth_request token; mkRequest Action.SUBSCRIBE Channel.TRADING []]) /\
    (promise 0 st4 = None /\ listeners st4 = []) /\
    (promise 0 st5 = Some (Fulfilled (VResponse json)) /\
     sent_on 0 st5 = [auth_request token; mkRequest Action.SUBSCRIBE Channel.TRADING [];
                      mkRequest Action.UNSUBSCRIBE Channel.TRADING []] /\
     jobs st5 = [] /\ reactions st5 = []).
Proof.
  intros [clOrdID rest] token json bye Ht Hc He Hi Hb st1 st2 st3 st4 st5.
  destruct token as [|c token]; [congruence | clear Ht].
  destruct json as [ch ev tx sy oi ci os ol]. destruct bye as [ch' ev' tx' sy' oi' ci' os' ol'].
  simpl in Hc, He, Hi, Hb. subst ch ev ci ev'.
  unfold steps in st1; cbn [fold_left] in st1.
  set (st0 := step 10 (initial _) _) in st1.
  advance st0 I E0; advance st1 E0 E1; advance st2 E1 E2; advance st3 E2 E3.
  evar (x4 : State).
  assert (E4 : st4 = x4).
  { subst st4 x4. rewrite E3. unfold step.
    repeat progress (run_code; decide_tests; rewrite ?strict_eq_refl; run_microtask).
    reflexivity. }
  subst x4.
  advance st5 E4 E5.
  rewrite E3, E4, E5. repeat split; reflexivity.
Qed.

Lemma createOrder_resolves_on_matching_update_witness :
  let st1 := steps 10 (initial (Some "secret")) [Call (Bcx_createOrder order_X); Open 0] in
  let st2 := step 10 st1 (Message 0 (ack Channel.AUTH ChannelEvent.SUBSCRIBED)) in
  let st3 := step 10 st2 (Message 0 (ack Channel.TRADING ChannelEvent.SUBSCRIBED)) in
  let st4 := step 10 st3 (Message 0 (order_update "77" "X" OrderStatus.OPEN)) in
  let st5 := step 10 st4 (Message 0 (ack Channel.TRADING ChannelEvent.UNSUBSCRIBED)) in
  promise 0 st5 = Some (Fulfilled (VResponse (order_update "77" "X" OrderStatus.OPEN))).
Proof.
  assert (Ht : "secret" <> "") by discriminate.
  exact (proj1 (proj2 (proj2
           (@createOrder_resolves_on_matching_update order_X "secret"
              (order_update "77" "X" OrderStatus.OPEN)
              (ack Channel.TRADING ChannelEvent.UNSUBSCRIBED)
              Ht eq_refl eq_refl eq_refl eq_refl)))).
Defined.

(** *** The requests the client writes

    [createOrder] sends its order only when [isSubscribedTrading] is set,
    which it never is.  The invariant below holds of every state the client
    reaches: no request to place an order is written to a websocket or is
    carried by a continuation that will write it. *)

(** The request does not place an order. *)
Definition quiet (request : Request) : Prop :=
  property "action" request <> Some (Action.name Action.NEW_ORDER_SINGLE).

(** Parameters that do not turn the request they are spread into into an
    order: they have no property [action] with the value of
    [Action.NEW_ORDER_SINGLE]. *)
Definition plain (params : Params) : Prop :=
  ~ In ("action", Action.name Action.NEW_ORDER_SINGLE) params.

Definition plain_opt (params : option Params) : Prop :=
  match params with
  | Some params => plain params
  | None => True
  end.

Lemma property_cons (k k' v' : string) (o : Params) :
  property k ((k', v') :: o) = if String.eqb k' k then Some v' else property k o.
Proof. unfold property. cbn [find fst]. now destruct (String.eqb k' k). Qed.

Lemma property_set_property (k k2 v2 : string) (o : Params) :
  property k (set_property k2 v2 o) = if String.eqb k2 k then Some v2 else property k o.
Proof.
  induction o as [|[k' v'] r IH]; cbn [set_property].
  - rewrite property_cons. reflexivity.
  - destruct (String.eqb k' k2) eqn:E; rewrite !property_cons.
    + apply String.eqb_eq in E. subst k'.
      destruct (String.eqb k2 k); reflexivity.
    + rewrite IH. destruct (String.eqb k' k) eqn:E1; [|reflexivity].
      destruct (String.eqb k2 k) eqn:E2; [|reflexivity].
      apply String.eqb_eq in E1, E2. subst. now rewrite String.eqb_refl in E.
Qed.

(** A property of [{...o, ...params}] comes from [params] or from [o]. *)
Lemma property_spread (k v : string) (params o : Params) :
  property k (spread o params) = Some v -> In (k, v) params \/ property k o = Some v.
Proof.
  unfold spread. revert o. induction params as [|[k2 v2] ps IH]; intros o H; cbn [fold_left] in H.
  - now right.
  - destruct (IH _ H) as [I | P]; [left; now right|].
    cbn [fst snd] in P. rewrite property_set_property in P.
    destruct (String.eqb k2 k) eqn:E; [|now right].
    apply String.eqb_eq in E. subst k2. injection P as ->. left. now left.
Qed.

Lemma quiet_mkRequest (a : Action.t) (channel : Channel.t) (params : Params) :
  a <> Action.NEW_ORDER_SINGLE -> plain params -> quiet (mkRequest a channel params).
Proof.
  intros Ha Hp H. unfold mkRequest in H. apply property_spread in H.
  destruct H as [I | P]; [exact (Hp I)|].
  destruct a; try discriminate P. now apply Ha.
Qed.

(** The requests a continuation will write, and the parameters it will
    spread into one. *)
Definition carries (k : Cont) : Prop :=
  match k with
  | send_1 request _ _ | send_2 request _ => quiet request
  | subscribe_1 _ _ params _ _ | subscribe_2 _ _ params _ => plain params
  | _ => True
  end.

Record orderless (st : State) : Prop := {
  orderless_sent :
    forall ws s, nth_error (sockets st) ws = Some s -> Forall quiet (WebSocket.sent s);
  orderless_reactions : Forall (fun r => carries (snd r)) (reactions st);
  orderless_jobs : Forall (fun j => carries (fst j)) (jobs st);
  orderless_mode : subscribed_to_trading st = false
}.

Lemma nth_error_update_inv {A} (l : list A) (n m : nat) (x y : A) :
  nth_error (update n x l) m = Some y -> y = x \/ nth_error l m = Some y.
Proof.
  revert n m; induction l as [|a l IH]; intros [|n] [|m] H; simpl in *;
    try discriminate; try (now right).
  - left. congruence.
  - now apply IH with (n := n).
Qed.

Lemma orderless_modify (g : State -> State) :
  (forall st, sockets (g st) = sockets st /\ reactions (g st) = reactions st /\
              jobs (g st) = jobs st /\
              subscribed_to_trading (g st) = subscribed_to_trading st) ->
  preserves orderless (modify g).
Proof.
  intros Hg st [H1 H2 H3 H4]. unfold exec, modify. cbn [snd].
  destruct (Hg st) as (G1 & G2 & G3 & G4).
  constructor; [rewrite G1 | rewrite G2 | rewrite G3 | rewrite G4]; assumption.
Qed.

Lemma orderless_new_Promise : preserves orderless new_Promise.
Proof. intros st [H1 H2 H3 H4]. constructor; assumption. Qed.

Lemma orderless_new_array os : preserves orderless (new_array os).
Proof. intros st [H1 H2 H3 H4]. constructor; assumption. Qed.

Lemma orderless_settle p o : preserves orderless (settle p o).
Proof.
  intros st [H1 H2 H3 H4]. unfold exec, settle.
  destruct (nth_error (promises st) p) as [[x|]|]; try (constructor; assumption).
  constructor; cbn [snd sockets reactions jobs set_jobs set_reactions set_promises];
    try assumption.
  - apply Forall_forall. intros r Hr. apply filter_In in Hr.
    exact (proj1 (Forall_forall _ _) H2 r (proj1 Hr)).
  - apply Forall_app. split; [exact H3|].
    apply Forall_forall. intros j Hj. apply in_map_iff in Hj.
    destruct Hj as (r & <- & Hr). apply filter_In in Hr.
    exact (proj1 (Forall_forall _ _) H2 r (proj1 Hr)).
Qed.

Lemma orderless_await p k : carries k -> preserves orderless (await p k).
Proof.
  intros Hk st [H1 H2 H3 H4]. unfold exec, await.
  destruct (promise p st); constructor;
    cbn [snd sockets reactions jobs set_jobs set_reactions]; try assumption.
  - apply Forall_app. split; [exact H3 | repeat constructor; exact Hk].
  - apply Forall_app. split; [exact H2 | repeat constructor; exact Hk].
Qed.

Lemma orderless_new_WebSocket p : preserves orderless (new_WebSocket p).
Proof.
  intros st [H1 H2 H3 H4]. constructor; try assumption.
  intros ws s Hs. unfold exec, new_WebSocket in Hs. cbn [snd sockets set_sockets] in Hs.
  destruct (Nat.lt_ge_cases ws (List.length (sockets st))) as [L | L].
  - rewrite nth_error_app1 in Hs by exact L. now apply (H1 ws).
  - rewrite nth_error_app2 in Hs by exact L.
    destruct (ws - List.length (sockets st)) as [|[|n]]; simpl in Hs; try discriminate.
    injection Hs as <-. constructor.
Qed.

Lemma orderless_on_socket ws f :
  (forall s, Forall quiet (WebSocket.sent s) -> Forall quiet (WebSocket.sent (f s))) ->
  preserves orderless (on_socket ws f).
Proof.
  intros Hf st [H1 H2 H3 H4]. unfold exec, on_socket, modify, socket. cbn [snd].
  destruct (nth_error (sockets st) ws) as [s|] eqn:E; [|constructor; assumption].
  constructor; try assumption.
  intros ws' s' Hs'. cbn [sockets set_sockets] in Hs'.
  apply nth_error_update_inv in Hs'. destruct Hs' as [-> | Hs'].
  - apply Hf. now apply (H1 ws).
  - now apply (H1 ws').
Qed.

Lemma orderless_mode_false : preserves orderless (set_isSubscribedTrading false).
Proof. intros st [H1 H2 H3 H4]. constructor; try assumption. reflexivity. Qed.

(** Where the code reads [isSubscribedTrading], it reads false. *)
Lemma orderless_get_mode {A} (k : bool -> M A) :
  preserves orderless (k false) ->
  preserves orderless (bind (get subscribed_to_trading) k).
Proof.
  intros Hk st H. unfold exec, bind, get. rewrite (orderless_mode H). now apply Hk.
Qed.

Create HintDb orderless.

#[local] Hint Resolve orderless_new_Promise orderless_new_array orderless_settle
  orderless_new_WebSocket orderless_mode_false : orderless.
#[local] Hint Extern 1 (quiet _) => (unfold quiet; simpl; discriminate) : orderless.
#[local] Hint Extern 2 (quiet (mkRequest _ _ _)) =>
  (apply quiet_mkRequest; [discriminate | auto with orderless]) : orderless.
#[local] Hint Extern 1 (plain _) => assumption : orderless.
#[local] Hint Extern 2 (plain _) =>
  (unfold plain, symbol_params; simpl; intuition discriminate) : orderless.
#[local] Hint Extern 1 (carries _) => exact I : orderless.
#[local] Hint Extern 2 (carries _) => (simpl; assumption) : orderless.
#[local] Hint Extern 1 (preserves orderless (resolve _ _)) => apply orderless_settle : orderless.
#[local] Hint Extern 1 (preserves orderless (reject _ _)) => apply orderless_settle : orderless.
#[local] Hint Extern 1 (preserves orderless (await _ _)) =>
  (apply orderless_await; simpl; auto with orderless) : orderless.
#[local] Hint Extern 1 (preserves orderless (on_socket _ _)) =>
  (apply orderless_on_socket; intros [? ? ? ?] ?; cbn; auto using Forall_app, Forall_cons)
  : orderless.
#[local] Hint Extern 1 (preserves orderless (modify _)) =>
  (apply orderless_modify; intros [? ? ? ? ? ? ? ? ? ? ?]; repeat split; reflexivity)
  : orderless.

Lemma orderless_write ws request :
  quiet request -> preserves orderless (on_socket ws (write request)).
Proof.
  intros Hq. apply orderless_on_socket. intros s Hs. unfold write. cbn [WebSocket.sent].
  apply Forall_app. split; [exact Hs | repeat constructor; exact Hq].
Qed.

Lemma orderless_ws_send ws request cb :
  quiet request ->
  (forall err, preserves orderless (cb err)) ->
  preserves orderless (ws_send ws request cb).
Proof.
  intros Hq Hcb. unfold ws_send, defined.
  destruct ws as [w|]; [|intros st H; exact H].
  apply preserves_bind; [apply preserves_ret | intros w'].
  apply preserves_bind; [apply preserves_get | intros s].
  destruct (option_map WebSocket.readyState s) as [[| |]|];
    try apply Hcb; try apply preserves_throw.
  apply preserves_bind; [now apply orderless_write | intros _; apply Hcb].
Qed.

Ltac orderly :=
  repeat first
    [ assumption
    | solve [auto with orderless]
    | apply preserves_ret | apply preserves_throw | apply preserves_get
    | apply orderless_get_mode
    | apply orderless_ws_send; [solve [auto with orderless] | intro]
    | apply preserves_bind; [|intro]
    | apply preserves_try_catch; [|intro]
    | apply preserves_async
    | apply preserves_when
    | match goal with
      | |- preserves orderless (match ?x with _ => _ end) => destruct x
      end ].

Lemma orderless_defined ws : preserves orderless (defined ws).
Proof. unfold defined. orderly. Qed.
#[local] Hint Resolve orderless_defined : orderless.

Lemma orderless_ws_on ws f : preserves orderless (ws_on ws f).
Proof. unfold ws_on. orderly. Qed.

Lemma orderless_ws_addEventListener ws f : preserves orderless (ws_addEventListener ws f).
Proof. unfold ws_addEventListener. orderly. Qed.

Lemma orderless_ws_removeEventListener ws f :
  preserves orderless (ws_removeEventListener ws f).
Proof. unfold ws_removeEventListener. orderly. Qed.
#[local] Hint Resolve orderless_ws_on orderless_ws_addEventListener
  orderless_ws_removeEventListener : orderless.

Lemma orderless_reject_on_error p err : preserves orderless (reject_on_error p err).
Proof. unfold reject_on_error. orderly. Qed.
#[local] Hint Resolve orderless_reject_on_error : orderless.

Lemma orderless_flush : preserves orderless flush.
Proof. unfold flush. orderly. Qed.
#[local] Hint Resolve orderless_flush : orderless.

Lemma orderless_authenticate ws authToken : preserves orderless (authenticate ws authToken).
Proof.
  unfold authenticate. orderly.
Qed.
#[local] Hint Resolve orderless_authenticate : orderless.

Lemma orderless_getSocket : preserves orderless getSocket.
Proof. unfold getSocket. orderly. Qed.
#[local] Hint Resolve orderless_getSocket : orderless.

Lemma orderless_send_write request p :
  quiet request -> preserves orderless (send_write request p).
Proof.
  intros Hq. unfold send_write. orderly.
Qed.
#[local] Hint Resolve orderless_send_write : orderless.

Lemma orderless_send_authenticate request authToken p :
  quiet request -> preserves orderless (send_authenticate request authToken p).
Proof.
  intros Hq. unfold send_authenticate. orderly.
Qed.
#[local] Hint Resolve orderless_send_authenticate : orderless.

Lemma orderless_send request authToken :
  quiet request -> preserves orderless (send request authToken).
Proof.
  intros Hq. unfold send. orderly.
Qed.
#[local] Hint Resolve orderless_send : orderless.

Lemma orderless_unsubscribe channel params :
  plain_opt params -> preserves orderless (unsubscribe channel params).
Proof.
  intros Hp. unfold unsubscribe. destruct params as [params|]; simpl in Hp; orderly.
Qed.
#[local] Hint Extern 1 (preserves orderless (unsubscribe _ _)) =>
  (apply orderless_unsubscribe; simpl; auto with orderless) : orderless.

Lemma orderless_subscribe_register channel listener params p :
  plain params -> preserves orderless (subscribe_register channel listener params p).
Proof.
  intros Hp. unfold subscribe_register. orderly.
Qed.
#[local] Hint Resolve orderless_subscribe_register : orderless.

Lemma orderless_subscribe_checks channel listener params authToken p :
  plain params -> preserves orderless (subscribe_checks channel listener params authToken p).
Proof. intros Hp. unfold subscribe_checks. orderly. Qed.
#[local] Hint Resolve orderless_subscribe_checks : orderless.

Lemma orderless_subscribe channel listener params authToken :
  plain params -> preserves orderless (subscribe channel listener params authToken).
Proof. intros Hp. unfold subscribe. orderly. Qed.
#[local] Hint Resolve orderless_subscribe : orderless.

#[local] Hint Extern 1 (preserves orderless (call_callback _ _)) =>
  (unfold call_callback; apply orderless_modify; intros [? ? ? ? ? ? ? ? ? ? ?];
   repeat split; reflexivity) : orderless.
#[local] Hint Extern 1 (preserves orderless (set_apiSecret _)) =>
  (unfold set_apiSecret; apply orderless_modify; intros [? ? ? ? ? ? ? ? ? ? ?];
   repeat split; reflexivity) : orderless.

(** The callbacks are called with events other than "subscribed" only. *)
Lemma orderless_call listener res :
  Response.event res <> ChannelEvent.SUBSCRIBED -> preserves orderless (call listener res).
Proof.
  intros He.
  assert (E : ChannelEvent.eqb (Response.event res) ChannelEvent.SUBSCRIBED = false).
  { destruct (ChannelEvent.eqb _ _) eqn:E;
      [apply ChannelEvent.event_eqb_eq in E; contradiction | reflexivity]. }
  induction listener; simpl; unfold when; rewrite ?E; orderly.
Qed.

Lemma orderless_enforceAuthToken method : preserves orderless (enforceAuthToken method).
Proof. unfold enforceAuthToken. orderly. Qed.
#[local] Hint Resolve orderless_enforceAuthToken : orderless.

Lemma orderless_subscribeTrading cb : preserves orderless (subscribeTrading cb).
Proof. unfold subscribeTrading. orderly. Qed.
#[local] Hint Resolve orderless_subscribeTrading : orderless.

Lemma orderless_unsubcribeTrading : preserves orderless unsubcribeTrading.
Proof. unfold unsubcribeTrading. orderly. Qed.

Lemma orderless_getOpenOrders : preserves orderless getOpenOrders.
Proof. unfold getOpenOrders, async_method. orderly. Qed.
#[local] Hint Resolve orderless_unsubcribeTrading orderless_getOpenOrders : orderless.

Lemma orderless_cancelAllOrders_loop orders i p :
  preserves orderless (cancelAllOrders_loop orders i p).
Proof. unfold cancelAllOrders_loop. orderly. Qed.
#[local] Hint Resolve orderless_cancelAllOrders_loop : orderless.

(** The calls of the client, and those of the socket module that do not ask
    for an order themselves: [send] with a request that places none,
    [subscribe] and [unsubscribe] with parameters that do not replace the
    action of the request by the one of an order. *)
Definition orderless_operation (op : Operation) : Prop :=
  match op with
  | socket_send request _ => quiet request
  | socket_subscribe _ _ params _ => plain params
  | socket_unsubscribe _ params => plain_opt params
  | _ => True
  end.

Lemma orderless_perform op : orderless_operation op -> preserves orderless (perform op).
Proof.
  intros Hop.
  destruct op; simpl in Hop; simpl;
    unfold returned, void, getTicker, subscribeTicker, unsubscribeTicker, getMarket,
      subscribeMarket, unsubscribeMarket, getBalances, subscribeBalances,
      unsubscribeBalances, createOrder, getOrderByClientOrderId, getOrder, cancelOrder,
      cancelAllOrders, Bcx_flush, setAuthenticationToken, async_method; orderly.
Qed.

Lemma orderless_run_authHandler ws p res : preserves orderless (run_authHandler ws p res).
Proof. unfold run_authHandler, JSON_parse_data. orderly. Qed.

Lemma orderless_run_tmpSocketHandler listener p data :
  preserves orderless (run_tmpSocketHandler listener p data).
Proof. unfold run_tmpSocketHandler, JSON_parse_data. orderly. Qed.

Lemma orderless_run_socketHandler l data : preserves orderless (run_socketHandler l data).
Proof.
  unfold run_socketHandler.
  destruct (json_of data) as [json|]; [|orderly].
  destruct (Channel.eqb (Response.channel json) (Listener.channel l)); [|orderly].
  apply preserves_bind; [orderly | intros found].
  destruct (option_map Listener.clientListener found) as [clientListener|]; [|orderly].
  destruct (Response.event json) eqn:E; orderly;
    apply orderless_call; rewrite E; discriminate.
Qed.

Lemma orderless_emit frame rs : preserves orderless (emit frame rs).
Proof.
  induction rs as [|r rs IH]; simpl; orderly.
  destruct r as [[| |]|[| |]]; simpl;
    first [apply orderless_run_authHandler | apply orderless_run_socketHandler
          | apply orderless_run_tmpSocketHandler].
Qed.

(** What happens to the client: any event of a websocket, and any call but
    one of [send] with an order. *)
Definition orderless_event (ev : Event) : Prop :=
  match ev with
  | Call op => orderless_operation op
  | _ => True
  end.

Lemma orderless_handle ev : orderless_event ev -> preserves orderless (handle ev).
Proof.
  intros Hev. destruct ev; simpl in Hev; simpl.
  - orderly. now apply orderless_perform.
  - unfold onopen. orderly.
  - unfold onerror. orderly.
  - unfold onclose. orderly.
  - unfold onmessage. orderly. apply orderless_emit.
Qed.

Lemma orderless_resume k o : carries k -> preserves orderless (resume k o).
Proof.
  intros Hk. destruct k, o; simpl in Hk; simpl; unfold assign__ws, as_array; orderly.
Qed.

Lemma orderless_drain fuel st : orderless st -> orderless (drain fuel st).
Proof.
  revert st; induction fuel as [|fuel IH]; intros st H; simpl; [exact H|].
  destruct (jobs st) as [|[k o] rest] eqn:J; [exact H|].
  apply IH. apply orderless_resume.
  - pose proof (orderless_jobs H) as HJ. rewrite J in HJ. now inversion HJ.
  - destruct H as [H1 H2 H3 H4]. constructor; try assumption.
    cbn [jobs set_jobs]. rewrite J in H3. now inversion H3.
Qed.

Lemma orderless_steps fuel evs :
  Forall orderless_event evs ->
  forall st, orderless st -> orderless (steps fuel st evs).
Proof.
  induction 1 as [|ev evs Hev _ IH]; intros st H; simpl; [exact H|].
  apply IH. unfold step. apply orderless_drain. now apply orderless_handle.
Qed.

Lemma orderless_initial apiSecret : orderless (initial apiSecret).
Proof.
  constructor; try constructor. intros [|ws] s H; discriminate H.
Qed.

(** X30.  No order is ever placed.  Whatever is called on a new client (every
    method of [class Bcx], [createOrder] among them, and [flush], [subscribe]
    and [unsubscribe] of the socket module, the last two with parameters
    that do not themselves set the action of an order) and whatever the
    websockets deliver, no request written to any websocket has the action
    [NewOrderSingle]. *)
Theorem createOrder_never_writes_order :
  forall (fuel : nat) (apiSecret : option string) (evs : list Event) (ws : nat)
         (request : Request),
    Forall orderless_event evs ->
    In request (sent_on ws (steps fuel (initial apiSecret) evs)) ->
    property "action" request <> Some (Action.name Action.NEW_ORDER_SINGLE).
Proof.
  intros fuel apiSecret evs ws request Hevs Hin.
  pose proof (orderless_steps fuel Hevs (orderless_initial apiSecret)) as H.
  unfold sent_on, socket in Hin.
  destruct (nth_error (sockets (steps fuel (initial apiSecret) evs)) ws) as [s|] eqn:E;
    [|destruct Hin].
  exact (proj1 (Forall_forall _ _) (orderless_sent H ws E) request Hin).
Qed.

Lemma createOrder_never_writes_order_witness :
  let evs := [Call (Bcx_createOrder order_X); Open 0;
              Message 0 (ack Channel.AUTH ChannelEvent.SUBSCRIBED);
              Message 0 (ack Channel.TRADING ChannelEvent.SUBSCRIBED);
              Message 0 (order_update "77" "X" OrderStatus.OPEN);
              Call (socket_subscribe Channel.TICKER (Some 1) (symbol_params "BTC-USD") None)] in
  let request := mkRequest Action.SUBSCRIBE Channel.TICKER (symbol_params "BTC-USD") in
  In request (sent_on 0 (steps 10 (initial (Some "secret")) evs)) /\
  property "action" request <> Some (Action.name Action.NEW_ORDER_SINGLE).
Proof.
  set (evs := [Call (Bcx_createOrder order_X); Open 0;
               Message 0 (ack Channel.AUTH ChannelEvent.SUBSCRIBED);
               Message 0 (ack Channel.TRADING ChannelEvent.SUBSCRIBED);
               Message 0 (order_update "77" "X" OrderStatus.OPEN);
               Call (socket_subscribe Channel.TICKER (Some 1) (symbol_params "BTC-USD") None)]).
  assert (Hp : plain (symbol_params "BTC-USD")) by (intros [H | []]; discriminate H).
  assert (Hevs : Forall orderless_event evs) by (repeat constructor; exact Hp).
  assert (Hin : In (mkRequest Action.SUBSCRIBE Channel.TICKER (symbol_params "BTC-USD"))
                  (sent_on 0 (steps 10 (initial (Some "secret")) evs)))
    by (vm_compute; tauto).
  split; [exact Hin|].
  exact (@createOrder_never_writes_order 10 (Some "secret") evs 0 _ Hevs Hin).
Defined.
